(** * plovasp.vaspio: readers of the VASP output files

    A shallow embedding of [python/triqs_dft_tools/converters/plovasp/vaspio.py]
    and the properties of its readers: [Plocar] (LOCPROJ), [Poscar] (POSCAR),
    [Kpoints] (IBZKPT), [Eigenval] (EIGENVAL), [Doscar] (DOSCAR) and the
    container [VaspData] that drives them.

    Conventions of the embedding.
    - A text file is the list of its lines, each with its line terminator,
      as Python's file iteration and [readline] deliver them.
    - Python exceptions are values of [exn]; a computation is a function
      from the state (the object being filled and the unread lines) to an
      [outcome] and the state it leaves behind, so that attributes assigned
      before an exception stay assigned, as in Python.
    - [float] values are kept abstract: the readers are written over any
      type [F] with the operations of [Float64].  Statements about numeric
      values are made in the instance [RealArith] of exact real arithmetic.
    - [print] calls are diagnostics only and are left out. *)

From Stdlib Require Import ZArith QArith Reals Lra Lia Ascii String.
From stdpp Require Import base option list gmap strings pretty.

Local Open Scope string_scope.
Local Open Scope Z_scope.
Local Open Scope list_scope.

(** ** Python strings *)

Module PyStr.

(** [str.isspace] on the ASCII range: TAB..CR, FS..US and the space. *)
Definition isspace (c : ascii) : bool :=
let n := N_of_ascii c in
(((9 <=? n) && (n <=? 13)) || ((28 <=? n) && (n <=? 32)))%N.

Definition snoc (s : string) (c : ascii) : string := s +:+ String c "".

(** [s.split()]: the maximal runs of non-blank characters. *)
Fixpoint split_from (cur : string) (s : string) : list string :=
match s with
| "" => if String.eqb cur "" then [] else [cur]
| String c r =>
    if isspace c
    then (if String.eqb cur "" then split_from "" r else cur :: split_from "" r)
    else split_from (snoc cur c) r
end.

Definition split (s : string) : list string := split_from "" s.

(** [s.split(sep)] for a one-character separator: never empty. *)
Fixpoint split_on_from (sep : ascii) (cur : string) (s : string) : list string :=
match s with
| "" => [cur]
| String c r =>
    if Ascii.eqb c sep then cur :: split_on_from sep "" r
    else split_on_from sep (snoc cur c) r
end.

Definition split_on (sep : ascii) (s : string) : list string :=
split_on_from sep "" s.

(** [s.split(sep)[0]]: the text before the first separator. *)
Fixpoint before (sep : ascii) (s : string) : string :=
match s with
| "" => ""
| String c r => if Ascii.eqb c sep then "" else String c (before sep r)
end.

Fixpoint lstrip (s : string) : string :=
match s with
| "" => ""
| String c r => if isspace c then lstrip r else s
end.

Fixpoint rstrip (s : string) : string :=
match s with
| "" => ""
| String c r =>
    let r' := rstrip r in
    if String.eqb r' "" && isspace c then "" else String c r'
end.

Definition strip (s : string) : string := rstrip (lstrip s).

(** [c.lower()] on one ASCII character. *)
Definition lower (c : ascii) : ascii :=
let n := N_of_ascii c in
if ((65 <=? n) && (n <=? 90))%N then ascii_of_N (n + 32) else c.

Definition digit (c : ascii) : option Z :=
let n := N_of_ascii c in
if ((48 <=? n) && (n <=? 57))%N then Some (Z.of_N (n - 48)) else None.

(** The tail of a [digitpart]: after a digit, any number of digits, each
  optionally preceded by one underscore.  Returns the value, the number
  of digits read and the unread text. *)
Fixpoint digitpart_tail (acc : Z) (n : nat) (s : string) : Z * nat * string :=
match s with
| String "_" (String c r) =>
    match digit c with
    | Some d => digitpart_tail (10 * acc + d) (S n) r
    | None => (acc, n, s)
    end
| String c r =>
    match digit c with
    | Some d => digitpart_tail (10 * acc + d) (S n) r
    | None => (acc, n, s)
    end
| "" => (acc, n, s)
end.

Definition digitpart (s : string) : option (Z * nat * string) :=
match s with
| String c r =>
    match digit c with
    | Some d => Some (digitpart_tail d 1 r)
    | None => None
    end
| "" => None
end.

(** An optional sign: the factor and the unread text. *)
Definition sign (s : string) : Z * string :=
match s with
| String "-" r => (-1, r)
| String "+" r => (1, r)
| _ => (1, s)
end.

(** [int(s)] for a string: [None] stands for [ValueError]. *)
Definition int (s : string) : option Z :=
let '(sg, r) := sign (strip s) in
match digitpart r with
| Some (v, _, "") => Some (sg * v)
| _ => None
end.

(** The exponent of a float literal: [("e"|"E") [sign] digitpart]. *)
Definition exponent (s : string) : option (Z * string) :=
match s with
| "" => Some (0, "")
| String c r =>
    if Ascii.eqb (lower c) "e" then
      let '(sg, r') := sign r in
      match digitpart r' with
      | Some (v, _, rest) => Some (sg * v, rest)
      | None => None
      end
    else None
end.

Definition pow10 (e : Z) : Q :=
if 0 <=? e then inject_Z (10 ^ e) else 1 # Z.to_pos (10 ^ (- e)).

(** The value of a finite float literal of [float(s)]:
  [[sign] ([digitpart] "." digitpart | digitpart ["."]) [exponent]].
  The result is the exact rational the literal denotes; the special
  values [inf] and [nan] denote no rational and are not literals here. *)
Definition float_literal (s : string) : option Q :=
let '(sg, r) := sign (strip s) in
let mantissa : option (Z * nat * string) :=
  match digitpart r with
  | Some (i, _, String "." r1) =>
      match digitpart r1 with
      | Some (f, n, r2) => Some (i * 10 ^ Z.of_nat n + f, n, r2)
      | None => Some (i, 0%nat, r1)
      end
  | Some (i, _, r1) => Some (i, 0%nat, r1)
  | None =>
      match r with
      | String "." r1 =>
          match digitpart r1 with
          | Some (f, n, r2) => Some (f, n, r2)
          | None => None
          end
      | _ => None
      end
  end in
match mantissa with
| Some (m, n, rest) =>
    match exponent rest with
    | Some (e, "") => Some (inject_Z (sg * m) * pow10 (e - Z.of_nat n))%Q
    | _ => None
    end
| None => None
end.

(** [re.match("^ *ISITE", line)]. *)
Fixpoint match_isite (s : string) : bool :=
match s with
| String " " r => match_isite r
| _ => String.prefix "ISITE" s
end.

(** The lines of a text, each with its terminator, as file iteration
  yields them. *)
Fixpoint lines_from (cur : string) (s : string) : list string :=
match s with
| "" => if String.eqb cur "" then [] else [cur]
| String c r =>
    if Ascii.eqb c "010" then snoc cur c :: lines_from "" r
    else lines_from (snoc cur c) r
end.

Definition lines (s : string) : list string := lines_from "" s.

End PyStr.

Definition nl : string := String "010" "".


(** ** Exceptions and computations *)

Inductive exn : Type :=
  | IOError
  | StopIteration
  | ValueError
  | IndexError
  | AttributeError
  | NameError
  | LinAlgError
  | AssertionError (msg : string)
  | Exception (msg : string).

(** What running a piece of code does: it returns, it raises, or it never
    finishes. *)
Inductive outcome (A : Type) : Type :=
  | Ok (a : A)
  | Raise (e : exn)
  | Diverge.
Arguments Ok {A} a.
Arguments Raise {A} e.
Arguments Diverge {A}.

Definition M (S A : Type) : Type := S -> outcome A * S.

Definition ret {S A} (a : A) : M S A := fun s => (Ok a, s).

Definition bind {S A B} (m : M S A) (k : A -> M S B) : M S B :=
  fun s =>
    match m s with
    | (Ok a, s') => k a s'
    | (Raise e, s') => (Raise e, s')
    | (Diverge, s') => (Diverge, s')
    end.

Definition raise {S A} (e : exn) : M S A := fun s => (Raise e, s).

Declare Scope py_scope.
Delimit Scope py_scope with py.
Notation "x <- m ;; k" := (bind m (fun x => k))
  (at level 20, m at level 99, k at level 200, only parsing) : py_scope.
Notation "' p <- m ;; k" := (bind m (fun x => let 'p := x in k))
  (at level 20, p pattern, m at level 99, k at level 200, only parsing) : py_scope.
Notation "m ;; k" := (bind m (fun _ => k))
  (at level 100, k at level 200, right associativity, only parsing) : py_scope.
Local Open Scope py_scope.

(** [try: m except E: handler], where [handles] tells the exceptions of
    the classes [E]. *)
Definition try_except {S A} (m : M S A) (handles : exn -> bool) (handler : M S A)
  : M S A :=
  fun s =>
    match m s with
    | (Raise e, s') => if handles e then handler s' else (Raise e, s')
    | r => r
    end.

(** A value that may be missing, with the exception its absence raises:
    a failed conversion, an index out of range, an attribute never set. *)
Definition orelse {S A} (o : option A) (e : exn) : M S A :=
  match o with
  | Some a => ret a
  | None => raise e
  end.

(** [assert c, msg]. *)
Definition assert {S} (c : bool) (msg : string) : M S unit :=
  if c then ret tt else raise (AssertionError msg).

(** [for x in l: b = body(b, x)]. *)
Fixpoint foldM {S A B} (body : B -> A -> M S B) (l : list A) (b : B) : M S B :=
  match l with
  | [] => ret b
  | x :: r => b' <- body b x ;; foldM body r b'
  end.

(** [for x in l: body(x)]. *)
Definition forM {S A} (l : list A) (body : A -> M S unit) : M S unit :=
  foldM (fun _ x => body x) l tt.

(** [range(n)]. *)
Definition range (n : Z) : list Z := Z.of_nat <$> seq 0 (Z.to_nat n).

(** [l[i]] for a counter [i >= 0]. *)
Definition item {A} (l : list A) (i : Z) : option A :=
  if i <? 0 then None else l !! Z.to_nat i.

(** [l[-1]]. *)
Definition last_item {A} (l : list A) : option A := last l.

(** [list(map(conv, l))]: the first failing conversion fails the whole. *)
Definition map_conv {A B} (conv : A -> option B) (l : list A) : option (list B) :=
  mapM conv l.

(** The object being filled, and the lines of its file not yet read. *)
Record st (O : Type) : Type := St { self : O; unread : list string }.
Arguments St {O} self unread.
Arguments self {O} _.
Arguments unread {O} _.

Section FileOps.
Context {O : Type}.

(** [next(f)] on the generator [read_lines]. *)
Definition next : M (st O) string :=
  fun s =>
    match unread s with
    | [] => (Raise StopIteration, s)
    | l :: r => (Ok l, St (self s) r)
    end.

(** [f.readline()] on an open file: the empty string at end of file. *)
Definition readline : M (st O) string :=
  fun s =>
    match unread s with
    | [] => (Ok "", s)
    | l :: r => (Ok l, St (self s) r)
    end.

(** [self.attr = v], as a function on the object. *)
Definition assign (upd : O -> O) : M (st O) unit :=
  fun s => (Ok tt, St (upd (self s)) (unread s)).

(** [self.attr]: [AttributeError] when it was never set. *)
Definition attr {A} (proj : O -> option A) : M (st O) A :=
  fun s => orelse (proj (self s)) AttributeError s.
End FileOps.

(** [read_lines(filename)], also [open(filename)]: the lines of the file,
    [IOError] when there is none. *)
Definition read_lines {S} (fs : gmap string string) (filename : string)
  : M S (list string) :=
  orelse (PyStr.lines <$> fs !! filename) IOError.

(** [vasp_dir] with a slash at its end. *)
Definition with_slash (vasp_dir : string) : string :=
  match last_item (list_ascii_of_string vasp_dir) with
  | Some "/"%char => vasp_dir
  | _ => vasp_dir +:+ "/"
  end.

(** [if vasp_dir[-1] != '/': vasp_dir += '/']: the empty string has no
    last character. *)
Definition add_slash {S} (vasp_dir : string) : M S string :=
  orelse (last_item (list_ascii_of_string vasp_dir)) IndexError ;;
  ret (with_slash vasp_dir).

(** ** Floating-point numbers *)

(** The operations the readers use on [float] and on numpy arrays of
    floats.  [float_of_string] is [float(s)], [None] for [ValueError];
    [float_of_Z] converts an [int]; [fpow] is [**]; [linalg_det] and
    [linalg_inv] are [numpy.linalg.det] and [numpy.linalg.inv] on a square
    matrix given by its rows, [None] for a singular matrix. *)
Class Float64 (F : Type) : Type := {
  float_of_string : string -> option F;
  float_of_Z : Z -> F;
  fadd : F -> F -> F;
  fmul : F -> F -> F;
  fdiv : F -> F -> F;
  fopp : F -> F;
  fltb : F -> F -> bool;
  fpow : F -> F -> F;
  linalg_det : list (list F) -> F;
  linalg_inv : list (list F) -> option (list (list F));
}.

(** ** numpy arrays *)

(** An array that is only written element by element: its shape and the
    stores made so far, most recent first, over the zeros of [np.zeros]. *)
Record ndarray (A : Type) : Type := NdArray {
  shape : list Z;
  stores : list (list Z * A);
}.
Arguments NdArray {A} shape stores.
Arguments shape {A} _.
Arguments stores {A} _.

(** [np.zeros(shape)]: a negative dimension is a [ValueError]. *)
Definition np_zeros_shape {S} (dims : list Z) : M S unit :=
  if forallb (fun d => 0 <=? d) dims then ret tt else raise ValueError.

Definition np_zeros {S A} (dims : list Z) : M S (ndarray A) :=
  np_zeros_shape dims ;; ret (NdArray dims []).

(** One index against one dimension: numpy counts a negative index from
    the end. *)
Definition nd_index (n i : Z) : option Z :=
  if (0 <=? i) && (i <? n) then Some i
  else if (- n <=? i) && (i <? 0) then Some (i + n)
  else None.

Fixpoint nd_indices (dims idx : list Z) : option (list Z) :=
  match dims, idx with
  | [], [] => Some []
  | n :: dims', i :: idx' =>
      match nd_index n i, nd_indices dims' idx' with
      | Some j, Some js => Some (j :: js)
      | _, _ => None
      end
  | _, _ => None
  end.

(** [a[i, j, ...] = v]. *)
Definition nd_store {S A} (a : ndarray A) (idx : list Z) (v : A) : M S (ndarray A) :=
  js <- orelse (nd_indices (shape a) idx) IndexError ;;
  ret (NdArray (shape a) ((js, v) :: stores a)).

(** [a[i, j, ...]]. *)
Definition nd_get {A} (zero : A) (a : ndarray A) (js : list Z) : A :=
  match find (fun p => bool_decide (p.1 = js)) (stores a) with
  | Some p => p.2
  | None => zero
  end.

(** [row[:] = vals] on a row of [n] floats: [vals] is taken as it is when
    it has [n] elements, repeated when it has one, and is a [ValueError]
    otherwise. *)
Definition broadcast {S A} (n : nat) (vals : list A) : M S (list A) :=
  if (length vals =? n)%nat then ret vals
  else match vals with
       | [v] => ret (replicate n v)
       | _ => raise ValueError
       end.

Section FileOpen.
Context {O : Type}.

(** Start reading [filename]: the generator of [read_lines], or the file
    object of [open], positioned at the first line. *)
Definition open_file (fs : gmap string string) (filename : string) : M (st O) unit :=
  fun s =>
    match read_lines fs filename s with
    | (Ok ls, _) => (Ok tt, St (self s) ls)
    | (Raise e, _) => (Raise e, s)
    | (Diverge, _) => (Diverge, s)
    end.
End FileOpen.

(** [l.index(x)]: [None] stands for [ValueError]. *)
Fixpoint index_of (x : string) (l : list string) : option Z :=
  match l with
  | [] => None
  | y :: r => if String.eqb x y then Some 0 else Z.succ <$> index_of x r
  end.

(** The values stored in the projector dictionaries. *)
Inductive pyval : Type :=
  | PStr (s : string)
  | PInt (z : Z).

(** [dicts[i][key] = v] on a list of dictionaries. *)
Definition setitem {S} (dicts : list (gmap string pyval)) (i : Z) (key : string)
    (v : pyval) : M S (list (gmap string pyval)) :=
  d <- orelse (item dicts i) IndexError ;;
  ret (<[Z.to_nat i := <[key := v]> d]> dicts).

(** ** class Plocar *)

Module Plocar.
Section WithFloat.
Context {F : Type} `{Float64 F}.

(** The attributes of a [Plocar] object; [None] is an attribute that is
    [None] or was never set. *)
Record t : Type := Build {
  plo : option (ndarray (F * F));
  proj_params : option (list (gmap string pyval));
  ncdij : option Z;
  nband : option Z;
  nspin : option Z;
  nspin_band : option Z;
  efermi : option F;
  nc_flag : option Z;
  eigs : option (ndarray F);
  ferw : option (ndarray F);
}.

(** [Plocar()]. *)
Definition init : t :=
  Build None None None None None None None None None None.

Definition set_plo v o :=
  Build (Some v) (proj_params o) (ncdij o) (nband o) (nspin o) (nspin_band o)
        (efermi o) (nc_flag o) (eigs o) (ferw o).
Definition set_proj_params v o :=
  Build (plo o) (Some v) (ncdij o) (nband o) (nspin o) (nspin_band o)
        (efermi o) (nc_flag o) (eigs o) (ferw o).
Definition set_ncdij v o :=
  Build (plo o) (proj_params o) (Some v) (nband o) (nspin o) (nspin_band o)
        (efermi o) (nc_flag o) (eigs o) (ferw o).
Definition set_nband v o :=
  Build (plo o) (proj_params o) (ncdij o) (Some v) (nspin o) (nspin_band o)
        (efermi o) (nc_flag o) (eigs o) (ferw o).
Definition set_nspin v o :=
  Build (plo o) (proj_params o) (ncdij o) (nband o) (Some v) (nspin_band o)
        (efermi o) (nc_flag o) (eigs o) (ferw o).
Definition set_nspin_band v o :=
  Build (plo o) (proj_params o) (ncdij o) (nband o) (nspin o) (Some v)
        (efermi o) (nc_flag o) (eigs o) (ferw o).
Definition set_efermi v o :=
  Build (plo o) (proj_params o) (ncdij o) (nband o) (nspin o) (nspin_band o)
        (Some v) (nc_flag o) (eigs o) (ferw o).
Definition set_nc_flag v o :=
  Build (plo o) (proj_params o) (ncdij o) (nband o) (nspin o) (nspin_band o)
        (efermi o) (Some v) (eigs o) (ferw o).
Definition set_eigs v o :=
  Build (plo o) (proj_params o) (ncdij o) (nband o) (nspin o) (nspin_band o)
        (efermi o) (nc_flag o) (Some v) (ferw o).
Definition set_ferw v o :=
  Build (plo o) (proj_params o) (ncdij o) (nband o) (nspin o) (nspin_band o)
        (efermi o) (nc_flag o) (eigs o) (Some v).

Definition orb_labels : list string :=
  ["s"; "py"; "pz"; "px"; "dxy"; "dyz"; "dz2"; "dxz"; "dx2-y2";
   "fy(3x2-y2)"; "fxyz"; "fyz2"; "fz3"; "fxz2"; "fz(x2-y2)"; "fx(x2-3y2)"].

Definition lm_to_l_m (lm : Z) : Z * Z :=
  let l := Z.sqrt lm in
  let m := lm - l * l in
  (l, m).

(** [search_for(f, patt)]: read until a line matches (or is empty, which
    [readline] gives at the end of the file) and return that line. *)
Fixpoint search_for (patt : string -> bool) (ls : list string) : M (st t) string :=
  match ls with
  | [] => fun s => (Ok "", St (self s) [])
  | l :: r =>
      if patt l || String.eqb l ""
      then fun s => (Ok l, St (self s) r)
      else search_for patt r
  end.

(** The first line: the dimensions, the spin counts and the Fermi level.
    Returns the locals [nk], [nproj], [plo] and [proj_params]. *)
Definition read_dimensions
  : M (st t) (Z * Z * ndarray (F * F) * list (gmap string pyval)) :=
  line <- readline ;;
  let line := PyStr.before "#" line in
  let sline := PyStr.split line in
  dims <- orelse (map_conv PyStr.int (take 4 sline)) ValueError ;;
  '(ncdij0, nk, nband0, nproj) <-
    match dims with
    | [a; b; c; d] => ret (a, b, c, d)
    | _ => raise ValueError
    end ;;
  assign (set_ncdij ncdij0) ;;
  assign (set_nband nband0) ;;
  let nspin0 := if ncdij0 <? 4 then ncdij0 else 1 in
  assign (set_nspin nspin0) ;;
  assign (set_nspin_band (if ncdij0 =? 2 then 2 else 1)) ;;
  match sline !! 4%nat ≫= float_of_string with
  | Some e => assign (set_efermi e)
  | None => ret tt
  end ;;
  plo <- np_zeros [nproj; nspin0; nk; nband0] ;;
  let proj_params := replicate (Z.to_nat nproj) (∅ : gmap string pyval) in
  (if ncdij0 =? 4
   then assign (set_nc_flag 1) ;; assign (set_ncdij 1)
   else assign (set_nc_flag 0)) ;;
  ret (nk, nproj, plo, proj_params).

(** The body of the header loop, up to [ip += 1]: one [ISITE] line. *)
Definition header_entry (nc : Z) (line : string) (ip : Z)
    (proj_params : list (gmap string pyval))
  : M (st t) (list (gmap string pyval)) :=
  let sline := PyStr.split_on ":" line in
  tok <- orelse (sline !! 1%nat ≫= fun x => PyStr.split x !! 0%nat) IndexError ;;
  isite <- orelse (PyStr.int tok) ValueError ;;
  label0 <- orelse (last_item sline) IndexError ;;
  let label := PyStr.strip label0 in
  lm <- orelse (index_of label orb_labels) ValueError ;;
  let '(l, m) := lm_to_l_m lm in
  pp <- setitem proj_params ip "label" (PStr label) ;;
  pp <- setitem pp ip "isite" (PInt isite) ;;
  pp <- setitem pp ip "l" (PInt l) ;;
  if nc =? 1 then
    if ip mod 2 =? 0 then setitem pp ip "m" (PInt (2 * m))
    else setitem pp ip "m" (PInt (2 * m + 1))
  else setitem pp ip "m" (PInt m).

(** [while line: ...; ip += 1; line = f.readline().strip()], by
    recursion on the unread lines [ls]. *)
Fixpoint header_loop (nc : Z) (ls : list string) (line : string) (ip : Z)
    (proj_params : list (gmap string pyval))
  : M (st t) (Z * list (gmap string pyval)) :=
  if String.eqb line "" then ret (ip, proj_params)
  else
    pp <- header_entry nc line ip proj_params ;;
    match ls with
    | [] => ret (ip + 1, pp)
    | l :: r =>
        fun s => header_loop nc r (PyStr.strip l) (ip + 1) pp (St (self s) r)
    end.

(** The header block with the orbital labels. *)
Definition read_header (nproj : Z) (proj_params : list (gmap string pyval))
  : M (st t) (list (gmap string pyval)) :=
  line <- (fun s => search_for PyStr.match_isite (unread s) s) ;;
  nc <- attr nc_flag ;;
  '(ip, pp) <- (fun s => header_loop nc (unread s) line 0 proj_params s) ;;
  assert (ip =? nproj) "Number of projectors in the header is wrong in LOCPROJ" ;;
  ret pp.

(** [line = ""; while not line: line = f.readline().strip()]: at the end
    of the file [readline] keeps returning the empty string and the loop
    does not end. *)
Fixpoint skip_blank (ls : list string) : M (st t) string :=
  match ls with
  | [] => fun s => (Diverge, St (self s) [])
  | l :: r =>
      if String.eqb (PyStr.strip l) "" then skip_blank r
      else fun s => (Ok (PyStr.strip l), St (self s) r)
  end.

(** [isp_, ik_, ib_ = list(map(int, sline[1:4]))]. *)
Definition record_indices {S} (sline : list string) : M S (Z * Z * Z) :=
  idx <- orelse (map_conv PyStr.int (take 3 (drop 1 sline))) ValueError ;;
  match idx with
  | [a; b; c] => ret (a, b, c)
  | _ => raise ValueError
  end.

Definition inconsistency : string := "Inconsistency in reading LOCPROJ".

(** The body of the loop over the projectors of one record. *)
Definition read_coefficient (ispin ik ib : Z) (plo : ndarray (F * F)) (ip : Z)
  : M (st t) (ndarray (F * F)) :=
  line <- readline ;;
  let sline := PyStr.split line in
  tre <- orelse (sline !! 1%nat) IndexError ;;
  re <- orelse (float_of_string tre) ValueError ;;
  tim <- orelse (sline !! 2%nat) IndexError ;;
  im <- orelse (float_of_string tim) ValueError ;;
  nd_store plo [ip; ispin; ik; ib] (re, im).

(** The values of one record: its eigenvalue, its Fermi weight and its
    projectors. *)
Definition store_record (nproj : Z) (plo : ndarray (F * F)) (pos : Z * Z * Z)
    (sline : list string) : M (st t) (ndarray (F * F)) :=
  let '(ispin, ik, ib) := pos in
  teig <- orelse (sline !! 4%nat) IndexError ;;
  eig <- orelse (float_of_string teig) ValueError ;;
  e <- attr eigs ;;
  e' <- nd_store e [ik; ib; ispin] eig ;;
  assign (set_eigs e') ;;
  tfer <- orelse (sline !! 5%nat) IndexError ;;
  fer <- orelse (float_of_string tfer) ValueError ;;
  w <- attr ferw ;;
  w' <- nd_store w [ik; ib; ispin] fer ;;
  assign (set_ferw w') ;;
  foldM (read_coefficient ispin ik ib) (range nproj) plo.

(** The body of the innermost loop: the record of one spin, k-point and
    band. *)
Definition read_record (nproj : Z) (plo : ndarray (F * F)) (pos : Z * Z * Z)
  : M (st t) (ndarray (F * F)) :=
  let '(ispin, ik, ib) := pos in
  line <- (fun s => skip_blank (unread s) s) ;;
  let sline := PyStr.split line in
  '(isp_, ik_, ib_) <- record_indices sline ;;
  assert ((isp_ =? ispin + 1) && (ik_ =? ik + 1) && (ib_ =? ib + 1)) inconsistency ;;
  store_record nproj plo pos sline.

(** The three nested loops over [range(self.nspin)], [range(nk)] and
    [range(self.nband)]. *)
Definition read_records (nspin0 nk nband0 nproj : Z) (plo : ndarray (F * F))
  : M (st t) (ndarray (F * F)) :=
  foldM (fun plo ispin =>
    foldM (fun plo ik =>
      foldM (fun plo ib => read_record nproj plo (ispin, ik, ib))
            (range nband0) plo)
      (range nk) plo)
    (range nspin0) plo.

(** The arrays of eigenvalues and Fermi weights.  Returns the bounds
    [self.nspin] and [self.nband] of the loops that follow; nothing in
    those loops assigns them. *)
Definition alloc_eigs (nk : Z) : M (st t) (Z * Z) :=
  nband0 <- attr nband ;;
  nspin_band0 <- attr nspin_band ;;
  e <- np_zeros [nk; nband0; nspin_band0] ;;
  assign (set_eigs e) ;;
  w <- np_zeros [nk; nband0; nspin_band0] ;;
  assign (set_ferw w) ;;
  nspin0 <- attr nspin ;;
  ret (nspin0, nband0).

(** Everything before the loops over the records. *)
Definition read_preamble (fs : gmap string string) (locproj_filename : string)
  : M (st t) (Z * Z * Z * Z * ndarray (F * F) * list (gmap string pyval)) :=
  open_file fs locproj_filename ;;
  '(nk, nproj, plo, proj_params) <- read_dimensions ;;
  proj_params <- read_header nproj proj_params ;;
  '(nspin0, nband0) <- alloc_eigs nk ;;
  ret (nspin0, nk, nband0, nproj, plo, proj_params).

Definition locproj_parser (fs : gmap string string) (locproj_filename : string)
  : M (st t) (list (gmap string pyval) * ndarray (F * F)) :=
  '(nspin0, nk, nband0, nproj, plo, proj_params) <- read_preamble fs locproj_filename ;;
  plo <- read_records nspin0 nk nband0 nproj plo ;;
  ret (proj_params, plo).

Definition from_file (fs : gmap string string) (vasp_dir : string) : M (st t) unit :=
  vasp_dir <- add_slash vasp_dir ;;
  '(proj_params, plo) <- locproj_parser fs (vasp_dir +:+ "LOCPROJ") ;;
  assign (set_proj_params proj_params) ;;
  assign (set_plo plo).

End WithFloat.
Arguments t F : clear implicits.
End Plocar.


(** ** Arrays filled row by row *)

(** [a[i] = v] for a counter [i >= 0]. *)
Definition setrow {S A} (a : list A) (i : Z) (v : A) : M S (list A) :=
  orelse (item a i) IndexError ;;
  ret (<[Z.to_nat i := v]> a).

(** [a[i, j, :] = row] on an array of shape [(n, m, k)]. *)
Definition setrow2 {S A} (a : list (list (list A))) (i j : Z) (row : list A)
  : M S (list (list (list A))) :=
  plane <- orelse (item a i) IndexError ;;
  old <- orelse (item plane j) IndexError ;;
  row' <- broadcast (length old) row ;;
  ret (<[Z.to_nat i := <[Z.to_nat j := row']> plane]> a).

(** [a[i, :] = row] on an array of shape [(n, m)]. *)
Definition setrow1 {S A} (a : list (list A)) (i : Z) (row : list A)
  : M S (list (list A)) :=
  old <- orelse (item a i) IndexError ;;
  row' <- broadcast (length old) row ;;
  ret (<[Z.to_nat i := row']> a).

(** [np.zeros((n,))], [np.zeros((n, m))] and [np.zeros((n, m, k))]. *)
Definition zeros1 {S A} (zero : A) (n : Z) : M S (list A) :=
  np_zeros_shape [n] ;; ret (replicate (Z.to_nat n) zero).

Definition zeros2 {S A} (zero : A) (n m : Z) : M S (list (list A)) :=
  np_zeros_shape [n; m] ;;
  ret (replicate (Z.to_nat n) (replicate (Z.to_nat m) zero)).

Definition zeros3 {S A} (zero : A) (n m k : Z) : M S (list (list (list A))) :=
  np_zeros_shape [n; m; k] ;;
  ret (replicate (Z.to_nat n) (replicate (Z.to_nat m) (replicate (Z.to_nat k) zero))).

(** [float(sline[i])] and [int(sline[i])]. *)
Definition float_item {S F} `{Float64 F} (sline : list string) (i : nat) : M S F :=
  tok <- orelse (sline !! i) IndexError ;;
  orelse (float_of_string tok) ValueError.

Definition int_item {S} (sline : list string) (i : nat) : M S Z :=
  tok <- orelse (sline !! i) IndexError ;;
  orelse (PyStr.int tok) ValueError.

(** ** class Kpoints *)

Module Kpoints.
Section WithFloat.
Context {F : Type} `{Float64 F}.

Record t : Type := Build {
  kpts : option (list (list F));
  nktot : option Z;
  kwghts : option (list F);
  ntet : option Z;
  volt : option F;
  itet : option (list (list Z));
}.

(** [Kpoints()]. *)
Definition init : t := Build None None None None None None.

Definition set_kpts v o :=
  Build (Some v) (nktot o) (kwghts o) (ntet o) (volt o) (itet o).
Definition set_nktot v o :=
  Build (kpts o) (Some v) (kwghts o) (ntet o) (volt o) (itet o).
Definition set_kwghts v o :=
  Build (kpts o) (nktot o) (Some v) (ntet o) (volt o) (itet o).
Definition set_ntet v o :=
  Build (kpts o) (nktot o) (kwghts o) (Some v) (volt o) (itet o).
Definition set_volt v o :=
  Build (kpts o) (nktot o) (kwghts o) (ntet o) (Some v) (itet o).
Definition set_itet v o :=
  Build (kpts o) (nktot o) (kwghts o) (ntet o) (volt o) (Some v).

(** The body of the loop over the k-points. *)
Definition read_kpoint (ik : Z) : M (st t) unit :=
  line <- next ;;
  let sline := PyStr.split (PyStr.strip line) in
  row <- orelse (map_conv float_of_string (take 3 sline)) ValueError ;;
  k <- attr kpts ;;
  k' <- setrow1 k ik row ;;
  assign (set_kpts k') ;;
  w <- float_item sline 3 ;;
  ws <- attr kwghts ;;
  ws' <- setrow ws ik w ;;
  assign (set_kwghts ws').

(** The k-points and their weights: everything before the tetrahedra. *)
Definition read_kpoints : M (st t) unit :=
  next ;;
  line <- next ;;
  n <- int_item (PyStr.split (PyStr.strip line)) 0 ;;
  assign (set_nktot n) ;;
  k <- zeros2 (float_of_Z 0) n 3 ;;
  assign (set_kpts k) ;;
  ws <- zeros1 (float_of_Z 0) n ;;
  assign (set_kwghts ws) ;;
  next ;;
  forM (range n) read_kpoint ;;
  ws <- attr kwghts ;;
  assign (set_kwghts ((fun w => fdiv w (float_of_Z n)) <$> ws)).

(** The body of the loop over the tetrahedra. *)
Definition read_tetrahedron (it : Z) : M (st t) unit :=
  line <- next ;;
  row <- orelse (map_conv PyStr.int (take 5 (PyStr.split line))) ValueError ;;
  a <- attr itet ;;
  a' <- setrow1 a it row ;;
  assign (set_itet a').

(** The body of the [try] block: the tetrahedra. *)
Definition read_tetrahedra : M (st t) unit :=
  next ;;
  line <- next ;;
  let sline := PyStr.split line in
  n <- int_item sline 0 ;;
  assign (set_ntet n) ;;
  v <- float_item sline 1 ;;
  assign (set_volt v) ;;
  a <- zeros2 0 n 5 ;;
  assign (set_itet a) ;;
  forM (range n) read_tetrahedron.

(** [except StopIteration as ValueError]: only [StopIteration] is
    caught. *)
Definition is_StopIteration (e : exn) : bool :=
  match e with
  | StopIteration => true
  | _ => false
  end.

Definition from_file (fs : gmap string string) (vasp_dir : string) : M (st t) unit :=
  vasp_dir <- add_slash vasp_dir ;;
  open_file fs (vasp_dir +:+ "IBZKPT") ;;
  read_kpoints ;;
  try_except read_tetrahedra is_StopIteration (assign (set_ntet 0)).

End WithFloat.
Arguments t F : clear implicits.
End Kpoints.

(** ** class Eigenval *)

Module Eigenval.
Section WithFloat.
Context {F : Type} `{Float64 F}.

Record t : Type := Build {
  eigs : option (list (list (list F)));
  ferw : option (list (list (list F)));
  nq : option Z;
  ispin : option Z;
  nelect : option Z;
  nktot : option Z;
  nband : option Z;
  kpts : option (list (list F));
  kwghts : option (list F);
}.

(** [Eigenval()]. *)
Definition init : t := Build None None None None None None None None None.

(** [self.eigs = v]; [v] may be [None]. *)
Definition set_eigs v o :=
  Build v (ferw o) (nq o) (ispin o) (nelect o) (nktot o) (nband o) (kpts o) (kwghts o).
Definition set_ferw v o :=
  Build (eigs o) v (nq o) (ispin o) (nelect o) (nktot o) (nband o) (kpts o) (kwghts o).
Definition set_nq v o :=
  Build (eigs o) (ferw o) (Some v) (ispin o) (nelect o) (nktot o) (nband o) (kpts o) (kwghts o).
Definition set_ispin v o :=
  Build (eigs o) (ferw o) (nq o) (Some v) (nelect o) (nktot o) (nband o) (kpts o) (kwghts o).
Definition set_nelect v o :=
  Build (eigs o) (ferw o) (nq o) (ispin o) (Some v) (nktot o) (nband o) (kpts o) (kwghts o).
Definition set_nktot v o :=
  Build (eigs o) (ferw o) (nq o) (ispin o) (nelect o) (Some v) (nband o) (kpts o) (kwghts o).
Definition set_nband v o :=
  Build (eigs o) (ferw o) (nq o) (ispin o) (nelect o) (nktot o) (Some v) (kpts o) (kwghts o).
Definition set_kpts v o :=
  Build (eigs o) (ferw o) (nq o) (ispin o) (nelect o) (nktot o) (nband o) (Some v) (kwghts o).
Definition set_kwghts v o :=
  Build (eigs o) (ferw o) (nq o) (ispin o) (nelect o) (nktot o) (nband o) (kpts o) (Some v).

Definition incorrect : string :=
  "EIGENVAL file is incorrect (probably from old versions of VASP)".

(** The body of the loop over the bands of one k-point. *)
Definition read_band (ispin0 ik ib : Z) : M (st t) unit :=
  line <- next ;;
  let sline := PyStr.split line in
  tmp <- orelse (map_conv float_of_string sline) ValueError ;;
  assert (Z.of_nat (length tmp) =? 2 * ispin0 + 1) incorrect ;;
  e <- attr eigs ;;
  e' <- setrow2 e ik ib (take (Z.to_nat ispin0) (drop 1 tmp)) ;;
  assign (set_eigs (Some e')) ;;
  w <- attr ferw ;;
  w' <- setrow2 w ik ib (drop (Z.to_nat (ispin0 + 1)) tmp) ;;
  assign (set_ferw (Some w')).

(** The body of the loop over the k-points. *)
Definition read_kpoint (ispin0 nband0 ik : Z) : M (st t) unit :=
  next ;;
  sline <- next ;;
  tmp <- orelse (map_conv float_of_string (PyStr.split sline)) ValueError ;;
  k <- attr kpts ;;
  k' <- setrow1 k ik (take 3 tmp) ;;
  assign (set_kpts k') ;;
  w <- orelse (tmp !! 3%nat) IndexError ;;
  ws <- attr kwghts ;;
  ws' <- setrow ws ik w ;;
  assign (set_kwghts ws') ;;
  forM (range nband0) (read_band ispin0 ik).

Definition from_file (fs : gmap string string) (vasp_dir : string) : M (st t) unit :=
  vasp_dir <- add_slash vasp_dir ;;
  open_file fs (vasp_dir +:+ "EIGENVAL") ;;
  line <- next ;;
  let sline := PyStr.split line in
  n <- int_item sline 0 ;;
  assign (set_nq n) ;;
  ispin0 <- int_item sline 3 ;;
  assign (set_ispin ispin0) ;;
  next ;;
  next ;;
  next ;;
  next ;;
  line <- next ;;
  let sline := PyStr.split line in
  n <- int_item sline 0 ;;
  assign (set_nelect n) ;;
  nktot0 <- int_item sline 1 ;;
  assign (set_nktot nktot0) ;;
  nband0 <- int_item sline 2 ;;
  assign (set_nband nband0) ;;
  k <- zeros2 (float_of_Z 0) nktot0 3 ;;
  assign (set_kpts k) ;;
  ws <- zeros1 (float_of_Z 0) nktot0 ;;
  assign (set_kwghts ws) ;;
  e <- zeros3 (float_of_Z 0) nktot0 nband0 ispin0 ;;
  assign (set_eigs (Some e)) ;;
  w <- zeros3 (float_of_Z 0) nktot0 nband0 ispin0 ;;
  assign (set_ferw (Some w)) ;;
  forM (range nktot0) (read_kpoint ispin0 nband0).

End WithFloat.
Arguments t F : clear implicits.
End Eigenval.

(** ** class Doscar *)

Module Doscar.
Section WithFloat.
Context {F : Type} `{Float64 F}.

Record t : Type := Build {
  ncdij : option Z;
  efermi : option F;
}.

(** [Doscar()]. *)
Definition init : t := Build None None.

Definition set_ncdij v o := Build v (efermi o).
Definition set_efermi v o := Build (ncdij o) v.

Definition from_file (fs : gmap string string) (vasp_dir : string) : M (st t) unit :=
  vasp_dir <- add_slash vasp_dir ;;
  open_file fs (vasp_dir +:+ "DOSCAR") ;;
  next ;;
  forM (range 4) (fun _ => next ;; ret tt) ;;
  line <- next ;;
  e <- float_item (PyStr.split line) 3 ;;
  assign (set_efermi (Some e)).

End WithFloat.
Arguments t F : clear implicits.
End Doscar.

(** ** class Poscar *)

Module Poscar.
Section WithFloat.
Context {F : Type} `{Float64 F}.

Record t : Type := Build {
  a_brav : option (list (list F));
  nions : option (list Z);
  el_names : option (list string);
  ntypes : option Z;
  nq : option Z;
  kpt_basis : option (list (list F));
  q_types : option (list (list (list F)));
  type_of_ion : option (list Z);
}.

(** [Poscar()]; its attribute [q_cart], which is [None] and is not
    touched by the reader, is left out. *)
Definition init : t := Build None None None None None None None None.

Definition set_a_brav v o :=
  Build (Some v) (nions o) (el_names o) (ntypes o) (nq o) (kpt_basis o)
        (q_types o) (type_of_ion o).
Definition set_nions v o :=
  Build (a_brav o) (Some v) (el_names o) (ntypes o) (nq o) (kpt_basis o)
        (q_types o) (type_of_ion o).
Definition set_el_names v o :=
  Build (a_brav o) (nions o) (Some v) (ntypes o) (nq o) (kpt_basis o)
        (q_types o) (type_of_ion o).
Definition set_ntypes v o :=
  Build (a_brav o) (nions o) (el_names o) (Some v) (nq o) (kpt_basis o)
        (q_types o) (type_of_ion o).
Definition set_nq v o :=
  Build (a_brav o) (nions o) (el_names o) (ntypes o) (Some v) (kpt_basis o)
        (q_types o) (type_of_ion o).
Definition set_kpt_basis v o :=
  Build (a_brav o) (nions o) (el_names o) (ntypes o) (nq o) (Some v)
        (q_types o) (type_of_ion o).
Definition set_q_types v o :=
  Build (a_brav o) (nions o) (el_names o) (ntypes o) (nq o) (kpt_basis o)
        (Some v) (type_of_ion o).
Definition set_type_of_ion v o :=
  Build (a_brav o) (nions o) (el_names o) (ntypes o) (nq o) (kpt_basis o)
        (q_types o) (Some v).

(** [next(f).split('!')[0].split('#')[0].strip()]. *)
Definition readline_remove_comments : M (st t) string :=
  line <- next ;;
  ret (PyStr.strip (PyStr.before "#" (PyStr.before "!" line))).

(** [a *= x] on a matrix. *)
Definition scale (a : list (list F)) (x : F) : list (list F) :=
  (fun row : list F => (fun v => fmul v x) <$> row) <$> a.

(** [a.T] for a square matrix of order 3. *)
Definition transpose (a : list (list F)) : list (list F) :=
  (fun j : nat => omap (fun row : list F => row !! j) a) <$> [0; 1; 2]%nat.

(** [np.dot(a, v)] for a matrix of order 3: the vector must have three
    elements. *)
Definition dot (a : list (list F)) (v : list F) : M (st t) (list F) :=
  if (length v =? 3)%nat
  then ret ((fun row : list F => foldr fadd (float_of_Z 0) (zip_with fmul row v)) <$> a)
  else raise ValueError.

(** The scale and the lattice vectors, up to [self.a_brav *= ascale]. *)
Definition read_lattice : M (st t) unit :=
  next ;;
  sline <- readline_remove_comments ;;
  ascale <- orelse (float_of_string sline) ValueError ;;
  a <- zeros2 (float_of_Z 0) 3 3 ;;
  assign (set_a_brav a) ;;
  forM (range 3) (fun ia =>
    sline <- readline_remove_comments ;;
    row <- orelse (map_conv float_of_string (PyStr.split sline)) ValueError ;;
    a <- attr a_brav ;;
    a' <- setrow1 a ia row ;;
    assign (set_a_brav a')) ;;
  a <- attr a_brav ;;
  let ascale :=
    if fltb ascale (float_of_Z 0) then
      let vscale := fopp ascale in
      let vol := linalg_det a in
      fpow (fdiv vscale vol) (fdiv (float_of_Z 1) (float_of_Z 3))
    else ascale in
  assign (set_a_brav (scale a ascale)).

Definition is_ValueError (e : exn) : bool :=
  match e with
  | ValueError => true
  | _ => false
  end.

(** The element names and the numbers of ions, up to [self.nq]. *)
Definition read_species : M (st t) unit :=
  sline <- readline_remove_comments ;;
  try_except
    (ns <- orelse (map_conv PyStr.int (PyStr.split sline)) ValueError ;;
     assign (set_nions ns) ;;
     assign (set_el_names ((fun i => "El" +:+ pretty i) <$> range (Z.of_nat (length ns)))))
    is_ValueError
    (assign (set_el_names (PyStr.split sline)) ;;
     sline <- readline_remove_comments ;;
     ns <- orelse (map_conv PyStr.int (PyStr.split sline)) ValueError ;;
     assign (set_nions ns)) ;;
  ns <- attr nions ;;
  assign (set_ntypes (Z.of_nat (length ns))) ;;
  assign (set_nq (foldr Z.add 0 ns)).

(** [sline[0].lower()]. *)
Definition first_lower (sline : string) : M (st t) ascii :=
  match sline with
  | "" => raise IndexError
  | String c _ => ret (PyStr.lower c)
  end.

(** The body of the loop over the ions of one type. *)
Definition read_ion (cartesian : bool) (basis : list (list F))
    (q_at_it : list (list F)) (iq : Z) : M (st t) (list (list F)) :=
  sline <- readline_remove_comments ;;
  qcoord <- orelse (map_conv float_of_string (take 3 (PyStr.split sline))) ValueError ;;
  qcoord <- (if cartesian then dot basis qcoord else ret qcoord) ;;
  setrow1 q_at_it iq qcoord.

(** The body of the loop over the types. *)
Definition read_type (cartesian : bool) (basis : list (list F)) (ns : list Z)
    (it : Z) : M (st t) unit :=
  n <- orelse (item ns it) IndexError ;;
  ty <- attr type_of_ion ;;
  assign (set_type_of_ion (ty ++ replicate (Z.to_nat n) it)) ;;
  q_at_it <- zeros2 (float_of_Z 0) n 3 ;;
  q_at_it <- foldM (read_ion cartesian basis) (range n) q_at_it ;;
  qs <- attr q_types ;;
  assign (set_q_types (qs ++ [q_at_it])).

(** The coordinate mode and the positions of the ions. *)
Definition read_positions : M (st t) unit :=
  sline <- readline_remove_comments ;;
  c <- first_lower sline ;;
  sline <- (if Ascii.eqb c "s" then readline_remove_comments else ret sline) ;;
  c <- first_lower sline ;;
  let cartesian := Ascii.eqb c "c" || Ascii.eqb c "k" in
  a <- attr a_brav ;;
  basis <- orelse (linalg_inv (transpose a)) LinAlgError ;;
  assign (set_kpt_basis basis) ;;
  assign (set_q_types []) ;;
  assign (set_type_of_ion []) ;;
  ns <- attr nions ;;
  n <- attr ntypes ;;
  forM (range n) (read_type cartesian basis ns).

Definition from_file (fs : gmap string string) (vasp_dir : string) : M (st t) unit :=
  vasp_dir <- add_slash vasp_dir ;;
  open_file fs (vasp_dir +:+ "POSCAR") ;;
  read_lattice ;;
  read_species ;;
  read_positions.

End WithFloat.
Arguments t F : clear implicits.
End Poscar.

(** ** class VaspData *)

Module VaspData.
Section WithFloat.
Context {F : Type} `{Float64 F}.

Record t : Type := Build {
  vasp_dir : string;
  plocar : Plocar.t F;
  poscar : Poscar.t F;
  kpoints : Kpoints.t F;
  eigenval : Eigenval.t F;
  doscar : Doscar.t F;
}.

Definition set_plocar v o :=
  Build (vasp_dir o) v (poscar o) (kpoints o) (eigenval o) (doscar o).
Definition set_poscar v o :=
  Build (vasp_dir o) (plocar o) v (kpoints o) (eigenval o) (doscar o).
Definition set_kpoints v o :=
  Build (vasp_dir o) (plocar o) (poscar o) v (eigenval o) (doscar o).
Definition set_eigenval v o :=
  Build (vasp_dir o) (plocar o) (poscar o) (kpoints o) v (doscar o).
Definition set_doscar v o :=
  Build (vasp_dir o) (plocar o) (poscar o) (kpoints o) (eigenval o) v.

(** A method call on one of the readers: the method runs on that object,
    which keeps what the method assigned, also when it raises. *)
Definition call {O A} (get : t -> O) (set : O -> t -> t) (m : M (st O) A) : M t A :=
  fun v =>
    let '(r, s) := m (St (get v) []) in
    (r, set (self s) v).

(** An attribute of one of the readers. *)
Definition field {O A} (get : t -> O) (proj : O -> option A) : M t A :=
  fun v => orelse (proj (get v)) AttributeError v.

Definition update {O} (get : t -> O) (set : O -> t -> t) (upd : O -> O) : M t unit :=
  fun v => (Ok tt, set (upd (get v)) v).

(** [except (IOError, StopIteration)]. *)
Definition is_IOError_or_StopIteration (e : exn) : bool :=
  match e with
  | IOError | StopIteration => true
  | _ => false
  end.

Definition is_NameError (e : exn) : bool :=
  match e with
  | NameError => true
  | _ => false
  end.

Definition efermi_unreadable : string :=
  "Efermi cannot be read from DOSCAR or LOCPROJ".

(** The first part of [if read_all:]: the projectors, the lattice, the
    k-points, and the eigenvalues when EIGENVAL can be read. *)
Definition read_structure (fs : gmap string string) (dir : string) : M t unit :=
  call plocar set_plocar (Plocar.from_file fs dir) ;;
  call poscar set_poscar (Poscar.from_file fs dir) ;;
  call kpoints set_kpoints (Kpoints.from_file fs dir) ;;
  try_except
    (call eigenval set_eigenval (Eigenval.from_file fs dir))
    is_IOError_or_StopIteration
    (update eigenval set_eigenval (Eigenval.set_eigs None) ;;
     update eigenval set_eigenval (Eigenval.set_ferw None)).

(** The second part: the Fermi level, from DOSCAR or else from LOCPROJ. *)
Definition read_efermi (fs : gmap string string) (dir : string)
    (efermi_required : bool) : M t unit :=
  try_except
    (call doscar set_doscar (Doscar.from_file fs dir))
    is_IOError_or_StopIteration
    (if efermi_required then
       try_except
         (field plocar Plocar.efermi ;;
          e <- field plocar Plocar.efermi ;;
          update doscar set_doscar (Doscar.set_efermi (Some e)))
         is_NameError
         (raise (Exception efermi_unreadable))
     else
       n <- field plocar Plocar.nspin ;;
       update doscar set_doscar (Doscar.set_ncdij (Some n))).

(** [VaspData.__init__], from the state in which the five readers have
    been created. *)
Definition init_body (fs : gmap string string) (dir : string)
    (read_all efermi_required : bool) : M t unit :=
  if read_all then
    read_structure fs dir ;;
    read_efermi fs dir efermi_required
  else ret tt.

(** [VaspData(vasp_dir, read_all, efermi_required)]: the outcome and the
    object as the constructor leaves it. *)
Definition new (fs : gmap string string) (dir : string)
    (read_all efermi_required : bool) : outcome unit * t :=
  init_body fs dir read_all efermi_required
    (Build dir Plocar.init Poscar.init Kpoints.init Eigenval.init Doscar.init).

End WithFloat.
Arguments t F : clear implicits.
End VaspData.

(** ** Arithmetic for the floats *)

Section Matrix3.
Context {F : Type} (add sub mul div : F -> F -> F) (zero : F) (is_zero : F -> bool).

(** The determinant of a matrix of order 3 given by its rows. *)
Definition det3 (m : list (list F)) : F :=
  match m with
  | [[a; b; c]; [d; e; f]; [g; h; i]] =>
      add (sub (mul a (sub (mul e i) (mul f h)))
               (mul b (sub (mul d i) (mul f g))))
          (mul c (sub (mul d h) (mul e g)))
  | _ => zero
  end.

(** The inverse of a matrix of order 3: the adjugate over the
    determinant, [None] when the determinant is zero. *)
Definition inv3 (m : list (list F)) : option (list (list F)) :=
  match m with
  | [[a; b; c]; [d; e; f]; [g; h; i]] =>
      let dt := det3 m in
      if is_zero dt then None
      else Some
        [[div (sub (mul e i) (mul f h)) dt; div (sub (mul c h) (mul b i)) dt;
          div (sub (mul b f) (mul c e)) dt];
         [div (sub (mul f g) (mul d i)) dt; div (sub (mul a i) (mul c g)) dt;
          div (sub (mul c d) (mul a f)) dt];
         [div (sub (mul d h) (mul e g)) dt; div (sub (mul b g) (mul a h)) dt;
          div (sub (mul a e) (mul b d)) dt]]
  | _ => None
  end.
End Matrix3.

(** *** Rational arithmetic

    Floats as rationals: a literal is its exact value and the four
    operations are exact, so that the readers can be run on a file.  The
    power is computed to 64 binary digits; it is exact when the result
    has no more than that.  The power of a base that is not positive,
    which numpy gives as [nan] or [inf] when the base is not 0, has no
    rational value: it is given as 0 and no statement relies on it. *)

(** The largest [r] in [lo, hi) with [r ^ q <= n], by bisection. *)
Fixpoint root_between (fuel : nat) (q : positive) (n lo hi : Z) : Z :=
  match fuel with
  | O => lo
  | S fuel' =>
      if hi - lo <=? 1 then lo
      else
        let mid := (lo + hi) / 2 in
        if mid ^ Zpos q <=? n then root_between fuel' q n mid hi
        else root_between fuel' q n lo mid
  end.

Definition Zroot (q : positive) (n : Z) : Z :=
  root_between (S (S (Z.to_nat (Z.log2 n)))) q n 0 (n + 1).

Definition Qpow (x y : Q) : Q :=
  if Qle_bool x 0 then 0%Q
  else
    let base := if 0 <=? Qnum y then x else Qinv x in
    let b := Qpower base (Z.abs (Qnum y)) in
    let q := Qden y in
    Zroot q (Qnum b * 2 ^ (Zpos q * 64) / Zpos (Qden b)) # Z.to_pos (2 ^ 64).

Definition Qltb (a b : Q) : bool := negb (Qle_bool b a).

#[export] Instance RatArith : Float64 Q := {
  float_of_string := PyStr.float_literal;
  float_of_Z := inject_Z;
  fadd := Qplus;
  fmul := Qmult;
  fdiv := Qdiv;
  fopp := Qopp;
  fltb := Qltb;
  fpow := Qpow;
  linalg_det := det3 Qplus Qminus Qmult 0%Q;
  linalg_inv := inv3 Qplus Qminus Qmult Qdiv 0%Q (fun d => Qeq_bool d 0);
}.

(** *** Real arithmetic

    Floats as the real numbers they stand for: a literal is its exact
    value and the operations are exact.  The comparisons of real numbers
    are not computable: they are sealed, so that evaluation leaves them
    alone, and are used through their specifications.  The power [**] is
    sealed as well: it is the real power when the base is positive; for
    any other base numpy gives 0, [inf] or [nan], the last two of which
    are no real numbers, and nothing is known of the value here. *)

Definition Rltb_sealed : {f : R -> R -> bool | forall a b, f a b = true <-> (a < b)%R}.
Proof.
  exists (fun a b => if Rlt_dec a b then true else false).
  intros a b. destruct (Rlt_dec a b); split; intros; try done.
Qed.

Definition Reqb_sealed : {f : R -> R -> bool | forall a b, f a b = true <-> a = b}.
Proof.
  exists (fun a b => if Req_dec_T a b then true else false).
  intros a b. destruct (Req_dec_T a b); split; intros; try done.
Qed.

Definition Rpow_sealed :
  {f : R -> R -> R | forall x y, (0 < x)%R -> f x y = Rpower x y}.
Proof. exists Rpower. done. Qed.

Definition Rltb : R -> R -> bool := proj1_sig Rltb_sealed.
Definition Reqb : R -> R -> bool := proj1_sig Reqb_sealed.
Definition Rpow : R -> R -> R := proj1_sig Rpow_sealed.

#[export] Instance RealArith : Float64 R := {
  float_of_string s := Q2R <$> PyStr.float_literal s;
  float_of_Z := IZR;
  fadd := Rplus;
  fmul := Rmult;
  fdiv := Rdiv;
  fopp := Ropp;
  fltb := Rltb;
  fpow := Rpow;
  linalg_det := det3 Rplus Rminus Rmult 0%R;
  linalg_inv := inv3 Rplus Rminus Rmult Rdiv 0%R (fun d => Reqb d 0%R);
}.

(** ** What a LOCPROJ file declares *)

Module Locproj.

(** The four integers of the first line: [ncdij], the numbers of
    k-points, of bands and of projectors. *)
Definition header_fields (ls : list string) : option (Z * Z * Z * Z) :=
  match ls with
  | l :: _ =>
      match map_conv PyStr.int (take 4 (PyStr.split (PyStr.before "#" l))) with
      | Some [a; b; c; d] => Some (a, b, c, d)
      | _ => None
      end
  | [] => None
  end.

(** The fifth token of the first line. *)
Definition header_efermi (ls : list string) : option string :=
  match ls with
  | l :: _ => PyStr.split (PyStr.before "#" l) !! 4%nat
  | [] => None
  end.

(** The lines up to the first blank one, stripped. *)
Fixpoint block_after (ls : list string) : list string :=
  match ls with
  | [] => []
  | l :: r =>
      if String.eqb (PyStr.strip l) "" then [] else PyStr.strip l :: block_after r
  end.

(** The lines the header loop goes through when it starts at [line]
    with [ls] unread. *)
Definition block_from (line : string) (ls : list string) : list string :=
  if String.eqb line "" then [] else line :: block_after ls.

(** The lines after the first one that matches [patt] (or is empty). *)
Fixpoint after_match (patt : string -> bool) (ls : list string) : list string :=
  match ls with
  | [] => []
  | l :: r => if patt l || String.eqb l "" then ls else after_match patt r
  end.

(** The metadata block of a file: the first [ISITE] line after the first
    line of the file, and the lines that follow it up to the first blank
    line. *)
Definition metadata_block (ls : list string) : list string :=
  let found := after_match PyStr.match_isite (tail ls) in
  block_from (default "" (head found)) (tail found).

(** The orbital label of a metadata line: what follows its last colon. *)
Definition entry_label (line : string) : string :=
  PyStr.strip (default "" (last_item (PyStr.split_on ":" line))).

(** The magnetic quantum number as it is stored for record [ip]. *)
Definition encode_m (ncdij0 ip m : Z) : Z :=
  if ncdij0 =? 4 then (if ip mod 2 =? 0 then 2 * m else 2 * m + 1) else m.

(** A line whose label is one of [orb_labels]. *)
Definition known_label (line : string) : Prop :=
  is_Some (index_of (entry_label line) Plocar.orb_labels).

(** The site index of a metadata line: the first token after its first
    colon. *)
Definition entry_isite (line : string) : option Z :=
  tok ← (PyStr.split_on ":" line !! 1%nat ≫= fun x => PyStr.split x !! 0%nat);
  PyStr.int tok.

(** The projector dictionary of record [ip], filled from the metadata
    line [line] of a file that declares [ncdij0]: the label and the site
    index of the line, and the l and the m of the label. *)
Definition filled (ncdij0 : Z) (ip : nat) (line : string) (d : gmap string pyval) : Prop :=
  exists lm isite,
    index_of (entry_label line) Plocar.orb_labels = Some lm /\
    entry_isite line = Some isite /\
    d !! "label" = Some (PStr (entry_label line)) /\
    d !! "isite" = Some (PInt isite) /\
    d !! "l" = Some (PInt (Plocar.lm_to_l_m lm).1) /\
    d !! "m" = Some (PInt (encode_m ncdij0 (Z.of_nat ip) (Plocar.lm_to_l_m lm).2)).

(** The order in which the data loop visits (spin, k-point, band). *)
Definition loop_positions (nspin nk nband : Z) : list (Z * Z * Z) :=
  ispin ← range nspin; ik ← range nk; ib ← range nband; [(ispin, ik, ib)].

(** The index triple a record must declare at a loop position. *)
Definition expected (pos : Z * Z * Z) : Z * Z * Z :=
  let '(ispin, ik, ib) := pos in (ispin + 1, ik + 1, ib + 1).

(** The next record line: the first line that is not blank, stripped. *)
Fixpoint next_record (ls : list string) : option string :=
  match ls with
  | [] => None
  | l :: r => if String.eqb (PyStr.strip l) "" then next_record r else Some (PyStr.strip l)
  end.

(** The index triple the next record declares, when it has one. *)
Definition declared_triple (ls : list string) : option (Z * Z * Z) :=
  line ← next_record ls;
  match map_conv PyStr.int (take 3 (drop 1 (PyStr.split line))) with
  | Some [a; b; c] => Some (a, b, c)
  | _ => None
  end.

(** The slot of the arrays of eigenvalues and Fermi weights that the
    record at a loop position is stored in. *)
Definition slot (pos : Z * Z * Z) : list Z :=
  let '(ispin, ik, ib) := pos in [ik; ib; ispin].

(** An array of shape [sh] into which the slots [slots] were written,
    the most recent first, each as many times as it occurs. *)
Definition written {A} (sh : list Z) (slots : list (list Z))
    (a : option (ndarray A)) : Prop :=
  exists arr, a = Some arr /\ shape arr = sh /\ (stores arr).*1 = slots.

(** The attributes that the loops over the records leave alone. *)
Definition same_header {F} (o o' : Plocar.t F) : Prop :=
  Plocar.plo o' = Plocar.plo o /\
  Plocar.proj_params o' = Plocar.proj_params o /\
  Plocar.ncdij o' = Plocar.ncdij o /\
  Plocar.nband o' = Plocar.nband o /\
  Plocar.nspin o' = Plocar.nspin o /\
  Plocar.nspin_band o' = Plocar.nspin_band o /\
  Plocar.efermi o' = Plocar.efermi o /\
  Plocar.nc_flag o' = Plocar.nc_flag o.

(** The slots of an array of the given shape. *)
Definition in_shape (dims idx : list Z) : Prop :=
  Forall2 (fun n i => 0 <= i < n) dims idx.

End Locproj.

(** ** Outcomes that settle *)

(** An outcome other than divergence and other than the error of an
    inconsistent record. *)
Definition settled {A} (r : outcome A) : Prop :=
  match r with
  | Ok _ => True
  | Raise e => e <> AssertionError Plocar.inconsistency
  | Diverge => False
  end.

(** A computation all of whose outcomes are settled. *)
Definition tame {S A} (m : M S A) : Prop := forall s, settled (m s).1.


(** ** Files to run the readers on *)

(** The value of an outcome that is a return, and [d] for the others. *)
Definition returned {A} (d : A) (r : outcome A) : A :=
  match r with
  | Ok a => a
  | _ => d
  end.

Module Samples.

(** A collinear LOCPROJ: two spins, one k-point, two bands and one
    projector. *)
Definition locproj_collinear : string := Eval vm_compute in (
  "  2   1   2   1     5.1234  # of spin, # of k-points, # of bands, # of proj" +:+ nl +:+
  " ISITE:   1  R:  0.0 0.0 0.0  Radial type:   1  Ang. type: dyz" +:+ nl +:+
  nl +:+
  "orbital   1   1   1     -5.0   1.0" +:+ nl +:+
  "   1   0.5   0.25" +:+ nl +:+ nl +:+
  "orbital   1   1   2     -4.0   1.0" +:+ nl +:+
  "   1   0.1   0.2" +:+ nl +:+ nl +:+
  "orbital   2   1   1     -3.0   0.5" +:+ nl +:+
  "   1   0.3   0.0" +:+ nl +:+ nl +:+
  "orbital   2   1   2     -2.0   0.0" +:+ nl +:+
  "   1   0.0   0.4" +:+ nl +:+ nl).

(** The same with the k-point and band indices of the second record
    swapped. *)
Definition locproj_swapped : string := Eval vm_compute in (
  "  2   1   2   1     5.1234  # of spin, # of k-points, # of bands, # of proj" +:+ nl +:+
  " ISITE:   1  R:  0.0 0.0 0.0  Radial type:   1  Ang. type: dyz" +:+ nl +:+
  nl +:+
  "orbital   1   1   1     -5.0   1.0" +:+ nl +:+
  "   1   0.5   0.25" +:+ nl +:+ nl +:+
  "orbital   1   2   1     -4.0   1.0" +:+ nl +:+
  "   1   0.1   0.2" +:+ nl +:+ nl +:+
  "orbital   2   1   1     -3.0   0.5" +:+ nl +:+
  "   1   0.3   0.0" +:+ nl +:+ nl +:+
  "orbital   2   1   2     -2.0   0.0" +:+ nl +:+
  "   1   0.0   0.4" +:+ nl +:+ nl).

(** A non-collinear LOCPROJ: one k-point, one band and two projectors,
    and no Fermi level on the first line. *)
Definition locproj_noncollinear : string := Eval vm_compute in (
  "  4   1   1   2" +:+ nl +:+
  " ISITE:   1  R:  0.0 0.0 0.0  Radial type:   1  Ang. type: dyz" +:+ nl +:+
  " ISITE:   1  R:  0.0 0.0 0.0  Radial type:   1  Ang. type: dyz" +:+ nl +:+
  nl +:+
  "orbital   1   1   1     -5.0   1.0" +:+ nl +:+
  "   1   0.5   0.25" +:+ nl +:+
  "   2   0.1   0.2" +:+ nl +:+ nl).

(** A LOCPROJ that declares two projectors and describes one. *)
Definition locproj_short : string := Eval vm_compute in (
  "  1   1   1   2     5.1234" +:+ nl +:+
  " ISITE:   1  R:  0.0 0.0 0.0  Radial type:   1  Ang. type: dyz" +:+ nl +:+
  nl +:+
  "orbital   1   1   1     -5.0   1.0" +:+ nl +:+
  "   1   0.5   0.25" +:+ nl +:+
  "   2   0.1   0.2" +:+ nl +:+ nl).

(** A LOCPROJ that declares two bands and ends after the record of the
    first. *)
Definition locproj_one_of_two : string := Eval vm_compute in (
  "  1   1   2   1     5.1234" +:+ nl +:+
  " ISITE:   1  R:  0.0 0.0 0.0  Radial type:   1  Ang. type: dyz" +:+ nl +:+
  nl +:+
  "orbital   1   1   1     -5.0   1.0" +:+ nl +:+
  "   1   0.5   0.25" +:+ nl +:+ nl).

(** A LOCPROJ that declares two projectors and has one line with the
    ISITE mark, followed by a line without it. *)
Definition locproj_unmarked : string := Eval vm_compute in (
  "  1   1   1   2     5.1234" +:+ nl +:+
  " ISITE:   1  R:  0.0 0.0 0.0  Radial type:   1  Ang. type: dyz" +:+ nl +:+
  " note: 7 : px" +:+ nl +:+
  nl +:+
  "orbital   1   1   1     -5.0   1.0" +:+ nl +:+
  "   1   0.5   0.25" +:+ nl +:+
  "   2   0.1   0.2" +:+ nl +:+ nl).

(** A LOCPROJ with an orbital label that is not in the table. *)
Definition locproj_unknown : string := Eval vm_compute in (
  "  1   1   1   1     5.1234" +:+ nl +:+
  " ISITE:   1  R:  0.0 0.0 0.0  Radial type:   1  Ang. type: gz4" +:+ nl +:+
  nl +:+
  "orbital   1   1   1     -5.0   1.0" +:+ nl +:+
  "   1   0.5   0.25" +:+ nl +:+ nl).

(** A directory that holds the file [text] under the name [name]. *)
Definition single (name text : string) : gmap string string :=
  {[ name := text ]}.

End Samples.

(** ** What a computation leaves alone *)

(** Every run of [m] takes a state to one related to it by [R]. *)
Definition frame {S A} (R : relation S) (m : M S A) : Prop :=
  forall s r s', m s = (r, s') -> R s s'.

(** A relation on objects, as a relation on the states that hold them. *)
Definition on_self {O} (R : relation O) : relation (st O) :=
  fun s s' => R (self s) (self s').

(** ** What an IBZKPT file declares *)

Module Ibzkpt.

(** The number of k-points: the first token of the second line. *)
Definition declared_nktot (ls : list string) : option Z :=
  l ← ls !! 1%nat;
  tok ← PyStr.split (PyStr.strip l) !! 0%nat;
  PyStr.int tok.

(** The weight on the line of a k-point: its fourth token. *)
Definition raw_weight {F} `{Float64 F} (line : string) : option F :=
  tok ← PyStr.split (PyStr.strip line) !! 3%nat;
  float_of_string tok.

(** The lines of the k-points of a file that declares [n] of them. *)
Definition kpoint_lines (n : Z) (ls : list string) : list string :=
  take (Z.to_nat n) (drop 3 ls).




(** The attributes that hold the k-points. *)
Definition same_kpoints {F} : relation (Kpoints.t F) :=
  fun o o' =>
    Kpoints.kpts o' = Kpoints.kpts o /\
    Kpoints.kwghts o' = Kpoints.kwghts o /\
    Kpoints.nktot o' = Kpoints.nktot o.

End Ibzkpt.

(** [a.sum()] on an array of real numbers. *)
Definition np_sum (a : list R) : R := foldr Rplus 0%R a.

Module SamplesIbzkpt.

(** The IBZKPT of a 4x1x1 mesh: three irreducible k-points that stand for
    four, and no tetrahedra. *)
Definition mesh_4x1x1 : string := Eval vm_compute in (
  "Automatically generated mesh" +:+ nl +:+
  "       3" +:+ nl +:+
  "Reciprocal lattice" +:+ nl +:+
  "    0.00000000000000    0.00000000000000    0.00000000000000             1" +:+ nl +:+
  "    0.25000000000000    0.00000000000000    0.00000000000000             2" +:+ nl +:+
  "    0.50000000000000    0.00000000000000    0.00000000000000             1" +:+ nl).




(** The same cut in the middle of the k-points. *)
Definition mesh_short : string := Eval vm_compute in (
  "Automatically generated mesh" +:+ nl +:+
  "       3" +:+ nl +:+
  "Reciprocal lattice" +:+ nl +:+
  "    0.00000000000000    0.00000000000000    0.00000000000000             1" +:+ nl).

End SamplesIbzkpt.

(** ** What an EIGENVAL file declares *)

Module EigenvalFile.

(** The number of spin channels (the fourth token of the first line) and
    the numbers of k-points and of bands (the second and third tokens of
    the sixth line). *)
Definition preamble_fields (ls : list string) : option (Z * Z * Z) :=
  l0 ← ls !! 0%nat;
  ispin ← PyStr.split l0 !! 3%nat ≫= PyStr.int;
  l5 ← ls !! 5%nat;
  nktot ← PyStr.split l5 !! 1%nat ≫= PyStr.int;
  nband ← PyStr.split l5 !! 2%nat ≫= PyStr.int;
  Some (ispin, nktot, nband).

(** The line of band [ib] of k-point [ik]: after the six lines of the
    preamble each k-point takes an empty line, the line of the k-point
    and one line for each band. *)
Definition band_line (nband : Z) (ik ib : nat) (ls : list string) : option string :=
  ls !! (6 + (2 + Z.to_nat nband) * ik + 2 + ib)%nat.

(** The number of tokens of a line. *)
Definition tokens (line : string) : Z := Z.of_nat (length (PyStr.split line)).

End EigenvalFile.

Module SamplesEigenval.

(** An EIGENVAL with two spin channels, one k-point and two bands. *)
Definition two_spins : string := Eval vm_compute in (
  "    2    2    1    2" +:+ nl +:+
  "  0.1E+02  0.4E-09  0.4E-09  0.4E-09  0.5E-15" +:+ nl +:+
  "  1.0E-04" +:+ nl +:+
  "  CAR" +:+ nl +:+
  " system" +:+ nl +:+
  "     16      1      2" +:+ nl +:+
  nl +:+
  "  0.0E+00  0.0E+00  0.0E+00  1.0E+00" +:+ nl +:+
  "    1       -5.5       -5.0   1.0   1.0" +:+ nl +:+
  "    2        3.5        4.0   0.0   0.0" +:+ nl).

(** The same with the band lines of a file written for one channel
    without occupations. *)
Definition old_format : string := Eval vm_compute in (
  "    2    2    1    2" +:+ nl +:+
  "  0.1E+02  0.4E-09  0.4E-09  0.4E-09  0.5E-15" +:+ nl +:+
  "  1.0E-04" +:+ nl +:+
  "  CAR" +:+ nl +:+
  " system" +:+ nl +:+
  "     16      1      2" +:+ nl +:+
  nl +:+
  "  0.0E+00  0.0E+00  0.0E+00  1.0E+00" +:+ nl +:+
  "    1       -5.5       -5.0   1.0   1.0" +:+ nl +:+
  "    2        3.5        4.0" +:+ nl).

End SamplesEigenval.

(** ** What a POSCAR file declares *)

Module PoscarFile.

(** A line without its comments and the blanks around it. *)
Definition clean (line : string) : string :=
  PyStr.strip (PyStr.before "#" (PyStr.before "!" line)).

(** The tokens of a line without its comments. *)
Definition fields (line : string) : list string := PyStr.split (clean line).

(** The attributes that hold the species and the numbers of ions. *)
Definition same_species {F} : relation (Poscar.t F) :=
  fun o o' =>
    Poscar.el_names o' = Poscar.el_names o /\
    Poscar.nions o' = Poscar.nions o /\
    Poscar.ntypes o' = Poscar.ntypes o /\
    Poscar.nq o' = Poscar.nq o.

(** The factor the lattice vectors [raw] are multiplied by for the scale
    [ascale] of the file. *)
Definition effective_scale {F} `{Float64 F} (ascale : F) (raw : list (list F)) : F :=
  if fltb ascale (float_of_Z 0)
  then fpow (fdiv (fopp ascale) (linalg_det raw)) (fdiv (float_of_Z 1) (float_of_Z 3))
  else ascale.

End PoscarFile.

Module SamplesPoscar.

(** A POSCAR with the names of the elements, and a volume for scale. *)
Definition with_names : string := Eval vm_compute in (
  "FeO" +:+ nl +:+
  "  -8.0  ! volume" +:+ nl +:+
  " 1.0 0.0 0.0" +:+ nl +:+
  " 0.0 1.0 0.0" +:+ nl +:+
  " 0.0 0.0 1.0" +:+ nl +:+
  " Fe O" +:+ nl +:+
  " 2 4" +:+ nl +:+
  "Direct" +:+ nl +:+
  " 0.0 0.0 0.0" +:+ nl +:+
  " 0.5 0.5 0.5" +:+ nl +:+
  " 0.25 0.25 0.25" +:+ nl +:+
  " 0.25 0.25 0.75" +:+ nl +:+
  " 0.75 0.75 0.25" +:+ nl +:+
  " 0.75 0.75 0.75" +:+ nl).

(** The same in the format without the names. *)
Definition without_names : string := Eval vm_compute in (
  "FeO" +:+ nl +:+
  "  2.0" +:+ nl +:+
  " 1.0 0.0 0.0" +:+ nl +:+
  " 0.0 1.0 0.0" +:+ nl +:+
  " 0.0 0.0 1.0" +:+ nl +:+
  " 2 4" +:+ nl +:+
  "Selective dynamics" +:+ nl +:+
  "Cartesian" +:+ nl +:+
  " 0.0 0.0 0.0" +:+ nl +:+
  " 1.0 1.0 1.0" +:+ nl +:+
  " 0.5 0.5 0.5" +:+ nl +:+
  " 0.5 0.5 1.5" +:+ nl +:+
  " 1.5 1.5 0.5" +:+ nl +:+
  " 1.5 1.5 1.5" +:+ nl).

End SamplesPoscar.

Module SamplesDir.
Import Samples SamplesIbzkpt SamplesPoscar.

(** A directory [d] with LOCPROJ, POSCAR and IBZKPT, and neither EIGENVAL
    nor DOSCAR. *)
Definition without_doscar (locproj : string) : gmap string string :=
  {[ "d/LOCPROJ" := locproj; "d/POSCAR" := with_names; "d/IBZKPT" := mesh_4x1x1 ]}.

(** The same with an EIGENVAL. *)
Definition with_eigenval (locproj eigenval : string) : gmap string string :=
  <["d/EIGENVAL" := eigenval]> (without_doscar locproj).

(** The object in which the five readers have been created. *)
Definition created {F} `{Float64 F} (dir : string) : VaspData.t F :=
  VaspData.Build dir Plocar.init Poscar.init Kpoints.init Eigenval.init Doscar.init.

(** The container after each of the three mandatory files is read. *)
Definition after_locproj (fs : gmap string string) : VaspData.t Q :=
  (VaspData.call VaspData.plocar VaspData.set_plocar
     (Plocar.from_file (F:=Q) fs "d") (created "d")).2.
Definition after_poscar (fs : gmap string string) : VaspData.t Q :=
  (VaspData.call VaspData.poscar VaspData.set_poscar
     (Poscar.from_file (F:=Q) fs "d") (after_locproj fs)).2.
Definition after_ibzkpt (fs : gmap string string) : VaspData.t Q :=
  (VaspData.call VaspData.kpoints VaspData.set_kpoints
     (Kpoints.from_file (F:=Q) fs "d") (after_poscar fs)).2.

End SamplesDir.

(** Two containers with the same LOCPROJ reader. *)
Definition same_plocar {F} : relation (VaspData.t F) :=
  fun v v' => VaspData.plocar v' = VaspData.plocar v.

(** * Properties *)

(** ** Running computations *)

Section Run.
Context {S : Type}.

Lemma bind_Ok {A B} (m : M S A) (k : A -> M S B) s a s1 :
  m s = (Ok a, s1) -> bind m k s = k a s1.
Proof. intros E. unfold bind. by rewrite E. Qed.

Lemma bind_Raise {A B} (m : M S A) (k : A -> M S B) s e s1 :
  m s = (Raise e, s1) -> bind m k s = (Raise e, s1).
Proof. intros E. unfold bind. by rewrite E. Qed.

Lemma bind_Diverge {A B} (m : M S A) (k : A -> M S B) s s1 :
  m s = (Diverge, s1) -> bind m k s = (Diverge, s1).
Proof. intros E. unfold bind. by rewrite E. Qed.

Lemma bind_Ok_inv {A B} (m : M S A) (k : A -> M S B) s b s' :
  bind m k s = (Ok b, s') ->
  exists a s1, m s = (Ok a, s1) /\ k a s1 = (Ok b, s').
Proof.
  unfold bind. destruct (m s) as [[a | e |] s1]; intros E; try done. eauto.
Qed.

Lemma bind_Raise_inv {A B} (m : M S A) (k : A -> M S B) s e s' :
  bind m k s = (Raise e, s') ->
  m s = (Raise e, s') \/ exists a s1, m s = (Ok a, s1) /\ k a s1 = (Raise e, s').
Proof.
  unfold bind. destruct (m s) as [[a | e' |] s1]; intros E; try done.
  - right. eauto.
  - left. by injection E as -> ->.
Qed.

Lemma ret_inv {A} (a b : A) (s s' : S) : ret a s = (Ok b, s') -> b = a /\ s' = s.
Proof. unfold ret. by intros [= -> ->]. Qed.

Lemma orelse_inv {A} (o : option A) e (s s' : S) a :
  orelse o e s = (Ok a, s') -> o = Some a /\ s' = s.
Proof. destruct o; cbn; by intros [= -> ->]. Qed.

Lemma orelse_Some {A} (a : A) e (s : S) : orelse (Some a) e s = (Ok a, s).
Proof. done. Qed.

Lemma orelse_None {A} e (s : S) : orelse (None : option A) e s = (Raise e, s).
Proof. done. Qed.

Lemma assert_inv c msg (s s' : S) u :
  assert c msg s = (Ok u, s') -> c = true /\ s' = s.
Proof. destruct c; cbn; by intros [= _ ->]. Qed.

Lemma foldM_app {A B} (body : B -> A -> M S B) l1 l2 b s :
  foldM body (l1 ++ l2) b s = bind (foldM body l1 b) (foldM body l2) s.
Proof.
  revert b s. induction l1 as [| x l1 IH]; intros b s; cbn.
  - done.
  - unfold bind. destruct (body b x s) as [[b' | e |] s1]; try done.
Qed.

Lemma foldM_ext {A B} (body1 body2 : B -> A -> M S B) l b s :
  (forall b x s, body1 b x s = body2 b x s) ->
  foldM body1 l b s = foldM body2 l b s.
Proof.
  intros Hext. revert b s. induction l as [| x l IH]; intros b s; cbn; [done |].
  unfold bind. rewrite Hext. destruct (body2 b x s) as [[b' | e |] s1]; try done.
Qed.

Lemma foldM_singleton {A B} (body : B -> A -> M S B) x b s :
  foldM body [x] b s = body b x s.
Proof. cbn. unfold bind, ret. by destruct (body b x s) as [[b' | e |] s1]. Qed.

(** A loop over a list of lists is the loop over their concatenation. *)
Lemma foldM_bind {A B C} (body : C -> B -> M S C) (f : A -> list B) l c s :
  foldM body (l ≫= f) c s = foldM (fun c x => foldM body (f x) c) l c s.
Proof.
  revert c s. induction l as [| x l IH]; intros c s; [done |].
  rewrite bind_cons, foldM_app. cbn. unfold bind.
  destruct (foldM body (f x) c s) as [[c' | e |] s1]; try done.
Qed.

(** A loop that returns has kept every invariant its body keeps. *)
Lemma foldM_inv {A B} (I : list A -> B -> S -> Prop) (body : B -> A -> M S B) l b s b' s' :
  I [] b s ->
  (forall seen x todo b s b' s',
      l = seen ++ x :: todo ->
      I seen b s -> body b x s = (Ok b', s') -> I (seen ++ [x]) b' s') ->
  foldM body l b s = (Ok b', s') ->
  I l b' s'.
Proof.
  intros H0 Hstep.
  assert (G : forall todo seen b s, l = seen ++ todo -> I seen b s ->
                foldM body todo b s = (Ok b', s') -> I (seen ++ todo) b' s').
  { clear b s H0. induction todo as [| x todo IH]; intros seen b s Hl HI E; cbn in E.
    - apply ret_inv in E as [-> ->]. by rewrite app_nil_r.
    - apply bind_Ok_inv in E as (b1 & s1 & E1 & E2).
      replace (seen ++ x :: todo) with ((seen ++ [x]) ++ todo)
        by by rewrite <- app_assoc.
      eapply IH; [by rewrite <- app_assoc | | exact E2]. eapply Hstep; eauto. }
  intros E. exact (G l [] b s eq_refl H0 E).
Qed.

(** A loop that returns went through every element: the elements before
    it returned and so did the body on it. *)
Lemma foldM_Ok_prefix {A B} (body : B -> A -> M S B) seen x todo b s b' s' :
  foldM body (seen ++ x :: todo) b s = (Ok b', s') ->
  exists b1 s1 b2 s2,
    foldM body seen b s = (Ok b1, s1) /\ body b1 x s1 = (Ok b2, s2).
Proof.
  rewrite foldM_app. intros E.
  apply bind_Ok_inv in E as (b1 & s1 & E1 & E). cbn in E.
  apply bind_Ok_inv in E as (b2 & s2 & E2 & _). eauto 10.
Qed.

(** A loop raises exactly when its body raises on some element after
    returning on those before it. *)
Lemma foldM_Raise_iff {A B} (body : B -> A -> M S B) l b s e :
  (foldM body l b s).1 = Raise e <->
  exists seen x todo b1 s1,
    l = seen ++ x :: todo /\
    foldM body seen b s = (Ok b1, s1) /\ (body b1 x s1).1 = Raise e.
Proof.
  split.
  - revert b s. induction l as [| x l IH]; intros b s E; cbn in E; [done |].
    unfold bind in E. destruct (body b x s) as [[b1 | e1 |] s1] eqn:E1.
    + apply IH in E as (seen & y & todo & b2 & s2 & -> & Eseen & Ey).
      exists (x :: seen), y, todo, b2, s2. split; [done |]. split; [| done].
      cbn. unfold bind. by rewrite E1.
    + exists [], x, l, b, s. by rewrite E1.
    + done.
  - intros (seen & x & todo & b1 & s1 & -> & Eseen & Ex).
    rewrite foldM_app. unfold bind. rewrite Eseen. cbn. unfold bind.
    destruct (body b1 x s1) as [[b2 | e2 |] s2]; cbn in Ex; try done.
Qed.

(** The same for a property of the state alone. *)
Lemma foldM_preserves {A B} (P : S -> Prop) (body : B -> A -> M S B) l b s r s' :
  P s ->
  (forall x b s r s', P s -> body b x s = (r, s') -> P s') ->
  foldM body l b s = (r, s') ->
  P s'.
Proof.
  intros H0 Hstep. revert b s H0. induction l as [| x l IH]; intros b s H0 E; cbn in E.
  - unfold ret in E. by injection E as _ <-.
  - unfold bind in E. destruct (body b x s) as [[b1 | e |] s1] eqn:E1.
    + eapply IH; [| exact E]. eapply Hstep; eauto.
    + injection E as _ <-. eapply Hstep; eauto.
    + injection E as _ <-. eapply Hstep; eauto.
Qed.

(** *** Computations that settle *)

Lemma tame_ret {A} (a : A) : tame (ret (S:=S) a).
Proof. by intros s. Qed.

Lemma tame_raise {A} e :
  e <> AssertionError Plocar.inconsistency -> tame (raise (S:=S) (A:=A) e).
Proof. by intros He s. Qed.

Lemma tame_bind {A B} (m : M S A) (k : A -> M S B) :
  tame m -> (forall a, tame (k a)) -> tame (bind m k).
Proof.
  intros Hm Hk s. unfold bind. specialize (Hm s).
  destruct (m s) as [[a | e |] s1]; cbn in *; try done. apply Hk.
Qed.

Lemma tame_orelse {A} (o : option A) e :
  e <> AssertionError Plocar.inconsistency -> tame (orelse (S:=S) o e).
Proof. intros He s. by destruct o. Qed.

Lemma tame_assert c msg :
  msg <> Plocar.inconsistency -> tame (assert (S:=S) c msg).
Proof. intros He s. destruct c; cbn; [done | congruence]. Qed.

Lemma tame_foldM {A B} (body : B -> A -> M S B) l b :
  (forall b x, tame (body b x)) -> tame (foldM body l b).
Proof.
  intros Hb. revert b. induction l as [| x l IH]; intros b; cbn.
  - apply tame_ret.
  - by apply tame_bind.
Qed.

Lemma tame_try_except {A} (m : M S A) handles handler :
  tame m -> tame handler -> tame (try_except m handles handler).
Proof.
  intros Hm Hh s. unfold try_except. specialize (Hm s).
  destruct (m s) as [[a | e |] s1]; cbn in *; try done.
  destruct (handles e); [apply Hh | done].
Qed.

Lemma tame_np_zeros_shape dims : tame (np_zeros_shape (S:=S) dims).
Proof. intros s. unfold np_zeros_shape. by destruct (forallb _ _). Qed.

Lemma tame_broadcast {A} n (vals : list A) : tame (broadcast (S:=S) n vals).
Proof.
  intros s. unfold broadcast. destruct (_ =? _)%nat; [done |].
  by destruct vals as [| v [| ? ?]].
Qed.

(** A tame computation that does not return raises. *)
Lemma tame_raises {A} (m : M S A) s :
  tame m -> (forall a, (m s).1 <> Ok a) -> exists e, (m s).1 = Raise e.
Proof.
  intros Hm Hno. specialize (Hm s). destruct ((m s).1) as [a | e |]; cbn in *.
  - by destruct (Hno a).
  - eauto.
  - done.
Qed.
End Run.

Section RunFile.
Context {O : Type}.

Lemma tame_next : tame (next (O:=O)).
Proof. intros s. unfold next. by destruct (unread s). Qed.

Lemma tame_readline : tame (readline (O:=O)).
Proof. intros s. unfold readline. by destruct (unread s). Qed.

Lemma tame_assign (upd : O -> O) : tame (assign upd).
Proof. by intros s. Qed.

Lemma tame_attr {A} (proj : O -> option A) : tame (attr proj).
Proof. intros s. unfold attr. by destruct (proj (self s)). Qed.

Lemma tame_open_file fs filename : tame (open_file (O:=O) fs filename).
Proof.
  intros s. unfold open_file, read_lines. by destruct (fs !! filename).
Qed.
End RunFile.

Create HintDb tame.
#[global] Hint Resolve tame_ret tame_next tame_readline tame_assign tame_attr
  tame_open_file tame_np_zeros_shape tame_broadcast : tame.

(** Settle [tame] goals on straight-line code. *)
Ltac tame_step :=
  match goal with
  | |- tame (bind _ _) => apply tame_bind; [| intros ?]
  | |- tame (orelse _ _) => apply tame_orelse; discriminate
  | |- tame (raise _) => apply tame_raise; discriminate
  | |- tame (assert _ _) => apply tame_assert; discriminate
  | |- tame (foldM _ _ _) => apply tame_foldM; intros ? ?
  | |- tame (try_except _ _ _) => apply tame_try_except
  | |- tame (let '(_, _) := ?x in _) => destruct x
  | |- tame (if ?c then _ else _) => destruct c
  | |- tame (match ?x with _ => _ end) => destruct x
  | |- tame _ => solve [auto with tame]
  end.
Ltac tame := repeat tame_step.


(** Take apart a hypothesis saying that a sequence of steps returned. *)
Ltac inv_run H :=
  repeat match type of H with
  | bind _ _ _ = (Ok _, _) =>
      let a := fresh "a" in let s := fresh "s" in
      let E := fresh "E" in
      apply bind_Ok_inv in H as (a & s & E & H);
      try (apply orelse_inv in E as [E ->]);
      try (apply assert_inv in E as [E ->]);
      try (apply ret_inv in E as [-> ->])
  | ret _ _ = (Ok _, _) => apply ret_inv in H as [-> ->]
  | orelse _ _ _ = (Ok _, _) => apply orelse_inv in H as [H ->]
  end.

(** ** LOCPROJ: the first line and the metadata block *)

Section PlocarHeader.
Context {F : Type} `{Float64 F}.
Import Plocar Locproj.

Lemma readline_unfold (s : st (Plocar.t F)) :
  readline s = match unread s with
               | [] => (Ok "", s)
               | l :: r => (Ok l, St (self s) r)
               end.
Proof. done. Qed.

(** What the first line leaves behind when it is read without error. *)
Lemma read_dimensions_Ok (s s1 : st (Plocar.t F)) nk nproj plo pp :
  read_dimensions s = (Ok (nk, nproj, plo, pp), s1) ->
  exists ncdij0 nband0,
    header_fields (unread s) = Some (ncdij0, nk, nband0, nproj) /\
    unread s1 = tail (unread s) /\
    nband (self s1) = Some nband0 /\
    nspin (self s1) = Some (if ncdij0 <? 4 then ncdij0 else 1) /\
    nspin_band (self s1) = Some (if ncdij0 =? 2 then 2 else 1) /\
    nc_flag (self s1) = Some (if ncdij0 =? 4 then 1 else 0) /\
    ncdij (self s1) = Some (if ncdij0 =? 4 then 1 else ncdij0) /\
    efermi (self s1) =
      match header_efermi (unread s) ≫= float_of_string with
      | Some e => Some e
      | None => efermi (self s)
      end /\
    0 <= nproj /\ 0 <= nk /\ 0 <= nband0 /\
    plo = NdArray [nproj; if ncdij0 <? 4 then ncdij0 else 1; nk; nband0] [] /\
    pp = replicate (Z.to_nat nproj) ∅.
Proof.
  unfold read_dimensions. intros E.
  apply bind_Ok_inv in E as (line & s0 & Eline & E).
  rewrite readline_unfold in Eline.
  assert (Hs0 : unread s0 = tail (unread s) /\ self s0 = self s /\
                line = default "" (head (unread s))).
  { destruct (unread s); injection Eline as <- <-; done. }
  destruct Hs0 as (Hu & Hself & ->). clear Eline.
  apply bind_Ok_inv in E as (dims & sa & Edims & E).
  apply orelse_inv in Edims as [Edims ->].
  apply bind_Ok_inv in E as ([[[ncdij0 nk'] nband0] nproj'] & sb & Eunpack & E).
  assert (dims = [ncdij0; nk'; nband0; nproj'] /\ sb = s0) as [-> ->].
  { destruct dims as [| a [| b [| c [| d [| ? ?]]]]]; try done.
    by injection Eunpack as -> -> -> -> ->. }
  clear Eunpack. cbn beta iota in E.
  unfold assign, bind, ret in E. cbn [self unread] in E.
  destruct (header_efermi (unread s) ≫= float_of_string) as [e |] eqn:Ee.
  all: assert (Ee' : (PyStr.split (PyStr.before "#" (default "" (head (unread s))))
                       !! 4%nat) ≫= float_of_string
                     = header_efermi (unread s) ≫= float_of_string)
         by (unfold header_efermi; destruct (unread s); done).
  all: rewrite Ee', Ee in E; cbn [self unread] in E.
  all: unfold np_zeros, np_zeros_shape, bind, ret in E.
  all: destruct (forallb _ _) eqn:Hdims; [| unfold raise in E; done].
  all: cbn in Hdims; rewrite !andb_true_r in Hdims.
  all: apply andb_prop in Hdims as [Hd1 Hdims].
  all: apply andb_prop in Hdims as [Hd2 Hdims].
  all: apply andb_prop in Hdims as [Hd3 Hd4].
  all: exists ncdij0, nband0.
  all: assert (Hf : header_fields (unread s) = Some (ncdij0, nk', nband0, nproj'))
         by (unfold header_fields; destruct (unread s) as [| l r];
             [done | change (default "" (head (l :: r))) with l in Edims;
                     by rewrite Edims]).
  all: destruct (ncdij0 =? 4) eqn:E4; cbn [self unread] in E.
  all: injection E as <- <- <- <- <-; cbn.
  all: rewrite ?Hself; repeat split; try done; try lia.
Qed.

Lemma setitem_Ok {S} (dicts dicts' : list (gmap string pyval)) i k v (s s' : S) :
  setitem dicts i k v s = (Ok dicts', s') ->
  s' = s /\ 0 <= i /\
  exists d, dicts !! Z.to_nat i = Some d /\
            dicts' = <[Z.to_nat i := <[k := v]> d]> dicts.
Proof.
  unfold setitem. intros E.
  apply bind_Ok_inv in E as (d & sa & Ed & E).
  apply orelse_inv in Ed as [Ed ->]. apply ret_inv in E as [-> ->].
  unfold item in Ed. destruct (i <? 0) eqn:Ei; [done |].
  apply Z.ltb_ge in Ei. eauto.
Qed.

(** One metadata line, read without error, fills the dictionary of its
    record and no other. *)
Lemma header_entry_Ok ncdij0 line ip pp pp' (s s' : st (Plocar.t F)) :
  header_entry (if ncdij0 =? 4 then 1 else 0) line ip pp s = (Ok pp', s') ->
  s' = s /\ 0 <= ip /\ (Z.to_nat ip < length pp)%nat /\
  known_label line /\
  exists d, filled ncdij0 (Z.to_nat ip) line d /\ pp' = <[Z.to_nat ip := d]> pp.
Proof.
  unfold header_entry. intros E.
  apply bind_Ok_inv in E as (tok & sa & Etok & E).
  apply orelse_inv in Etok as [Etok ->].
  apply bind_Ok_inv in E as (isite & sa & Eisite & E).
  apply orelse_inv in Eisite as [Eisite ->].
  apply bind_Ok_inv in E as (label0 & sa & Elabel & E).
  apply orelse_inv in Elabel as [Elabel ->].
  apply bind_Ok_inv in E as (lm & sa & Elm & E).
  apply orelse_inv in Elm as [Elm ->].
  assert (Hlab : entry_label line = PyStr.strip label0)
    by (unfold entry_label; by rewrite Elabel).
  rewrite <- Hlab in *.
  destruct (lm_to_l_m lm) as [l m] eqn:Hlm.
  apply bind_Ok_inv in E as (pp1 & sa & E1 & E).
  apply setitem_Ok in E1 as (-> & Hip & d0 & Hd0 & ->).
  apply bind_Ok_inv in E as (pp2 & sa & E2 & E).
  apply setitem_Ok in E2 as (-> & _ & d1 & Hd1 & ->).
  apply bind_Ok_inv in E as (pp3 & sa & E3 & E).
  apply setitem_Ok in E3 as (-> & _ & d2 & Hd2 & ->).
  assert (Hlt : (Z.to_nat ip < length pp)%nat) by (by eapply lookup_lt_Some).
  rewrite list_lookup_insert_eq in Hd1 by done. injection Hd1 as <-.
  rewrite list_lookup_insert_eq in Hd2 by (by rewrite length_insert).
  injection Hd2 as <-.
  assert (Em : exists mm, mm = encode_m ncdij0 ip m /\
             setitem
               (<[Z.to_nat ip := <["l" := PInt l]>
                   (<["isite" := PInt isite]> (<["label" := PStr (entry_label line)]> d0))]>
                 (<[Z.to_nat ip := <["isite" := PInt isite]>
                     (<["label" := PStr (entry_label line)]> d0)]>
                   (<[Z.to_nat ip := <["label" := PStr (entry_label line)]> d0]> pp)))
               ip "m" (PInt mm) s = (Ok pp', s')).
  { unfold encode_m. destruct (ncdij0 =? 4); cbn in E.
    - destruct (ip mod 2 =? 0); eauto.
    - eauto. }
  destruct Em as (mm & Hmm & Em). clear E.
  apply setitem_Ok in Em as (-> & _ & d3 & Hd3 & ->).
  rewrite list_lookup_insert_eq in Hd3 by (by rewrite !length_insert).
  injection Hd3 as <-.
  repeat split; [done | done | unfold known_label; by rewrite Elm |].
  subst mm. eexists. split; [| by rewrite !list_insert_insert_eq].
  exists lm, isite.
  rewrite Z2Nat.id by done. rewrite Hlm. cbn [fst snd].
  split_and!; [done | unfold entry_isite; rewrite Etok; done | ..]; by simplify_map_eq.
Qed.

Lemma header_loop_unfold nc ls line ip pp (s : st (Plocar.t F)) :
  header_loop nc ls line ip pp s =
  if String.eqb line "" then (Ok (ip, pp), s)
  else bind (header_entry nc line ip pp)
         (fun pp1 s1 =>
            match ls with
            | [] => (Ok (ip + 1, pp1), s1)
            | l :: r => header_loop nc r (PyStr.strip l) (ip + 1) pp1 (St (self s1) r)
            end) s.
Proof.
  destruct ls; cbn; destruct (String.eqb line ""); try done.
Qed.

Lemma block_from_cons line l r :
  String.eqb line "" = false ->
  block_from line (l :: r) = line :: block_from (PyStr.strip l) r.
Proof. unfold block_from. intros ->. cbn. by destruct (String.eqb _ _). Qed.

(** The header loop, when it returns: it went through the whole block,
    every line of which has a known label, and filled one dictionary per
    line, in order. *)
Lemma header_loop_Ok ncdij0 ls :
  forall line ip pp (s : st (Plocar.t F)) ip' pp' s',
    header_loop (if ncdij0 =? 4 then 1 else 0) ls line ip pp s = (Ok (ip', pp'), s') ->
    self s' = self s /\
    ip' = ip + Z.of_nat (length (block_from line ls)) /\
    length pp' = length pp /\
    (block_from line ls <> [] -> 0 <= ip /\ ip' <= Z.of_nat (length pp)) /\
    Forall known_label (block_from line ls) /\
    (forall i line',
       block_from line ls !! i = Some line' ->
       exists d, pp' !! (Z.to_nat ip + i)%nat = Some d /\
                 filled ncdij0 (Z.to_nat ip + i) line' d) /\
    (forall i, (i < Z.to_nat ip)%nat -> pp' !! i = pp !! i).
Proof.
  induction ls as [| l r IH]; intros line ip pp s ip' pp' s' E;
    rewrite header_loop_unfold in E.
  all: destruct (String.eqb line "") eqn:Eline.
  1, 3: injection E as <- <- <-; unfold block_from; rewrite Eline; cbn;
        split_and!; try done; try lia.
  all: apply bind_Ok_inv in E as (pp1 & s1 & E1 & E).
  all: apply header_entry_Ok in E1 as (-> & Hip & Hlt & Hknown & d & Hd & ->).
  - injection E as <- <- <-. unfold block_from. rewrite Eline. cbn.
    split_and!; try done; try lia.
    + by rewrite length_insert.
    + by repeat constructor.
    + intros [| i] line' Hline; [| done]. injection Hline as <-.
      rewrite Nat.add_0_r. exists d. by rewrite list_lookup_insert_eq.
    + intros i Hi. rewrite list_lookup_insert_ne; [done | lia].
  - apply IH in E as (Hself & -> & Hlen & Hrange & Hall & Hfilled & Hbelow).
    cbn [self] in Hself. rewrite length_insert in Hlen.
    rewrite block_from_cons by done. cbn [length].
    split_and!; try done; try lia.
    + intros _. destruct (block_from (PyStr.strip l) r) eqn:Eb.
      * cbn. lia.
      * rewrite <- Eb in *. destruct Hrange as [_ Hr]; [by rewrite Eb |].
        rewrite length_insert in Hr. lia.
    + by constructor.
    + intros [| i] line' Hline.
      * injection Hline as <-. rewrite Nat.add_0_r.
        exists d. rewrite Hbelow by lia. by rewrite list_lookup_insert_eq.
      * cbn in Hline. destruct (Hfilled i line' Hline) as (d' & Hd' & Hf).
        replace (Z.to_nat ip + S i)%nat with (Z.to_nat (ip + 1) + i)%nat by lia.
        eauto.
    + intros i Hi. rewrite Hbelow by lia. rewrite list_lookup_insert_ne; [done | lia].
Qed.

Lemma search_for_spec patt ls (s : st (Plocar.t F)) :
  search_for patt ls s =
  (Ok (default "" (head (after_match patt ls))),
   St (self s) (tail (after_match patt ls))).
Proof.
  induction ls as [| l r IH]; cbn; [done |].
  destruct (patt l || String.eqb l ""); [done | apply IH].
Qed.

(** The header block, when it is read without error. *)
Lemma read_header_Ok ncdij0 nproj (s s' : st (Plocar.t F)) pp :
  nc_flag (self s) = Some (if ncdij0 =? 4 then 1 else 0) ->
  0 <= nproj ->
  read_header nproj (replicate (Z.to_nat nproj) ∅) s = (Ok pp, s') ->
  let blk := block_from (default "" (head (after_match PyStr.match_isite (unread s))))
                        (tail (after_match PyStr.match_isite (unread s))) in
  self s' = self s /\
  length blk = Z.to_nat nproj /\
  length pp = Z.to_nat nproj /\
  Forall known_label blk /\
  (forall i line, blk !! i = Some line ->
     exists d, pp !! i = Some d /\ filled ncdij0 i line d).
Proof.
  intros Hnc Hnproj E blk. unfold read_header in E.
  apply bind_Ok_inv in E as (line & s1 & Eline & E).
  rewrite search_for_spec in Eline. injection Eline as <- <-.
  apply bind_Ok_inv in E as (nc & s2 & Enc & E).
  unfold attr in Enc. cbn [self] in Enc. rewrite Hnc in Enc.
  injection Enc as <- <-.
  apply bind_Ok_inv in E as ([ip pp1] & s3 & Eloop & E).
  cbn [unread] in Eloop.
  apply header_loop_Ok in Eloop as (Hself & Hip & Hlen & _ & Hall & Hfilled & _).
  apply bind_Ok_inv in E as (u & s4 & Eassert & E).
  apply assert_inv in Eassert as [Eassert ->].
  apply ret_inv in E as [-> ->].
  apply Z.eqb_eq in Eassert. fold blk in Hip, Hall, Hfilled.
  rewrite length_replicate in Hlen.
  split_and!; try done; try lia.
Qed.
End PlocarHeader.

(** ** LOCPROJ: everything before the records *)

Section PlocarPreamble.
Context {F : Type} `{Float64 F}.
Import Plocar Locproj.

Lemma tame_setitem {S} dicts i k v : tame (setitem (S:=S) dicts i k v).
Proof. unfold setitem. tame. Qed.

Lemma tame_header_entry nc line ip pp : tame (header_entry (F:=F) nc line ip pp).
Proof. unfold header_entry. tame; apply tame_setitem. Qed.

Lemma tame_header_loop nc ls :
  forall line ip pp, tame (header_loop (F:=F) nc ls line ip pp).
Proof.
  induction ls as [| l r IH]; intros line ip pp s; rewrite header_loop_unfold.
  all: destruct (String.eqb line ""); [done |].
  all: apply (tame_bind (header_entry nc line ip pp)); [apply tame_header_entry |].
  - by intros a s1.
  - intros a s1. apply IH.
Qed.

Lemma tame_read_header nproj pp : tame (read_header (F:=F) nproj pp).
Proof.
  unfold read_header. tame.
  - intros s. by rewrite search_for_spec.
  - intros s. apply tame_header_loop.
Qed.

Lemma tame_np_zeros {S A} dims : tame (np_zeros (S:=S) (A:=A) dims).
Proof. unfold np_zeros. tame. Qed.

Lemma tame_read_dimensions : tame (read_dimensions (F:=F)).
Proof. unfold read_dimensions. tame; apply tame_np_zeros. Qed.

Lemma tame_alloc_eigs nk : tame (alloc_eigs (F:=F) nk).
Proof. unfold alloc_eigs. tame; apply tame_np_zeros. Qed.

Lemma tame_read_preamble fs fname : tame (read_preamble (F:=F) fs fname).
Proof.
  unfold read_preamble. tame.
  - apply tame_read_dimensions.
  - apply tame_read_header.
  - apply tame_alloc_eigs.
Qed.

Lemma open_file_Ok fs fname (s s1 : st (Plocar.t F)) u :
  open_file fs fname s = (Ok u, s1) ->
  exists text, fs !! fname = Some text /\ s1 = St (self s) (PyStr.lines text).
Proof.
  unfold open_file, read_lines. destruct (fs !! fname) as [text |]; cbn; [| done].
  intros [= _ <-]. eauto.
Qed.

Lemma alloc_eigs_Ok nk nspin0 nband0 (s s1 : st (Plocar.t F)) :
  alloc_eigs nk s = (Ok (nspin0, nband0), s1) ->
  exists nsb,
    nband (self s) = Some nband0 /\ nspin (self s) = Some nspin0 /\
    nspin_band (self s) = Some nsb /\
    s1 = St (set_ferw (NdArray [nk; nband0; nsb] [])
              (set_eigs (NdArray [nk; nband0; nsb] []) (self s))) (unread s).
Proof.
  unfold alloc_eigs, attr, np_zeros, np_zeros_shape. intros E.
  apply bind_Ok_inv in E as (nb & sa & E1 & E).
  apply orelse_inv in E1 as [E1 ->].
  apply bind_Ok_inv in E as (nsb & sa & E2 & E).
  apply orelse_inv in E2 as [E2 ->].
  exists nsb. unfold bind, assign, ret in E.
  destruct (forallb _ _); [| done]. cbn [self unread] in E.
  unfold orelse in E. cbn [nspin set_ferw set_eigs] in E.
  destruct (nspin (self s)) as [n |]; [| done].
  cbn in E. by injection E as <- <- <-.
Qed.

(** What holds when the loops over the records start. *)
Lemma read_preamble_Ok fs fname (s s0 : st (Plocar.t F)) nspin0 nk nband0 nproj plo pp :
  read_preamble fs fname s = (Ok (nspin0, nk, nband0, nproj, plo, pp), s0) ->
  exists text ncdij0,
    fs !! fname = Some text /\
    header_fields (PyStr.lines text) = Some (ncdij0, nk, nband0, nproj) /\
    nspin0 = (if ncdij0 <? 4 then ncdij0 else 1) /\
    nspin (self s0) = Some nspin0 /\
    nspin_band (self s0) = Some (if ncdij0 =? 2 then 2 else 1) /\
    nc_flag (self s0) = Some (if ncdij0 =? 4 then 1 else 0) /\
    nband (self s0) = Some nband0 /\
    efermi (self s0) =
      match header_efermi (PyStr.lines text) ≫= float_of_string with
      | Some e => Some e
      | None => efermi (self s)
      end /\
    eigs (self s0) = Some (NdArray [nk; nband0; if ncdij0 =? 2 then 2 else 1] []) /\
    ferw (self s0) = Some (NdArray [nk; nband0; if ncdij0 =? 2 then 2 else 1] []) /\
    plo = NdArray [nproj; nspin0; nk; nband0] [] /\
    0 <= nk /\ 0 <= nband0 /\ 0 <= nproj /\
    length (metadata_block (PyStr.lines text)) = Z.to_nat nproj /\
    Forall known_label (metadata_block (PyStr.lines text)) /\
    length pp = Z.to_nat nproj /\
    (forall i line, metadata_block (PyStr.lines text) !! i = Some line ->
       exists d, pp !! i = Some d /\ filled ncdij0 i line d).
Proof.
  unfold read_preamble. intros E.
  apply bind_Ok_inv in E as (u & s1 & Eopen & E).
  apply open_file_Ok in Eopen as (text & Htext & ->).
  apply bind_Ok_inv in E as ([[[nk' nproj'] plo'] pp0] & s2 & Edims & E).
  apply read_dimensions_Ok in Edims
    as (ncdij0 & nband1 & Hf & Hu & Hnb & Hns & Hnsb & Hnc & _ & Hef & Hnproj & Hnk
        & Hnband & Hplo & Hpp).
  subst plo' pp0.
  cbn [unread self] in *.
  apply bind_Ok_inv in E as (pp1 & s3 & Ehead & E).
  eapply read_header_Ok in Ehead as (Hself & Hblk & Hlen & Hall & Hfilled);
    [| exact Hnc | done].
  rewrite Hu in Hblk, Hall, Hfilled.
  apply bind_Ok_inv in E as ([nspin1 nband2] & s4 & Ealloc & E).
  apply alloc_eigs_Ok in Ealloc as (nsb & Hnb' & Hns' & Hnsb' & ->).
  apply ret_inv in E as [Eret ->].
  injection Eret as -> -> -> -> -> ->.
  rewrite Hself in *. cbn [self eigs ferw nspin nspin_band nc_flag nband efermi
                           set_eigs set_ferw].
  assert (nband2 = nband1) as -> by congruence.
  assert (nspin1 = if ncdij0 <? 4 then ncdij0 else 1) as -> by congruence.
  assert (nsb = if ncdij0 =? 2 then 2 else 1) as -> by congruence.
  exists text, ncdij0. split_and!; done.
Qed.
End PlocarPreamble.

(** ** LOCPROJ: the records *)

Section Ranges.
Lemma elem_of_range i n : i ∈ range n <-> 0 <= i < n.
Proof.
  unfold range. rewrite list_elem_of_fmap. split.
  - intros (k & -> & Hk). apply elem_of_seq in Hk. lia.
  - intros Hi. exists (Z.to_nat i). split; [lia |]. apply elem_of_seq. lia.
Qed.

Lemma NoDup_range n : NoDup (range n).
Proof. unfold range. apply NoDup_fmap_2; [apply _ | apply NoDup_seq]. Qed.

Lemma length_range n : length (range n) = Z.to_nat n.
Proof. unfold range. by rewrite length_fmap, length_seq. Qed.
End Ranges.

Section PlocarRecords.
Context {F : Type} `{Float64 F}.
Import Plocar Locproj.

(** The three nested loops visit [loop_positions] in order. *)
Lemma read_records_flat nspin0 nk nband0 nproj plo (s : st (Plocar.t F)) :
  read_records nspin0 nk nband0 nproj plo s =
  foldM (read_record nproj) (loop_positions nspin0 nk nband0) plo s.
Proof.
  symmetry. unfold read_records, loop_positions.
  rewrite foldM_bind. apply foldM_ext. intros plo1 ispin s1.
  rewrite foldM_bind. apply foldM_ext. intros plo2 ik s2.
  rewrite foldM_bind. apply foldM_ext. intros plo3 ib s3.
  by rewrite foldM_singleton.
Qed.

Lemma elem_of_loop_positions ispin ik ib nspin0 nk nband0 :
  (ispin, ik, ib) ∈ loop_positions nspin0 nk nband0 <->
  0 <= ispin < nspin0 /\ 0 <= ik < nk /\ 0 <= ib < nband0.
Proof.
  unfold loop_positions. rewrite list_elem_of_bind. split.
  - intros (a & Ha & Hispin). apply list_elem_of_bind in Ha as (b & Hb & Hik).
    apply list_elem_of_bind in Hb as (c & Hc & Hib).
    apply list_elem_of_singleton in Hc as [= -> -> ->].
    by rewrite !elem_of_range in *.
  - intros (Hispin & Hik & Hib). exists ispin. rewrite elem_of_range. split; [| done].
    apply list_elem_of_bind. exists ik. rewrite elem_of_range. split; [| done].
    apply list_elem_of_bind. exists ib. rewrite elem_of_range. split; [| done].
    by apply list_elem_of_singleton.
Qed.

Lemma NoDup_loop_positions nspin0 nk nband0 :
  NoDup (loop_positions nspin0 nk nband0).
Proof.
  unfold loop_positions.
  apply NoDup_bind; [| | apply NoDup_range].
  - intros a1 a2 p _ _ H1 H2.
    apply list_elem_of_bind in H1 as (b1 & H1 & _).
    apply list_elem_of_bind in H1 as (c1 & H1 & _).
    apply list_elem_of_bind in H2 as (b2 & H2 & _).
    apply list_elem_of_bind in H2 as (c2 & H2 & _).
    apply list_elem_of_singleton in H1, H2. congruence.
  - intros a _. apply NoDup_bind; [| | apply NoDup_range].
    + intros b1 b2 p _ _ H1 H2.
      apply list_elem_of_bind in H1 as (c1 & H1 & _).
      apply list_elem_of_bind in H2 as (c2 & H2 & _).
      apply list_elem_of_singleton in H1, H2. congruence.
    + intros b _. apply NoDup_bind; [| | apply NoDup_range].
      * intros c1 c2 p _ _ H1 H2.
        apply list_elem_of_singleton in H1, H2. congruence.
      * intros c _. apply NoDup_singleton.
Qed.

Lemma slot_inj : Inj (=) (=) slot.
Proof. intros [[a b] c] [[a' b'] c'] [= -> -> ->]. done. Qed.

(** Skipping the blank lines stops at the next record, and does not end
    when there is none. *)
Lemma skip_blank_spec ls (s : st (Plocar.t F)) :
  match next_record ls with
  | Some line => exists rest, skip_blank ls s = (Ok line, St (self s) rest)
  | None => skip_blank ls s = (Diverge, St (self s) [])
  end.
Proof.
  induction ls as [| l r IH]; cbn; [done |].
  destruct (String.eqb (PyStr.strip l) ""); [apply IH | eauto].
Qed.

Lemma read_coefficient_self ispin ik ib plo ip (s s' : st (Plocar.t F)) r :
  read_coefficient ispin ik ib plo ip s = (r, s') -> self s' = self s.
Proof.
  unfold read_coefficient, bind, readline, orelse, nd_store, ret, raise.
  intros E. repeat (case_match; simplify_eq/=); try done.
  unfold bind, orelse, ret, raise in E.
  repeat (case_match; simplify_eq/=); done.
Qed.

Lemma tame_nd_store {S A} (a : ndarray A) idx v : tame (nd_store (S:=S) a idx v).
Proof. unfold nd_store. tame. Qed.

Lemma tame_read_coefficient ispin ik ib plo ip :
  tame (read_coefficient (F:=F) ispin ik ib plo ip).
Proof. unfold read_coefficient. tame. apply tame_nd_store. Qed.

Lemma tame_store_record nproj plo pos sline :
  tame (store_record (F:=F) nproj plo pos sline).
Proof.
  unfold store_record. destruct pos as [[ispin ik] ib].
  tame; try apply tame_nd_store. apply tame_read_coefficient.
Qed.

Lemma nd_indices_nonneg dims : forall idx js,
  Forall (fun i => 0 <= i) idx ->
  nd_indices dims idx = Some js -> js = idx /\ in_shape dims idx.
Proof.
  unfold in_shape.
  induction dims as [| n dims IH]; intros [| i idx] js Hidx E; cbn in E; try done.
  - injection E as <-. by split; [| constructor].
  - apply Forall_cons in Hidx as [Hi Hidx].
    destruct (nd_index n i) as [j |] eqn:Ej; [| done].
    destruct (nd_indices dims idx) as [js' |] eqn:Ejs; [| done].
    injection E as <-. apply IH in Ejs as [-> Hin]; [| done].
    unfold nd_index in Ej. destruct ((0 <=? i) && (i <? n)) eqn:Ein.
    + injection Ej as <-. split; [done |]. constructor; [lia | done].
    + destruct ((- n <=? i) && (i <? 0)) eqn:Eneg; [lia | done].
Qed.

Lemma nd_store_Ok {S A} (a a' : ndarray A) idx v (s s' : S) :
  nd_store a idx v s = (Ok a', s') ->
  exists js, nd_indices (shape a) idx = Some js /\
             a' = NdArray (shape a) ((js, v) :: stores a) /\ s' = s.
Proof.
  unfold nd_store. intros E.
  apply bind_Ok_inv in E as (js & sa & Ejs & E).
  apply orelse_inv in Ejs as [Ejs ->]. apply ret_inv in E as [-> ->]. eauto.
Qed.

(** Storing a record writes its slot, once, into each of the two arrays,
    and leaves the other attributes alone. *)
Lemma store_record_Ok nproj plo pos sline sh slots (s s' : st (Plocar.t F)) plo' :
  store_record nproj plo pos sline s = (Ok plo', s') ->
  Forall (fun i => 0 <= i) (slot pos) ->
  written sh slots (eigs (self s)) ->
  written sh slots (ferw (self s)) ->
  written sh (slot pos :: slots) (eigs (self s')) /\
  written sh (slot pos :: slots) (ferw (self s')) /\
  in_shape sh (slot pos) /\
  same_header (self s) (self s').
Proof.
  destruct pos as [[ispin ik] ib]. unfold store_record. cbn [slot].
  intros E Hpos (e0 & He0 & Hsh & Hst) (w0 & Hw0 & Hshw & Hstw).
  apply bind_Ok_inv in E as (teig & sa & E1 & E). apply orelse_inv in E1 as [_ ->].
  apply bind_Ok_inv in E as (eig & sa & E1 & E). apply orelse_inv in E1 as [_ ->].
  apply bind_Ok_inv in E as (e & sa & E1 & E).
  unfold attr in E1. rewrite He0 in E1. apply orelse_inv in E1 as [[= <-] ->].
  apply bind_Ok_inv in E as (e' & sa & E1 & E).
  apply nd_store_Ok in E1 as (js & Ejs & -> & ->).
  apply nd_indices_nonneg in Ejs as [-> Hin]; [| done].
  apply bind_Ok_inv in E as (u & sa & E1 & E). injection E1 as _ <-.
  apply bind_Ok_inv in E as (tfer & sa & E1 & E). apply orelse_inv in E1 as [_ ->].
  apply bind_Ok_inv in E as (fer & sa & E1 & E). apply orelse_inv in E1 as [_ ->].
  apply bind_Ok_inv in E as (w & sa & E1 & E).
  unfold attr in E1. cbn [self ferw set_eigs] in E1. rewrite Hw0 in E1.
  apply orelse_inv in E1 as [[= <-] ->].
  apply bind_Ok_inv in E as (w' & sa & E1 & E).
  apply nd_store_Ok in E1 as (js & Ejs & -> & ->).
  apply nd_indices_nonneg in Ejs as [-> _]; [| done].
  apply bind_Ok_inv in E as (u' & sa & E1 & E). injection E1 as _ <-.
  assert (Hself : self s' = set_ferw (NdArray (shape w0) (([ik; ib; ispin], fer) :: stores w0))
                    (set_eigs (NdArray (shape e0) (([ik; ib; ispin], eig) :: stores e0))
                       (self s))).
  { eapply (foldM_preserves (fun st0 => self st0 = _)); [| | exact E]; [done |].
    intros x b st0 r st1 Hst0 Ex. apply read_coefficient_self in Ex. congruence. }
  rewrite Hself. cbn. rewrite Hsh in Hin.
  repeat split; try done.
  - eexists. repeat split; [done | by cbn; rewrite Hst].
  - eexists. repeat split; [done | by cbn; rewrite Hstw].
Qed.

Lemma same_header_refl (o : Plocar.t F) : same_header o o.
Proof. by repeat split. Qed.

Lemma same_header_trans (o1 o2 o3 : Plocar.t F) :
  same_header o1 o2 -> same_header o2 o3 -> same_header o1 o3.
Proof. unfold same_header. intros ? ?. destruct_and!. repeat split; congruence. Qed.

Lemma record_indices_Ok {S} sline (s s' : S) t :
  record_indices sline s = (Ok t, s') ->
  map_conv PyStr.int (take 3 (drop 1 sline)) = Some [t.1.1; t.1.2; t.2] /\ s' = s.
Proof.
  unfold record_indices. intros E.
  apply bind_Ok_inv in E as (idx & sa & E1 & E). apply orelse_inv in E1 as [E1 ->].
  destruct idx as [| a [| b [| c [| ? ?]]]]; try done.
  by apply ret_inv in E as [-> ->].
Qed.

(** A record that is read without error declares the indices of its
    loop position. *)
Lemma read_record_Ok nproj plo pos sh slots (s s' : st (Plocar.t F)) plo' :
  read_record nproj plo pos s = (Ok plo', s') ->
  Forall (fun i => 0 <= i) (slot pos) ->
  written sh slots (eigs (self s)) ->
  written sh slots (ferw (self s)) ->
  declared_triple (unread s) = Some (expected pos) /\
  written sh (slot pos :: slots) (eigs (self s')) /\
  written sh (slot pos :: slots) (ferw (self s')) /\
  in_shape sh (slot pos) /\
  same_header (self s) (self s').
Proof.
  intros E Hpos He Hw. unfold read_record in E.
  destruct pos as [[ispin ik] ib] eqn:Epos.
  apply bind_Ok_inv in E as (line & s1 & E1 & E).
  pose proof (skip_blank_spec (unread s) s) as Hskip.
  destruct (next_record (unread s)) as [line' |] eqn:Enext.
  2: { rewrite Hskip in E1. done. }
  destruct Hskip as [rest Hskip]. rewrite Hskip in E1. injection E1 as <- <-.
  apply bind_Ok_inv in E as ([[isp_ ik_] ib_] & s2 & E2 & E).
  apply record_indices_Ok in E2 as [E2 ->]. cbn [fst snd] in E2.
  apply bind_Ok_inv in E as (u & s3 & E3 & E).
  apply assert_inv in E3 as [E3 ->].
  apply andb_prop in E3 as [E3 Eib]. apply andb_prop in E3 as [Eisp Eik].
  apply Z.eqb_eq in Eisp, Eik, Eib. subst isp_ ik_ ib_.
  split.
  - unfold declared_triple. rewrite Enext. cbn. by rewrite E2.
  - eapply (store_record_Ok _ _ (ispin, ik, ib)) in E; [| done | exact He | exact Hw].
    exact E.
Qed.

(** A record is rejected as inconsistent exactly when the indices it
    declares are not those of its loop position. *)
Lemma read_record_inconsistent nproj plo pos (s : st (Plocar.t F)) :
  (read_record nproj plo pos s).1 = Raise (AssertionError inconsistency) <->
  exists t, declared_triple (unread s) = Some t /\ t <> expected pos.
Proof.
  unfold read_record, declared_triple. destruct pos as [[ispin ik] ib].
  unfold bind at 1.
  pose proof (skip_blank_spec (unread s) s) as Hskip.
  destruct (next_record (unread s)) as [line |] eqn:Enext.
  2: { rewrite Hskip. cbn. split; [done | by intros (t & ? & _)]. }
  destruct Hskip as [rest ->]. cbn [mbind option_bind].
  unfold bind at 1. unfold record_indices, bind at 1, orelse.
  destruct (map_conv PyStr.int (take 3 (drop 1 (PyStr.split line)))) as [idx |];
    [| cbn; split; [done | by intros (t & ? & _)]].
  destruct idx as [| a [| b [| c [| ? ?]]]];
    try (cbn; split; [done | by intros (t & ? & _)]).
  cbn [ret raise]. unfold bind at 1, assert.
  destruct ((a =? ispin + 1) && (b =? ik + 1) && (c =? ib + 1)) eqn:Ec.
  - cbn [ret]. split.
    + intros E.
      pose proof (tame_store_record nproj plo (ispin, ik, ib) (PyStr.split line)
                    (St (self s) rest)) as Ht.
      rewrite E in Ht. by destruct Ht.
    + intros (t & [= <-] & Hne). destruct Hne. cbn.
      apply andb_prop in Ec as [Ec Eib]. apply andb_prop in Ec as [Eisp Eik].
      apply Z.eqb_eq in Eisp, Eik, Eib. congruence.
  - cbn. split; [| done]. intros _. exists (a, b, c). split; [done |].
    cbn. intros [= -> -> ->]. by rewrite !Z.eqb_refl in Ec.
Qed.

(** The loops over the records, when they return: every loop position
    was written once into the two arrays, in the order of the loops. *)
Lemma read_records_Ok nspin0 nk nband0 nproj plo sh (s s' : st (Plocar.t F)) plo' :
  read_records nspin0 nk nband0 nproj plo s = (Ok plo', s') ->
  written sh [] (eigs (self s)) ->
  written sh [] (ferw (self s)) ->
  written sh (reverse (slot <$> loop_positions nspin0 nk nband0)) (eigs (self s')) /\
  written sh (reverse (slot <$> loop_positions nspin0 nk nband0)) (ferw (self s')) /\
  Forall (in_shape sh) (slot <$> loop_positions nspin0 nk nband0) /\
  same_header (self s) (self s').
Proof.
  rewrite read_records_flat. intros E He Hw.
  apply (foldM_inv (fun seen _ st0 =>
           written sh (reverse (slot <$> seen)) (eigs (self st0)) /\
           written sh (reverse (slot <$> seen)) (ferw (self st0)) /\
           Forall (in_shape sh) (slot <$> seen) /\
           same_header (self s) (self st0))) in E; [done | |].
  - split_and!; [done | done | constructor | apply same_header_refl].
  - intros seen pos todo b st0 b' st1 Hl (He0 & Hw0 & Hin & Hsame) Estep.
    assert (Hpos : Forall (fun i => 0 <= i) (slot pos)).
    { assert (Hmem : pos ∈ loop_positions nspin0 nk nband0)
        by (rewrite Hl; apply elem_of_app; right; left).
      destruct pos as [[ispin ik] ib].
      apply elem_of_loop_positions in Hmem. cbn. repeat constructor; lia. }
    eapply read_record_Ok in Estep as (_ & He1 & Hw1 & Hin1 & Hsame1);
      [| done | exact He0 | exact Hw0].
    rewrite fmap_app, reverse_app. cbn [fmap list_fmap reverse app].
    split_and!; [done | done | | by eapply same_header_trans].
    apply Forall_app. split; [done | by repeat constructor].
Qed.
End PlocarRecords.

(** ** LOCPROJ: the parser *)

Section PlocarParser.
Context {F : Type} `{Float64 F}.
Import Plocar Locproj.

(** What a parse that returns has established. *)
Lemma locproj_parser_Ok fs fname (s s' : st (Plocar.t F)) pp plo :
  locproj_parser fs fname s = (Ok (pp, plo), s') ->
  exists text ncdij0 nk nband0 nproj,
    fs !! fname = Some text /\
    header_fields (PyStr.lines text) = Some (ncdij0, nk, nband0, nproj) /\
    nspin (self s') = Some (if ncdij0 <? 4 then ncdij0 else 1) /\
    nspin_band (self s') = Some (if ncdij0 =? 2 then 2 else 1) /\
    nc_flag (self s') = Some (if ncdij0 =? 4 then 1 else 0) /\
    efermi (self s') =
      match header_efermi (PyStr.lines text) ≫= float_of_string with
      | Some e => Some e
      | None => efermi (self s)
      end /\
    written [nk; nband0; if ncdij0 =? 2 then 2 else 1]
      (reverse (slot <$> loop_positions (if ncdij0 <? 4 then ncdij0 else 1) nk nband0))
      (eigs (self s')) /\
    written [nk; nband0; if ncdij0 =? 2 then 2 else 1]
      (reverse (slot <$> loop_positions (if ncdij0 <? 4 then ncdij0 else 1) nk nband0))
      (ferw (self s')) /\
    Forall (in_shape [nk; nband0; if ncdij0 =? 2 then 2 else 1])
      (slot <$> loop_positions (if ncdij0 <? 4 then ncdij0 else 1) nk nband0) /\
    0 <= nproj /\
    length (metadata_block (PyStr.lines text)) = Z.to_nat nproj /\
    Forall known_label (metadata_block (PyStr.lines text)) /\
    length pp = Z.to_nat nproj /\
    (forall i line, metadata_block (PyStr.lines text) !! i = Some line ->
       exists d, pp !! i = Some d /\ filled ncdij0 i line d).
Proof.
  unfold locproj_parser. intros E.
  apply bind_Ok_inv in E as ([[[[[nspin0 nk] nband0] nproj] plo0] pp0] & s0 & Epre & E).
  apply read_preamble_Ok in Epre
    as (text & ncdij0 & Htext & Hf & -> & Hns & Hnsb & Hnc & Hnb & Hef & He & Hw & ->
        & Hnk & Hnband & Hnproj & Hblk & Hknown & Hlen & Hfilled).
  apply bind_Ok_inv in E as (plo1 & s1 & Erec & E).
  apply ret_inv in E as [[= <- <-] ->].
  eapply read_records_Ok in Erec as (He1 & Hw1 & Hin & Hsame);
    [| rewrite He; by eexists | rewrite Hw; by eexists].
  destruct Hsame as (_ & _ & _ & _ & Hns1 & Hnsb1 & Hef1 & Hnc1).
  exists text, ncdij0, nk, nband0, nproj.
  split_and!; try done; congruence.
Qed.

(** A parse that does not raise got through everything before the
    records. *)
Lemma locproj_parser_preamble fs fname (s : st (Plocar.t F)) :
  (exists e, (locproj_parser fs fname s).1 = Raise e) \/
  exists res s0, read_preamble fs fname s = (Ok res, s0).
Proof.
  pose proof (tame_read_preamble fs fname s) as Ht.
  unfold locproj_parser, bind.
  destruct (read_preamble fs fname s) as [[res | e |] s0]; cbn in *; eauto.
  done.
Qed.

(** C4: when the first line of LOCPROJ declares ncdij = 4 a parse that
    returns has set the non-collinear flag and one spin channel; it
    returns one dictionary for each line of the metadata block, as many as
    the first line declares projectors, and the dictionary of the line
    with index ip holds the label and the site index of that line, the l
    of the label, and 2m for even ip and 2m+1 for odd ip, m being the
    magnetic quantum number of the label; for any other ncdij the flag is
    0, the spin channels are ncdij and m is stored as it is. *)
Theorem C4_noncollinear_encoding fs fname text ncdij0 nk nband0 nproj
    (s s' : st (Plocar.t F)) pp plo :
  fs !! fname = Some text ->
  header_fields (PyStr.lines text) = Some (ncdij0, nk, nband0, nproj) ->
  locproj_parser fs fname s = (Ok (pp, plo), s') ->
  nc_flag (self s') = Some (if ncdij0 =? 4 then 1 else 0) /\
  nspin (self s') = Some (if ncdij0 <? 4 then ncdij0 else 1) /\
  Z.of_nat (length pp) = nproj /\
  length (metadata_block (PyStr.lines text)) = length pp /\
  forall ip line,
    metadata_block (PyStr.lines text) !! ip = Some line ->
    exists d lm isite,
      pp !! ip = Some d /\
      index_of (entry_label line) orb_labels = Some lm /\
      entry_isite line = Some isite /\
      d !! "label" = Some (PStr (entry_label line)) /\
      d !! "isite" = Some (PInt isite) /\
      d !! "l" = Some (PInt (lm_to_l_m lm).1) /\
      d !! "m" = Some (PInt
        (let m := (lm_to_l_m lm).2 in
         if ncdij0 =? 4
         then (if Z.of_nat ip mod 2 =? 0 then 2 * m else 2 * m + 1)
         else m)).
Proof.
  intros Htext Hf E.
  apply locproj_parser_Ok in E
    as (text' & ncdij1 & nk' & nband1 & nproj' & Htext' & Hf' & Hns & _ & Hnc & _ & _
        & _ & _ & Hnproj & Hblk & _ & Hlen & Hfilled).
  assert (text' = text) as -> by congruence.
  assert (ncdij1 = ncdij0 /\ nproj' = nproj) as [-> ->] by (split; congruence).
  split_and!; [done | done | lia | lia |].
  intros ip line Hline.
  destruct (Hfilled ip line Hline) as (d & Hd & lm & isite & Hf1 & Hf2 & Hf3 & Hf4 & Hf5 & Hf6).
  exists d, lm, isite. split_and!; done.
Qed.

(** C2, as the code has it: the metadata block is the first line that
    matches the ISITE pattern and every line after it up to the first
    blank line, whether or not these match the pattern.  A parse that
    returns has read exactly as many lines of the block as the first line
    declares projectors, and has filled one dictionary from each, in
    order; a block with another number of lines, or with a line whose
    label is not in the table, makes the parse raise. *)
Theorem C2_projector_count fs fname text ncdij0 nk nband0 nproj
    (s : st (Plocar.t F)) :
  fs !! fname = Some text ->
  header_fields (PyStr.lines text) = Some (ncdij0, nk, nband0, nproj) ->
  (forall pp plo, (locproj_parser fs fname s).1 = Ok (pp, plo) ->
     Z.of_nat (length (metadata_block (PyStr.lines text))) = nproj /\
     Z.of_nat (length pp) = nproj /\
     forall ip line,
       metadata_block (PyStr.lines text) !! ip = Some line ->
       exists d, pp !! ip = Some d /\ filled ncdij0 ip line d) /\
  (Z.of_nat (length (metadata_block (PyStr.lines text))) <> nproj ->
     exists e, (locproj_parser fs fname s).1 = Raise e) /\
  (forall line, line ∈ metadata_block (PyStr.lines text) ->
     index_of (entry_label line) orb_labels = None ->
     exists e, (locproj_parser fs fname s).1 = Raise e).
Proof.
  intros Htext Hf.
  assert (Hpre : forall res s0, read_preamble fs fname s = (Ok res, s0) ->
            Z.of_nat (length (metadata_block (PyStr.lines text))) = nproj /\
            Forall known_label (metadata_block (PyStr.lines text))).
  { intros [[[[[nspin0 nk'] nband1] nproj'] plo0] pp0] s0 Epre.
    apply read_preamble_Ok in Epre
      as (text' & ncdij1 & Htext' & Hf' & _ & _ & _ & _ & _ & _ & _ & _ & _
          & _ & _ & Hnproj & Hblk & Hknown & _).
    assert (text' = text) as -> by congruence.
    assert (nproj' = nproj) as -> by congruence.
    split; [lia | done]. }
  split_and!.
  - intros pp plo E.
    destruct (locproj_parser fs fname s) as [r s'] eqn:Erun. cbn in E. subst r.
    apply locproj_parser_Ok in Erun
      as (text' & ncdij1 & nk' & nband1 & nproj' & Htext' & Hf' & _ & _ & _ & _ & _
          & _ & _ & Hnproj & Hblk & _ & Hlen & Hfilled).
    assert (text' = text) as -> by congruence.
    assert (ncdij1 = ncdij0) as -> by congruence.
    assert (nproj' = nproj) as -> by congruence.
    split_and!; [lia | lia | done].
  - intros Hne. destruct (locproj_parser_preamble fs fname s) as [? | (res & s0 & Epre)];
      [done |].
    apply Hpre in Epre as [? _]. done.
  - intros line Hline Hnone.
    destruct (locproj_parser_preamble fs fname s) as [? | (res & s0 & Epre)];
      [done |].
    apply Hpre in Epre as [_ Hknown].
    rewrite Forall_forall in Hknown. apply Hknown in Hline.
    unfold known_label in Hline. rewrite Hnone in Hline. by destruct Hline.
Qed.

(** C1: the parse fails with the error of an inconsistent file exactly
    when it reaches a record whose declared indices are not the loop
    counters plus one; and when the parse returns, the record read at
    every loop position declared the counters plus one. *)
Theorem C1_record_index_check fs fname (s : st (Plocar.t F)) :
  ((locproj_parser fs fname s).1 = Raise (AssertionError inconsistency) <->
   exists seen pos todo t nspin0 nk nband0 nproj plo0 pp s0 plo1 s1,
     read_preamble fs fname s = (Ok (nspin0, nk, nband0, nproj, plo0, pp), s0) /\
     loop_positions nspin0 nk nband0 = seen ++ pos :: todo /\
     foldM (read_record nproj) seen plo0 s0 = (Ok plo1, s1) /\
     declared_triple (unread s1) = Some t /\
     t <> expected pos) /\
  (forall res, (locproj_parser fs fname s).1 = Ok res ->
   exists nspin0 nk nband0 nproj plo0 pp s0,
     read_preamble fs fname s = (Ok (nspin0, nk, nband0, nproj, plo0, pp), s0) /\
     forall seen pos todo,
       loop_positions nspin0 nk nband0 = seen ++ pos :: todo ->
       exists plo1 s1,
         foldM (read_record nproj) seen plo0 s0 = (Ok plo1, s1) /\
         declared_triple (unread s1) = Some (expected pos)).
Proof.
  pose proof (tame_read_preamble fs fname s) as Ht.
  unfold locproj_parser. unfold bind at 1 3.
  destruct (read_preamble fs fname s)
    as [[[[[[[nspin0 nk] nband0] nproj] plo0] pp] | e |] s0] eqn:Epre; cbn in Ht.
  2: { split; [| done]. cbn. split.
       - intros [= ->]. done.
       - intros (? & ? & ? & ? & ? & ? & ? & ? & ? & ? & ? & ? & ? & ? & _). done. }
  2: done.
  clear Ht. split.
  - unfold bind.
    destruct (read_records nspin0 nk nband0 nproj plo0 s0) as [r s'] eqn:Erec.
    assert (Hr : (match r with
                  | Ok a => ret (S:=st (Plocar.t F)) (pp, a) s'
                  | Raise e => (Raise e, s')
                  | Diverge => (Diverge, s')
                  end).1 = Raise (AssertionError inconsistency) <->
                 (read_records nspin0 nk nband0 nproj plo0 s0).1
                 = Raise (AssertionError inconsistency)).
    { rewrite Erec. destruct r; cbn; split; congruence. }
    rewrite Hr, read_records_flat, foldM_Raise_iff. split.
    + intros (seen & pos & todo & plo1 & s1 & Hl & Eseen & Epos).
      apply read_record_inconsistent in Epos as (t & Ht & Hne).
      exists seen, pos, todo, t, nspin0, nk, nband0, nproj, plo0, pp, s0, plo1, s1.
      done.
    + intros (seen & pos & todo & t & nspin1 & nk1 & nband1 & nproj1 & plo2 & pp1 & s2
              & plo1 & s1 & [= <- <- <- <- <- <- <-] & Hl & Eseen & Ht & Hne).
      exists seen, pos, todo, plo1, s1. split_and!; [done | done |].
      apply read_record_inconsistent. eauto.
  - intros res E.
    exists nspin0, nk, nband0, nproj, plo0, pp, s0. split; [done |].
    intros seen pos todo Hl.
    unfold bind in E.
    destruct (read_records nspin0 nk nband0 nproj plo0 s0) as [[plo' | e |] s'] eqn:Erec;
      cbn in E; try done.
    rewrite read_records_flat, Hl in Erec.
    pose proof Erec as Epre'.
    apply foldM_Ok_prefix in Epre' as (plo1 & s1 & plo2 & s2 & Eseen & Epos).
    exists plo1, s1. split; [done |].
    pose proof (read_record_inconsistent nproj plo1 pos s1) as Hinc.
    unfold read_record in Epos. destruct pos as [[ispin ik] ib].
    apply bind_Ok_inv in Epos as (line & s3 & E1 & Epos).
    pose proof (skip_blank_spec (unread s1) s1) as Hskip.
    destruct (next_record (unread s1)) as [line' |] eqn:Enext.
    2: { rewrite Hskip in E1. done. }
    destruct Hskip as [rest Hskip]. rewrite Hskip in E1. injection E1 as <- <-.
    apply bind_Ok_inv in Epos as ([[isp_ ik_] ib_] & s4 & E2 & Epos).
    apply record_indices_Ok in E2 as [E2 ->]. cbn [fst snd] in E2.
    apply bind_Ok_inv in Epos as (u & s5 & E3 & _).
    apply assert_inv in E3 as [E3 _].
    apply andb_prop in E3 as [E3 Eib]. apply andb_prop in E3 as [Eisp Eik].
    apply Z.eqb_eq in Eisp, Eik, Eib. subst isp_ ik_ ib_.
    unfold declared_triple. rewrite Enext. cbn. by rewrite E2.
Qed.

(** C10: when the first line of LOCPROJ declares ncdij in {1, 2, 4}, the
    number of spin channels the loops go through and the number the
    arrays of eigenvalues and Fermi weights are allocated with are the
    same, 2 for ncdij = 2 and 1 otherwise; and a parse that returns has
    written into each of the two arrays once at every slot of its shape
    and nowhere else. *)
Theorem C10_spin_slots_written_once fs fname text ncdij0 nk nband0 nproj
    (s s' : st (Plocar.t F)) pp plo :
  ncdij0 = 1 \/ ncdij0 = 2 \/ ncdij0 = 4 ->
  fs !! fname = Some text ->
  header_fields (PyStr.lines text) = Some (ncdij0, nk, nband0, nproj) ->
  locproj_parser fs fname s = (Ok (pp, plo), s') ->
  let n := if ncdij0 =? 2 then 2 else 1 in
  nspin (self s') = Some n /\
  nspin_band (self s') = Some n /\
  exists e w,
    eigs (self s') = Some e /\ ferw (self s') = Some w /\
    shape e = [nk; nband0; n] /\ shape w = [nk; nband0; n] /\
    NoDup (stores e).*1 /\ NoDup (stores w).*1 /\
    (forall idx, idx ∈ (stores e).*1 <-> in_shape [nk; nband0; n] idx) /\
    (forall idx, idx ∈ (stores w).*1 <-> in_shape [nk; nband0; n] idx).
Proof.
  intros Hncdij Htext Hf E n.
  apply locproj_parser_Ok in E
    as (text' & ncdij1 & nk' & nband1 & nproj' & Htext' & Hf' & Hns & Hnsb & _ & _ & He
        & Hw & Hin & _).
  assert (text' = text) as -> by congruence.
  assert (ncdij1 = ncdij0 /\ nk' = nk /\ nband1 = nband0) as (-> & -> & ->)
    by (split_and!; congruence).
  assert (Hn : (if ncdij0 <? 4 then ncdij0 else 1) = n)
    by (subst n; destruct Hncdij as [-> | [-> | ->]]; done).
  rewrite Hn in *. fold n in Hnsb, He, Hw, Hin.
  destruct He as (e & He & Hshe & Hste). destruct Hw as (w & Hw & Hshw & Hstw).
  assert (Hnodup : NoDup (reverse (slot <$> loop_positions n nk nband0))).
  { rewrite reverse_Permutation. apply (@NoDup_fmap_2 _ _ slot slot_inj). apply NoDup_loop_positions. }
  assert (Hcover : forall idx, idx ∈ reverse (slot <$> loop_positions n nk nband0)
                               <-> in_shape [nk; nband0; n] idx).
  { intros idx. rewrite elem_of_reverse. split.
    - intros Hidx. rewrite Forall_forall in Hin. by apply Hin.
    - unfold in_shape. intros Hidx.
      apply Forall2_cons_inv_l in Hidx as (ik & idx1 & Hik & Hidx & ->).
      apply Forall2_cons_inv_l in Hidx as (ib & idx2 & Hib & Hidx & ->).
      apply Forall2_cons_inv_l in Hidx as (ispin & idx3 & Hispin & Hidx & ->).
      apply Forall2_nil_inv_l in Hidx as ->.
      apply list_elem_of_fmap. exists (ispin, ik, ib). split; [done |].
      by apply elem_of_loop_positions. }
  split_and!; [done | done |].
  exists e, w. rewrite Hste, Hstw. split_and!; done.
Qed.
End PlocarParser.

Module PlocarRuns.
Import Plocar Locproj Samples.

Lemma C4_noncollinear_encoding_witness :
  exists pp plo s',
    locproj_parser (F:=Q) (single "LOCPROJ" locproj_noncollinear) "LOCPROJ"
      (St Plocar.init []) = (Ok (pp, plo), s') /\
    nc_flag (self s') = Some 1 /\
    nspin (self s') = Some 1 /\
    Z.of_nat (length pp) = 2 /\
    length (metadata_block (PyStr.lines locproj_noncollinear)) = length pp /\
    forall ip line,
      metadata_block (PyStr.lines locproj_noncollinear) !! ip = Some line ->
      exists d lm isite,
        pp !! ip = Some d /\
        index_of (entry_label line) orb_labels = Some lm /\
        entry_isite line = Some isite /\
        d !! "label" = Some (PStr (entry_label line)) /\
        d !! "isite" = Some (PInt isite) /\
        d !! "l" = Some (PInt (lm_to_l_m lm).1) /\
        d !! "m" = Some (PInt
          (let m := (lm_to_l_m lm).2 in
           if Z.of_nat ip mod 2 =? 0 then 2 * m else 2 * m + 1)).
Proof.
  pose (run := locproj_parser (F:=Q) (single "LOCPROJ" locproj_noncollinear) "LOCPROJ"
                 (St Plocar.init [])).
  exists (returned ([], NdArray [] []) run.1).1, (returned ([], NdArray [] []) run.1).2, run.2.
  split; [vm_compute; reflexivity |].
  eapply (C4_noncollinear_encoding (F:=Q) (single "LOCPROJ" locproj_noncollinear)
           "LOCPROJ" locproj_noncollinear 4 1 1 2 (St Plocar.init [])).
  - vm_compute; reflexivity.
  - vm_compute; reflexivity.
  - vm_compute; reflexivity.
Defined.

Lemma C2_projector_count_witness :
  (exists pp plo,
     (locproj_parser (F:=Q) (single "LOCPROJ" locproj_collinear) "LOCPROJ"
        (St Plocar.init [])).1 = Ok (pp, plo) /\
     Z.of_nat (length (metadata_block (PyStr.lines locproj_collinear))) = 1 /\
     Z.of_nat (length pp) = 1 /\
     forall ip line,
       metadata_block (PyStr.lines locproj_collinear) !! ip = Some line ->
       exists d, pp !! ip = Some d /\ filled 2 ip line d) /\
  (exists e,
     (locproj_parser (F:=Q) (single "LOCPROJ" locproj_short) "LOCPROJ"
        (St Plocar.init [])).1 = Raise e) /\
  (exists e,
     (locproj_parser (F:=Q) (single "LOCPROJ" locproj_unknown) "LOCPROJ"
        (St Plocar.init [])).1 = Raise e).
Proof.
  split_and!.
  - pose (run := locproj_parser (F:=Q) (single "LOCPROJ" locproj_collinear) "LOCPROJ"
                   (St Plocar.init [])).
    exists (returned ([], NdArray [] []) run.1).1, (returned ([], NdArray [] []) run.1).2.
    split; [vm_compute; reflexivity |].
    apply (proj1 (C2_projector_count (F:=Q) (single "LOCPROJ" locproj_collinear)
                    "LOCPROJ" locproj_collinear 2 1 2 1 (St Plocar.init [])
                    ltac:(vm_compute; reflexivity) ltac:(vm_compute; reflexivity))
             _ (returned ([], NdArray [] []) run.1).2).
    vm_compute; reflexivity.
  - apply (C2_projector_count (F:=Q) (single "LOCPROJ" locproj_short)
             "LOCPROJ" locproj_short 1 1 1 2 (St Plocar.init [])).
    + vm_compute; reflexivity.
    + vm_compute; reflexivity.
    + vm_compute. discriminate.
  - eapply (C2_projector_count (F:=Q) (single "LOCPROJ" locproj_unknown)
             "LOCPROJ" locproj_unknown 1 1 1 1 (St Plocar.init [])).
    + vm_compute; reflexivity.
    + vm_compute; reflexivity.
    + vm_compute. left.
    + vm_compute; reflexivity.
Defined.

(** C2, as the claim has it, fails: of the two lines of the metadata
    block of this file one only matches the ISITE pattern, the file
    declares two projectors, and the parse returns, with two records. *)
Lemma C2_counterexample :
  header_fields (PyStr.lines locproj_unmarked) = Some (1, 1, 1, 2) /\
  length (List.filter PyStr.match_isite (PyStr.lines locproj_unmarked)) = 1%nat /\
  exists pp plo s',
    locproj_parser (F:=Q) (single "LOCPROJ" locproj_unmarked) "LOCPROJ" (St Plocar.init [])
    = (Ok (pp, plo), s') /\
    length pp = 2%nat.
Proof.
  split_and!.
  - vm_compute. reflexivity.
  - vm_compute. reflexivity.
  - pose (run := locproj_parser (F:=Q) (single "LOCPROJ" locproj_unmarked) "LOCPROJ"
                   (St Plocar.init [])).
    exists (returned ([], NdArray [] []) run.1).1, (returned ([], NdArray [] []) run.1).2,
           run.2.
    split; vm_compute; reflexivity.
Qed.

Lemma C1_record_index_check_witness :
  (locproj_parser (F:=Q) (single "LOCPROJ" locproj_swapped) "LOCPROJ"
     (St Plocar.init [])).1 = Raise (AssertionError inconsistency) /\
  exists nspin0 nk nband0 nproj plo0 pp s0,
    read_preamble (F:=Q) (single "LOCPROJ" locproj_collinear) "LOCPROJ"
      (St Plocar.init []) = (Ok (nspin0, nk, nband0, nproj, plo0, pp), s0) /\
    forall seen pos todo,
      loop_positions nspin0 nk nband0 = seen ++ pos :: todo ->
      exists plo1 s1,
        foldM (read_record nproj) seen plo0 s0 = (Ok plo1, s1) /\
        declared_triple (unread s1) = Some (expected pos).
Proof.
  split.
  - apply (proj1 (C1_record_index_check (F:=Q) (single "LOCPROJ" locproj_swapped)
                    "LOCPROJ" (St Plocar.init []))).
    pose (pre := read_preamble (F:=Q) (single "LOCPROJ" locproj_swapped) "LOCPROJ"
                   (St Plocar.init [])).
    pose (plo0 := NdArray (A:=Q * Q) [1; 2; 1; 2] []).
    pose (first := foldM (read_record 1) [(0, 0, 0)] plo0 pre.2).
    exists [(0, 0, 0)], (0, 0, 1), [(1, 0, 0); (1, 0, 1)], (1, 2, 1), 2, 1, 2, 1, plo0,
           (returned (0, 0, 0, 0, plo0, []) pre.1).2, pre.2,
           (returned plo0 first.1), first.2.
    split_and!.
    + vm_compute; reflexivity.
    + vm_compute; reflexivity.
    + vm_compute; reflexivity.
    + vm_compute; reflexivity.
    + discriminate.
  - eapply (proj2 (C1_record_index_check (F:=Q) (single "LOCPROJ" locproj_collinear)
                     "LOCPROJ" (St Plocar.init []))).
    vm_compute; reflexivity.
Defined.

Lemma C10_spin_slots_written_once_witness :
  exists pp plo s',
    locproj_parser (F:=Q) (single "LOCPROJ" locproj_collinear) "LOCPROJ"
      (St Plocar.init []) = (Ok (pp, plo), s') /\
    nspin (self s') = Some 2 /\
    nspin_band (self s') = Some 2 /\
    exists e w,
      eigs (self s') = Some e /\ ferw (self s') = Some w /\
      shape e = [1; 2; 2] /\ shape w = [1; 2; 2] /\
      NoDup (stores e).*1 /\ NoDup (stores w).*1 /\
      (forall idx, idx ∈ (stores e).*1 <-> in_shape [1; 2; 2] idx) /\
      (forall idx, idx ∈ (stores w).*1 <-> in_shape [1; 2; 2] idx).
Proof.
  pose (run := locproj_parser (F:=Q) (single "LOCPROJ" locproj_collinear) "LOCPROJ"
                 (St Plocar.init [])).
  exists (returned ([], NdArray [] []) run.1).1, (returned ([], NdArray [] []) run.1).2, run.2.
  split; [vm_compute; reflexivity |].
  eapply (C10_spin_slots_written_once (F:=Q) (single "LOCPROJ" locproj_collinear)
           "LOCPROJ" locproj_collinear 2 1 2 1 (St Plocar.init [])).
  - right. left. reflexivity.
  - vm_compute; reflexivity.
  - vm_compute; reflexivity.
  - vm_compute; reflexivity.
Defined.
End PlocarRuns.

(** ** Frames *)

Section Frame.
Context {S : Type} (R : relation S) `{!PreOrder R}.

Lemma frame_pure {A} (m : M S A) : (forall s, (m s).2 = s) -> frame R m.
Proof. intros Hm s r s' E. specialize (Hm s). rewrite E in Hm. cbn in Hm. by subst. Qed.

Lemma frame_ret {A} (a : A) : frame R (ret a).
Proof. by apply frame_pure. Qed.

Lemma frame_raise {A} e : frame R (raise (A:=A) e).
Proof. by apply frame_pure. Qed.

Lemma frame_orelse {A} (o : option A) e : frame R (orelse o e).
Proof. apply frame_pure. intros s. by destruct o. Qed.

Lemma frame_assert c msg : frame R (assert c msg).
Proof. apply frame_pure. intros s. by destruct c. Qed.

Lemma frame_np_zeros_shape dims : frame R (np_zeros_shape dims).
Proof. apply frame_pure. intros s. unfold np_zeros_shape. by destruct (forallb _ _). Qed.

Lemma frame_broadcast {A} n (vals : list A) : frame R (broadcast n vals).
Proof.
  apply frame_pure. intros s. unfold broadcast. destruct (_ =? _)%nat; [done |].
  by destruct vals as [| v [| ? ?]].
Qed.

Lemma frame_bind {A B} (m : M S A) (k : A -> M S B) :
  frame R m -> (forall a, frame R (k a)) -> frame R (bind m k).
Proof.
  intros Hm Hk s r s' E. unfold bind in E.
  destruct (m s) as [[a | e |] s1] eqn:E1.
  - etrans; [by eapply Hm | by eapply Hk].
  - injection E as _ <-. by eapply Hm.
  - injection E as _ <-. by eapply Hm.
Qed.

Lemma frame_foldM {A B} (body : B -> A -> M S B) l b :
  (forall b x, frame R (body b x)) -> frame R (foldM body l b).
Proof.
  intros Hb. revert b. induction l as [| x l IH]; intros b; cbn.
  - apply frame_ret.
  - by apply frame_bind.
Qed.

Lemma frame_try_except {A} (m : M S A) handles handler :
  frame R m -> frame R handler -> frame R (try_except m handles handler).
Proof.
  intros Hm Hh s r s' E. unfold try_except in E.
  destruct (m s) as [[a | e |] s1] eqn:E1.
  - injection E as _ <-. by eapply Hm.
  - destruct (handles e).
    + etrans; [by eapply Hm | by eapply Hh].
    + injection E as _ <-. by eapply Hm.
  - injection E as _ <-. by eapply Hm.
Qed.
End Frame.

Section FrameFile.
Context {O : Type} (R : relation O) `{!PreOrder R}.

#[global] Instance on_self_preorder : PreOrder (on_self R).
Proof.
  split.
  - intros s. unfold on_self. reflexivity.
  - intros s1 s2 s3 H12 H23. unfold on_self in *. by etrans.
Qed.

Lemma frame_next : frame (on_self R) next.
Proof.
  intros s r s' E. unfold next in E. unfold on_self.
  destruct (unread s); injection E as _ <-; reflexivity.
Qed.

Lemma frame_readline : frame (on_self R) readline.
Proof.
  intros s r s' E. unfold readline in E. unfold on_self.
  destruct (unread s); injection E as _ <-; reflexivity.
Qed.

Lemma frame_attr {A} (proj : O -> option A) : frame (on_self R) (attr proj).
Proof.
  intros s r s' E. unfold attr, on_self in *.
  destruct (proj (self s)); injection E as _ <-; reflexivity.
Qed.

Lemma frame_assign (upd : O -> O) :
  (forall o, R o (upd o)) -> frame (on_self R) (assign upd).
Proof. intros Hupd s r s' E. injection E as _ <-. apply Hupd. Qed.

Lemma frame_open_file fs filename : frame (on_self R) (open_file fs filename).
Proof.
  intros s r s' E. unfold open_file, read_lines, on_self in *.
  destruct (fs !! filename); cbn in E; injection E as _ <-; reflexivity.
Qed.
End FrameFile.

(** Settle [frame] goals on straight-line code; what is left are the
    assignments. *)
Ltac frame_step :=
  match goal with
  | |- frame _ (bind _ _) => apply frame_bind; [apply _ | | intros ?]
  | |- frame _ (ret _) => apply frame_ret; apply _
  | |- frame _ (raise _) => apply frame_raise; apply _
  | |- frame _ (orelse _ _) => apply frame_orelse; apply _
  | |- frame _ (assert _ _) => apply frame_assert; apply _
  | |- frame _ (np_zeros_shape _) => apply frame_np_zeros_shape; apply _
  | |- frame _ (broadcast _ _) => apply frame_broadcast; apply _
  | |- frame _ (foldM _ _ _) => apply frame_foldM; [apply _ | intros ? ?]
  | |- frame _ (try_except _ _ _) => apply frame_try_except; [apply _ | |]
  | |- frame _ next => apply frame_next; apply _
  | |- frame _ readline => apply frame_readline; apply _
  | |- frame _ (attr _) => apply frame_attr; apply _
  | |- frame _ (open_file _ _) => apply frame_open_file; apply _
  | |- frame _ (let '(_, _) := ?x in _) => destruct x
  | |- frame _ (if ?c then _ else _) => destruct c
  | |- frame _ (match ?x with _ => _ end) => destruct x
  end.
Ltac frame := repeat frame_step.

(** ** Arrays filled row by row *)

Section Rows.
Context {S : Type}.

Lemma tame_setrow {A} (a : list A) i v : tame (setrow (S:=S) a i v).
Proof. unfold setrow. tame. Qed.

Lemma tame_setrow1 {A} (a : list (list A)) i row : tame (setrow1 (S:=S) a i row).
Proof. unfold setrow1. tame. Qed.

Lemma tame_setrow2 {A} (a : list (list (list A))) i j row :
  tame (setrow2 (S:=S) a i j row).
Proof. unfold setrow2. tame. Qed.

Lemma tame_zeros1 {A} (zero : A) n : tame (zeros1 (S:=S) zero n).
Proof. unfold zeros1. tame. Qed.

Lemma tame_zeros2 {A} (zero : A) n m : tame (zeros2 (S:=S) zero n m).
Proof. unfold zeros2. tame. Qed.

Lemma tame_zeros3 {A} (zero : A) n m k : tame (zeros3 (S:=S) zero n m k).
Proof. unfold zeros3. tame. Qed.

Lemma tame_float_item {F} `{Float64 F} sline i : tame (float_item (S:=S) (F:=F) sline i).
Proof. unfold float_item. tame. Qed.

Lemma tame_int_item sline i : tame (int_item (S:=S) sline i).
Proof. unfold int_item. tame. Qed.

Lemma tame_add_slash dir : tame (add_slash (S:=S) dir).
Proof. unfold add_slash. tame. Qed.

Lemma setrow_Ok {A} (a a' : list A) i v (s s' : S) :
  setrow a i v s = (Ok a', s') ->
  0 <= i /\ (Z.to_nat i < length a)%nat /\ a' = <[Z.to_nat i := v]> a /\ s' = s.
Proof.
  unfold setrow. intros E.
  apply bind_Ok_inv in E as (old & sa & E1 & E). apply orelse_inv in E1 as [E1 ->].
  apply ret_inv in E as [-> ->]. unfold item in E1.
  destruct (i <? 0) eqn:Ei; [done |]. apply Z.ltb_ge in Ei.
  apply lookup_lt_Some in E1. done.
Qed.

Lemma setrow1_Ok {A} (a a' : list (list A)) i row (s s' : S) :
  setrow1 a i row s = (Ok a', s') ->
  exists old row',
    0 <= i /\ a !! Z.to_nat i = Some old /\ length row' = length old /\
    a' = <[Z.to_nat i := row']> a /\ s' = s.
Proof.
  unfold setrow1. intros E.
  apply bind_Ok_inv in E as (old & sa & E1 & E). apply orelse_inv in E1 as [E1 ->].
  apply bind_Ok_inv in E as (row' & sa & E2 & E).
  apply ret_inv in E as [-> ->]. unfold item in E1.
  destruct (i <? 0) eqn:Ei; [done |]. apply Z.ltb_ge in Ei.
  exists old, row'. split_and!; try done.
  - unfold broadcast in E2. destruct (length row =? length old)%nat eqn:El.
    + apply ret_inv in E2 as [-> _]. by apply Nat.eqb_eq.
    + destruct row as [| v [| ? ?]]; try done.
      apply ret_inv in E2 as [-> _]. by rewrite length_replicate.
  - unfold broadcast in E2. destruct (length row =? length old)%nat.
    + by apply ret_inv in E2 as [_ ->].
    + destruct row as [| v [| ? ?]]; try done. by apply ret_inv in E2 as [_ ->].
Qed.

Lemma setrow2_state {A} (a a' : list (list (list A))) i j row (s s' : S) :
  setrow2 a i j row s = (Ok a', s') -> s' = s.
Proof.
  unfold setrow2. intros E.
  apply bind_Ok_inv in E as (plane & sa & E1 & E). apply orelse_inv in E1 as [_ ->].
  apply bind_Ok_inv in E as (old & sa & E1 & E). apply orelse_inv in E1 as [_ ->].
  apply bind_Ok_inv in E as (row' & sa & E1 & E). apply ret_inv in E as [_ ->].
  unfold broadcast in E1. destruct (_ =? _)%nat; [by apply ret_inv in E1 as [_ ->] |].
  destruct row as [| ? [| ? ?]]; try done. by apply ret_inv in E1 as [_ ->].
Qed.

(** A row of the right length, or of one element, can be stored in any
    row of the array. *)
Lemma setrow1_fits {A} (a : list (list A)) i row old (s : S) :
  0 <= i -> a !! Z.to_nat i = Some old ->
  length row = length old \/ length row = 1%nat ->
  exists row', length row' = length old /\
               setrow1 a i row s = (Ok (<[Z.to_nat i := row']> a), s).
Proof.
  intros Hi Hold Hlen. unfold setrow1, item, bind.
  destruct (i <? 0) eqn:Ei; [lia |]. rewrite Hold. cbn. unfold broadcast.
  destruct (length row =? length old)%nat eqn:El.
  - apply Nat.eqb_eq in El. by exists row.
  - destruct Hlen as [Hlen | Hlen]; [apply Nat.eqb_neq in El; lia |].
    destruct row as [| v [| ? ?]]; try done.
    exists (replicate (length old) v). by rewrite length_replicate.
Qed.
Lemma add_slash_Ok dir (s : S) :
  dir <> "" -> add_slash dir s = (Ok (with_slash dir), s).
Proof.
  intros Hdir. unfold add_slash, bind, last_item.
  destruct dir as [| c r]; [done |]. cbn [list_ascii_of_string].
  destruct (last (c :: list_ascii_of_string r)) eqn:El; [done |].
  apply last_None in El. done.
Qed.

Lemma int_item_Ok sline i n (s s' : S) :
  int_item sline i s = (Ok n, s') -> sline !! i ≫= PyStr.int = Some n /\ s' = s.
Proof.
  unfold int_item. intros E.
  apply bind_Ok_inv in E as (tok & sa & E1 & E). apply orelse_inv in E1 as [E1 ->].
  apply orelse_inv in E as [E ->]. by rewrite E1.
Qed.

Lemma float_item_Ok {F} `{Float64 F} sline i (v : F) (s s' : S) :
  float_item sline i s = (Ok v, s') -> sline !! i ≫= float_of_string = Some v /\ s' = s.
Proof.
  unfold float_item. intros E.
  apply bind_Ok_inv in E as (tok & sa & E1 & E). apply orelse_inv in E1 as [E1 ->].
  apply orelse_inv in E as [E ->]. by rewrite E1.
Qed.

Lemma zeros1_Ok {A} (zero : A) n a (s s' : S) :
  zeros1 zero n s = (Ok a, s') ->
  0 <= n /\ a = replicate (Z.to_nat n) zero /\ s' = s.
Proof.
  unfold zeros1, np_zeros_shape. intros E.
  apply bind_Ok_inv in E as (u & sa & E1 & E). apply ret_inv in E as [-> ->].
  destruct (forallb _ _) eqn:Hsh; [| done]. apply ret_inv in E1 as [_ ->].
  cbn in Hsh. apply andb_prop in Hsh as [Hn _]. apply Z.leb_le in Hn. done.
Qed.

Lemma zeros2_Ok {A} (zero : A) n m a (s s' : S) :
  zeros2 zero n m s = (Ok a, s') ->
  0 <= n /\ 0 <= m /\
  a = replicate (Z.to_nat n) (replicate (Z.to_nat m) zero) /\ s' = s.
Proof.
  unfold zeros2, np_zeros_shape. intros E.
  apply bind_Ok_inv in E as (u & sa & E1 & E). apply ret_inv in E as [-> ->].
  destruct (forallb _ _) eqn:Hsh; [| done]. apply ret_inv in E1 as [_ ->].
  cbn in Hsh. apply andb_prop in Hsh as [Hn Hsh]. apply andb_prop in Hsh as [Hm _].
  apply Z.leb_le in Hn, Hm. done.
Qed.

Lemma zeros3_Ok {A} (zero : A) n m k a (s s' : S) :
  zeros3 zero n m k s = (Ok a, s') ->
  0 <= n /\ 0 <= m /\ 0 <= k /\
  a = replicate (Z.to_nat n) (replicate (Z.to_nat m) (replicate (Z.to_nat k) zero)) /\
  s' = s.
Proof.
  unfold zeros3, np_zeros_shape. intros E.
  apply bind_Ok_inv in E as (u & sa & E1 & E). apply ret_inv in E as [-> ->].
  destruct (forallb _ _) eqn:Hsh; [| done]. apply ret_inv in E1 as [_ ->].
  cbn in Hsh. apply andb_prop in Hsh as [Hn Hsh]. apply andb_prop in Hsh as [Hm Hsh].
  apply andb_prop in Hsh as [Hk _]. apply Z.leb_le in Hn, Hm, Hk. done.
Qed.
End Rows.

Lemma next_Ok {O} (s s' : st O) line :
  next s = (Ok line, s') -> unread s = line :: unread s' /\ self s' = self s.
Proof.
  unfold next. destruct (unread s) as [| l r]; [done |]. by intros [= <- <-].
Qed.

Lemma assign_Ok {O} (upd : O -> O) (s s' : st O) u :
  assign upd s = (Ok u, s') -> s' = St (upd (self s)) (unread s).
Proof. by intros [= _ <-]. Qed.


#[global] Hint Resolve tame_setrow tame_setrow1 tame_setrow2 tame_zeros1 tame_zeros2
  tame_zeros3 tame_float_item tame_int_item tame_add_slash : tame.

Lemma range_split n seen x todo :
  range n = seen ++ x :: todo ->
  x = Z.of_nat (length seen) /\ (length seen < Z.to_nat n)%nat.
Proof.
  intros Hl.
  assert (Hx : range n !! length seen = Some x)
    by (rewrite Hl; apply list_lookup_middle; done).
  unfold range in Hx. rewrite list_lookup_fmap in Hx.
  destruct (seq 0 (Z.to_nat n) !! length seen) as [j |] eqn:Ej; [| done].
  apply lookup_seq in Ej as [-> Hlt]. injection Hx as <-. done.
Qed.


(** ** IBZKPT *)

Section KpointsReader.
Context {F : Type} `{Float64 F}.
Import Kpoints Ibzkpt.






#[global] Instance same_kpoints_preorder : PreOrder (same_kpoints (F:=F)).
Proof.
  split.
  - by intros o.
  - intros o1 o2 o3 (? & ? & ?) (? & ? & ?). unfold same_kpoints. split_and!; congruence.
Qed.

Lemma frame_setrow1 {S A} (R : relation S) `{!PreOrder R} (a : list (list A)) i row :
  frame R (setrow1 a i row).
Proof. unfold setrow1. frame. Qed.

Lemma frame_zeros2 {S A} (R : relation S) `{!PreOrder R} (zero : A) n m :
  frame R (zeros2 zero n m).
Proof. unfold zeros2. frame. Qed.

Lemma frame_float_item {S} (R : relation S) `{!PreOrder R} sline i :
  frame R (float_item (F:=F) sline i).
Proof. unfold float_item. frame. Qed.

Lemma frame_int_item {S} (R : relation S) `{!PreOrder R} sline i :
  frame R (int_item sline i).
Proof. unfold int_item. frame. Qed.

(** The section of the tetrahedra leaves the k-points alone, whatever
    becomes of it. *)
Lemma frame_read_tetrahedra : frame (on_self same_kpoints) (read_tetrahedra (F:=F)).
Proof.
  unfold read_tetrahedra, forM, read_tetrahedron. frame.
  all: try (apply frame_assign; by intros o).
  all: try (apply frame_int_item; apply _).
  all: try (apply frame_float_item; apply _).
  all: try (apply frame_zeros2; apply _).
  all: try (apply frame_setrow1; apply _).
Qed.

(** One k-point: its line is consumed and its weight stored. *)
Lemma read_kpoint_Ok ik (s s' : st (Kpoints.t F)) ws u :
  read_kpoint ik s = (Ok u, s') ->
  kwghts (self s) = Some ws ->
  exists line rest w,
    unread s = line :: rest /\ unread s' = rest /\
    raw_weight line = Some w /\
    0 <= ik /\ (Z.to_nat ik < length ws)%nat /\
    kwghts (self s') = Some (<[Z.to_nat ik := w]> ws) /\
    nktot (self s') = nktot (self s).
Proof.
  unfold read_kpoint. intros E Hws.
  apply bind_Ok_inv in E as (line & s1 & E1 & E).
  unfold next in E1. destruct (unread s) as [| l rest] eqn:Eu; [done |].
  injection E1 as <- <-.
  apply bind_Ok_inv in E as (row & sa & E1 & E). apply orelse_inv in E1 as [_ ->].
  apply bind_Ok_inv in E as (k & sa & E1 & E).
  unfold attr in E1. apply orelse_inv in E1 as [Hk ->]. cbn [self] in Hk.
  apply bind_Ok_inv in E as (k' & sa & E1 & E).
  apply setrow1_Ok in E1 as (_ & _ & _ & _ & _ & _ & ->).
  apply bind_Ok_inv in E as (u1 & sa & E1 & E). injection E1 as _ <-.
  apply bind_Ok_inv in E as (w & sa & E1 & E).
  unfold float_item in E1.
  apply bind_Ok_inv in E1 as (tok & sb & Etok & E1).
  apply orelse_inv in Etok as [Etok ->]. apply orelse_inv in E1 as [Ew ->].
  apply bind_Ok_inv in E as (ws1 & sa & E1 & E).
  unfold attr in E1. cbn [self kwghts set_kpts] in E1. rewrite Hws in E1.
  apply orelse_inv in E1 as [[= <-] ->].
  apply bind_Ok_inv in E as (ws' & sa & E1 & E).
  apply setrow_Ok in E1 as (Hik & Hlt & -> & ->).
  injection E as _ <-. cbn.
  exists l, rest, w. split_and!; try done.
  unfold raw_weight. rewrite Etok. done.
Qed.

(** The loop over the k-points: it consumes one line for each and leaves
    their weights, in order. *)
Lemma read_kpoint_loop n (s s' : st (Kpoints.t F)) u ws0 :
  forM (range n) read_kpoint s = (Ok u, s') ->
  kwghts (self s) = Some ws0 ->
  length ws0 = Z.to_nat n ->
  exists raw,
    (Z.to_nat n <= length (unread s))%nat /\
    mapM raw_weight (take (Z.to_nat n) (unread s)) = Some raw /\
    kwghts (self s') = Some raw /\
    nktot (self s') = nktot (self s) /\
    unread s' = drop (Z.to_nat n) (unread s).
Proof.
  intros E Hws0 Hlen0. unfold forM in E.
  apply (foldM_inv (fun seen _ st0 =>
           (length seen <= length (unread s))%nat /\
           unread st0 = drop (length seen) (unread s) /\
           nktot (self st0) = nktot (self s) /\
           exists ws,
             kwghts (self st0) = Some ws /\ length ws = Z.to_nat n /\
             mapM raw_weight (take (length seen) (unread s))
             = Some (take (length seen) ws))) in E.
  - destruct E as (Hle & Hu & Hnk & ws & Hws & Hlen & Hraw).
    rewrite length_range in *.
    exists ws. rewrite (take_ge ws) in Hraw by lia. done.
  - split_and!; [cbn; lia | done | done |]. exists ws0. done.
  - intros seen x todo b st0 b' st1 Hl (Hle & Hu & Hnk & ws & Hws & Hlen & Hraw) Estep.
    apply range_split in Hl as [-> Hlt].
    eapply read_kpoint_Ok in Estep as (line & rest & w & Hline & Hrest & Hw & _ & _
                                        & Hws1 & Hnk1); [| exact Hws].
    rewrite Nat2Z.id in Hws1. rewrite length_app. cbn [length].
    assert (Hlook : unread s !! length seen = Some line).
    { rewrite <- (Nat.add_0_r (length seen)), <- lookup_drop, <- Hu, Hline. done. }
    split_and!.
    + apply lookup_lt_Some in Hlook. lia.
    + rewrite Hrest. rewrite Nat.add_1_r.
      erewrite drop_S in Hu by exact Hlook. congruence.
    + congruence.
    + exists (<[length seen := w]> ws). split_and!; [done | by rewrite length_insert |].
      rewrite Nat.add_1_r.
      erewrite take_S_r by exact Hlook.
      erewrite (take_S_r (<[_ := _]> ws)); [| apply list_lookup_insert_eq; lia].
      rewrite take_insert_ge by lia.
      apply mapM_Some. apply Forall2_app; [by apply mapM_Some |].
      by repeat constructor.
Qed.

(** The k-points of a file, when they are read without error. *)
Lemma read_kpoints_Ok (s s' : st (Kpoints.t F)) u :
  read_kpoints s = (Ok u, s') ->
  exists n raw,
    declared_nktot (unread s) = Some n /\
    0 <= n /\
    (3 + Z.to_nat n <= length (unread s))%nat /\
    mapM raw_weight (kpoint_lines n (unread s)) = Some raw /\
    nktot (self s') = Some n /\
    kwghts (self s') = Some ((fun w => fdiv w (float_of_Z n)) <$> raw) /\
    unread s' = drop (3 + Z.to_nat n) (unread s).
Proof.
  unfold read_kpoints. intros E.
  apply bind_Ok_inv in E as (l0 & s1 & E1 & E).
  unfold next in E1. destruct (unread s) as [| l0' r0] eqn:Eu; [done |].
  injection E1 as <- <-.
  apply bind_Ok_inv in E as (l1 & s2 & E1 & E).
  unfold next in E1. cbn [unread] in E1. destruct r0 as [| l1' r1]; [done |].
  injection E1 as <- <-. cbn [self] in E.
  apply bind_Ok_inv in E as (n & sa & E1 & E).
  unfold int_item in E1.
  apply bind_Ok_inv in E1 as (tok & sb & Etok & E1).
  apply orelse_inv in Etok as [Etok ->]. apply orelse_inv in E1 as [En ->].
  apply bind_Ok_inv in E as (u1 & sa & E1 & E). injection E1 as _ <-.
  apply bind_Ok_inv in E as (k & sa & E1 & E).
  unfold zeros2 in E1. apply bind_Ok_inv in E1 as (u2 & sb & Esh & E1).
  apply ret_inv in E1 as [-> ->].
  unfold np_zeros_shape in Esh. destruct (forallb _ _) eqn:Hsh; [| done].
  apply ret_inv in Esh as [_ ->].
  cbn in Hsh. apply andb_prop in Hsh as [Hn _]. apply Z.leb_le in Hn.
  apply bind_Ok_inv in E as (u3 & sa & E1 & E). injection E1 as _ <-.
  apply bind_Ok_inv in E as (ws & sa & E1 & E).
  unfold zeros1 in E1. apply bind_Ok_inv in E1 as (u4 & sb & Esh & E1).
  apply ret_inv in E1 as [-> ->].
  unfold np_zeros_shape in Esh. destruct (forallb _ _); [| done].
  apply ret_inv in Esh as [_ ->].
  apply bind_Ok_inv in E as (u5 & sa & E1 & E). injection E1 as _ <-.
  apply bind_Ok_inv in E as (l2 & sa & E1 & E).
  unfold next in E1. cbn [unread] in E1. destruct r1 as [| l2' r2]; [done |].
  injection E1 as <- <-. cbn [self] in E.
  apply bind_Ok_inv in E as (u6 & sa & Eloop & E).
  eapply read_kpoint_loop in Eloop as (raw & Hle & Hraw & Hws & Hnk & Hu);
    [| cbn; reflexivity | by rewrite length_replicate].
  cbn [unread self nktot set_kwghts set_kpts set_nktot] in *.
  apply bind_Ok_inv in E as (ws1 & sb & E1 & E).
  unfold attr in E1. rewrite Hws in E1. apply orelse_inv in E1 as [[= <-] ->].
  injection E as _ <-. cbn.
  exists n, raw. unfold declared_nktot, kpoint_lines. cbn. rewrite Etok. cbn.
  split_and!; try done. lia.
Qed.
End KpointsReader.

Section KpointsTetrahedra.
Context {F : Type} `{Float64 F}.
Import Kpoints Ibzkpt.







Lemma Kpoints_from_file_unfold fs dir text (s : st (Kpoints.t F)) :
  dir <> "" ->
  fs !! (with_slash dir +:+ "IBZKPT") = Some text ->
  from_file fs dir s =
  bind read_kpoints
    (fun _ => try_except read_tetrahedra is_StopIteration (assign (set_ntet 0)))
    (St (self s) (PyStr.lines text)).
Proof.
  intros Hdir Htext. unfold from_file.
  unfold bind at 1. rewrite add_slash_Ok by done.
  unfold bind at 1, open_file, read_lines. rewrite Htext. done.
Qed.

End KpointsTetrahedra.

Module KpointsRuns.
Import Kpoints Ibzkpt Samples SamplesIbzkpt.


End KpointsRuns.

Section KpointsWeights.
Import Kpoints Ibzkpt Samples SamplesIbzkpt.

Lemma np_sum_div (raw : list R) (d : R) :
  np_sum ((fun w => w / d)%R <$> raw) = (np_sum raw / d)%R.
Proof.
  unfold np_sum. induction raw as [| w raw IH]; cbn.
  - unfold Rdiv. ring.
  - rewrite IH. unfold Rdiv. ring.
Qed.

(** C5, as the code has it: after a read that returns, each weight is
    the weight on the line of its k-point divided by the number of
    k-points, so the weights sum to the sum of the weights in the file
    over that number; for one k-point or more they sum to 1 exactly when
    the weights in the file sum to the number of k-points. *)
Theorem C5_weights_over_count fs dir text (s s' : st (Kpoints.t R)) :
  dir <> "" ->
  fs !! (with_slash dir +:+ "IBZKPT") = Some text ->
  from_file fs dir s = (Ok tt, s') ->
  exists n raw ws,
    declared_nktot (PyStr.lines text) = Some n /\
    mapM raw_weight (kpoint_lines n (PyStr.lines text)) = Some raw /\
    kwghts (self s') = Some ws /\
    ws = (fun w => w / IZR n)%R <$> raw /\
    np_sum ws = (np_sum raw / IZR n)%R /\
    (1 <= n -> (np_sum ws = 1%R <-> np_sum raw = IZR n)).
Proof.
  intros Hdir Htext E.
  rewrite (Kpoints_from_file_unfold fs dir text) in E by done.
  apply bind_Ok_inv in E as ([] & s1 & Ek & Et).
  apply read_kpoints_Ok in Ek as (n & raw & Hn & _ & _ & Hraw & _ & Hws & _).
  cbn [unread] in *.
  assert (Hframe : frame (on_self same_kpoints)
            (try_except (read_tetrahedra (F:=R)) is_StopIteration (assign (set_ntet 0)))).
  { apply frame_try_except; [apply _ | apply frame_read_tetrahedra |].
    apply frame_assign. by intros o. }
  apply Hframe in Et as (_ & Hw & _). rewrite Hws in Hw.
  exists n, raw, ((fun w => w / IZR n)%R <$> raw).
  split_and!; try done.
  - apply np_sum_div.
  - intros Hpos. rewrite np_sum_div.
    assert (Hn0 : IZR n <> 0%R) by (apply not_0_IZR; lia).
    split; intros Hsum.
    + apply (Rmult_eq_compat_r (IZR n)) in Hsum. field_simplify in Hsum; [lra | done].
    + rewrite Hsum. by field.
Qed.

Lemma C5_weights_over_count_witness :
  exists s' ws,
    from_file (F:=R) (single "d/IBZKPT" mesh_4x1x1) "d" (St Kpoints.init [])
    = (Ok tt, s') /\
    kwghts (self s') = Some ws /\
    np_sum ws = (4 / 3)%R.
Proof.
  destruct (C5_weights_over_count (single "d/IBZKPT" mesh_4x1x1) "d" mesh_4x1x1
              (St Kpoints.init [])
              (from_file (F:=R) (single "d/IBZKPT" mesh_4x1x1) "d" (St Kpoints.init [])).2)
    as (n & raw & ws & Hn & Hraw & Hws & _ & Hsum & _).
  - discriminate.
  - vm_compute; reflexivity.
  - vm_compute; reflexivity.
  - eexists _, ws. split; [vm_compute; reflexivity |]. split; [exact Hws |].
    rewrite Hsum. vm_compute in Hn. injection Hn as <-.
    vm_compute in Hraw. injection Hraw as <-.
    unfold np_sum. cbn [foldr]. lra.
Defined.

(** C5, as the claim has it, fails: the weights of the three k-points of
    a 4x1x1 mesh are 1, 2 and 1, and sum to 4/3 once divided by 3. *)
Lemma C5_counterexample :
  exists s' ws,
    from_file (F:=R) (single "d/IBZKPT" mesh_4x1x1) "d" (St Kpoints.init [])
    = (Ok tt, s') /\
    nktot (self s') = Some 3 /\
    kwghts (self s') = Some ws /\
    np_sum ws <> 1%R.
Proof.
  do 2 eexists. split_and!.
  - vm_compute. reflexivity.
  - reflexivity.
  - reflexivity.
  - unfold np_sum. cbn [foldr]. lra.
Qed.
End KpointsWeights.

(** ** Loops that read a fixed number of lines at each turn *)

Section Chunks.
Context {O : Type}.

Lemma forM_chunks {A} (k : nat) (P : list string -> Prop) (body : A -> M (st O) unit) l :
  (forall x st0 st1 u,
      body x st0 = (Ok u, st1) ->
      (k <= length (unread st0))%nat /\
      unread st1 = drop k (unread st0) /\
      P (take k (unread st0))) ->
  forall s s' u,
    forM l body s = (Ok u, s') ->
    (k * length l <= length (unread s))%nat /\
    unread s' = drop (k * length l) (unread s) /\
    forall i, (i < length l)%nat -> P (take k (drop (k * i) (unread s))).
Proof.
  intros Hbody. unfold forM.
  induction l as [| x l IH]; intros s s' u E; cbn [foldM] in E.
  - apply ret_inv in E as [_ ->]. cbn. rewrite Nat.mul_0_r.
    split_and!; [lia | done | intros; lia].
  - apply bind_Ok_inv in E as ([] & s1 & E1 & E).
    apply Hbody in E1 as (Hk & Hu & HP).
    apply IH in E as (Hlen & Hu' & Hall).
    rewrite Hu, length_drop in Hlen. rewrite Hu, drop_drop in Hu'.
    cbn [length]. rewrite Nat.mul_succ_r.
    split_and!.
    + lia.
    + rewrite Hu'. f_equal. lia.
    + intros [| i] Hi.
      * by rewrite Nat.mul_0_r.
      * specialize (Hall i ltac:(cbn in Hi; lia)).
        rewrite Hu, drop_drop in Hall.
        replace (k * S i)%nat with (k + k * i)%nat by lia. done.
Qed.
End Chunks.

(** ** EIGENVAL *)

Section EigenvalReader.
Context {F : Type} `{Float64 F}.
Import Eigenval EigenvalFile.

Lemma tame_read_band ispin0 ik ib : tame (read_band (F:=F) ispin0 ik ib).
Proof. unfold read_band. tame. Qed.

Lemma tame_Eigenval_read_kpoint ispin0 nband0 ik :
  tame (Eigenval.read_kpoint (F:=F) ispin0 nband0 ik).
Proof. unfold Eigenval.read_kpoint, forM. tame. apply tame_read_band. Qed.

Lemma tame_Eigenval_from_file fs dir : tame (from_file (F:=F) fs dir).
Proof. unfold from_file, forM. tame. apply tame_Eigenval_read_kpoint. Qed.

(** A band line that is read without error has one token for the band and
    two for each spin channel. *)
Lemma read_band_Ok ispin0 ik ib (s s' : st (Eigenval.t F)) u :
  read_band ispin0 ik ib s = (Ok u, s') ->
  exists line, unread s = line :: unread s' /\ tokens line = 2 * ispin0 + 1.
Proof.
  unfold read_band. intros E.
  apply bind_Ok_inv in E as (line & s1 & E1 & E).
  unfold next in E1. destruct (unread s) as [| l rest] eqn:Eu; [done |].
  injection E1 as <- <-.
  apply bind_Ok_inv in E as (tmp & sa & E1 & E). apply orelse_inv in E1 as [Htmp ->].
  apply bind_Ok_inv in E as (u1 & sa & E1 & E). apply assert_inv in E1 as [Hlen ->].
  apply Z.eqb_eq in Hlen. apply length_mapM in Htmp.
  apply bind_Ok_inv in E as (e & sa & E1 & E). apply orelse_inv in E1 as [_ ->].
  apply bind_Ok_inv in E as (e' & sa & E1 & E).
  apply setrow2_state in E1 as ->.
  apply bind_Ok_inv in E as (u2 & sa & E1 & E). injection E1 as _ <-.
  apply bind_Ok_inv in E as (w & sa & E1 & E). apply orelse_inv in E1 as [_ ->].
  apply bind_Ok_inv in E as (w' & sa & E1 & E).
  apply setrow2_state in E1 as ->.
  injection E as _ <-. cbn [unread].
  exists l. split; [done |]. unfold tokens. rewrite Htmp. done.
Qed.

(** A band line with another number of tokens is refused: with the error
    of an incorrect file when its tokens are numbers. *)
Lemma read_band_refused ispin0 ik ib (s : st (Eigenval.t F)) line rest :
  unread s = line :: rest ->
  tokens line <> 2 * ispin0 + 1 ->
  (read_band ispin0 ik ib s).1 =
  match map_conv (float_of_string (F:=F)) (PyStr.split line) with
  | Some _ => Raise (AssertionError incorrect)
  | None => Raise ValueError
  end.
Proof.
  intros Hu Hne. unfold read_band, bind at 1, next. rewrite Hu.
  unfold bind at 1. unfold map_conv.
  destruct (mapM float_of_string (PyStr.split line)) as [tmp |] eqn:Htmp; [| done].
  cbn [orelse ret]. unfold bind at 1, assert.
  apply length_mapM in Htmp. unfold tokens in Hne. rewrite Htmp in Hne.
  destruct (Z.of_nat (length tmp) =? 2 * ispin0 + 1) eqn:El; [| done].
  apply Z.eqb_eq in El. done.
Qed.

(** One k-point of EIGENVAL: two lines and one line for each band. *)
Lemma Eigenval_read_kpoint_Ok ispin0 nband0 ik (s s' : st (Eigenval.t F)) u :
  Eigenval.read_kpoint ispin0 nband0 ik s = (Ok u, s') ->
  (2 + Z.to_nat nband0 <= length (unread s))%nat /\
  unread s' = drop (2 + Z.to_nat nband0) (unread s) /\
  forall ib, (ib < Z.to_nat nband0)%nat ->
    exists line, take (2 + Z.to_nat nband0) (unread s) !! (2 + ib)%nat = Some line /\
                 tokens line = 2 * ispin0 + 1.
Proof.
  unfold Eigenval.read_kpoint. intros E.
  apply bind_Ok_inv in E as (l0 & s1 & E1 & E).
  unfold next in E1. destruct (unread s) as [| l0' r0] eqn:Eu; [done |].
  injection E1 as <- <-.
  apply bind_Ok_inv in E as (l1 & s2 & E1 & E).
  unfold next in E1. cbn [unread] in E1. destruct r0 as [| l1' r1]; [done |].
  injection E1 as <- <-. cbn [self] in E.
  apply bind_Ok_inv in E as (tmp & sa & E1 & E). apply orelse_inv in E1 as [_ ->].
  apply bind_Ok_inv in E as (k & sa & E1 & E). apply orelse_inv in E1 as [_ ->].
  apply bind_Ok_inv in E as (k' & sa & E1 & E).
  apply setrow1_Ok in E1 as (_ & _ & _ & _ & _ & _ & ->).
  apply bind_Ok_inv in E as (u1 & sa & E1 & E). injection E1 as _ <-.
  apply bind_Ok_inv in E as (w & sa & E1 & E). apply orelse_inv in E1 as [_ ->].
  apply bind_Ok_inv in E as (ws & sa & E1 & E). apply orelse_inv in E1 as [_ ->].
  apply bind_Ok_inv in E as (ws' & sa & E1 & E).
  apply setrow_Ok in E1 as (_ & _ & _ & ->).
  apply bind_Ok_inv in E as (u2 & sa & E1 & E). injection E1 as _ <-.
  apply (forM_chunks 1 (fun blk => exists line, blk = [line] /\ tokens line = 2 * ispin0 + 1))
    in E as (Hlen & Hu & Hall).
  - rewrite length_range in *. cbn [unread] in *.
    split_and!.
    + cbn [length]. lia.
    + rewrite Hu. cbn. f_equal. lia.
    + intros ib Hib. destruct (Hall ib Hib) as (line & Hline & Htok).
      exists line. split; [| done].
      rewrite lookup_take_lt by lia. cbn.
      assert (Hl : (take 1 (drop (1 * ib) r1)) !! 0%nat = Some line) by (by rewrite Hline).
      rewrite lookup_take_lt, lookup_drop in Hl by lia.
      rewrite <- Hl. f_equal. lia.
  - intros x st0 st1 u3 Ex. apply read_band_Ok in Ex as (line & Hline & Htok).
    rewrite Hline. cbn. split_and!; [lia | done |]. rewrite take_0. eauto.
Qed.

(** The band lines of a file that is read without error. *)
Lemma Eigenval_from_file_Ok fs dir text (s s' : st (Eigenval.t F)) u :
  dir <> "" ->
  fs !! (with_slash dir +:+ "EIGENVAL") = Some text ->
  from_file fs dir s = (Ok u, s') ->
  exists ispin0 nktot0 nband0,
    preamble_fields (PyStr.lines text) = Some (ispin0, nktot0, nband0) /\
    forall ik ib, (ik < Z.to_nat nktot0)%nat -> (ib < Z.to_nat nband0)%nat ->
      exists line, band_line nband0 ik ib (PyStr.lines text) = Some line /\
                   tokens line = 2 * ispin0 + 1.
Proof.
  intros Hdir Htext E. unfold from_file in E.
  unfold bind at 1 in E. rewrite add_slash_Ok in E by done.
  unfold bind at 1, open_file, read_lines in E. rewrite Htext in E.
  cbn [fmap option_fmap option_map orelse ret] in E.
  apply bind_Ok_inv in E as (l0 & s1 & E1 & E).
  apply next_Ok in E1 as [Hu0 Hs1]. cbn [unread self] in Hu0, Hs1.
  apply bind_Ok_inv in E as (n & sa & E1 & E). apply int_item_Ok in E1 as [_ ->].
  apply bind_Ok_inv in E as (? & sa & E1 & E). apply assign_Ok in E1 as ->.
  apply bind_Ok_inv in E as (ispin0 & sa & E1 & E).
  apply int_item_Ok in E1 as [Hispin ->].
  apply bind_Ok_inv in E as (? & sa & E1 & E). apply assign_Ok in E1 as ->.
  apply bind_Ok_inv in E as (l1 & s2 & E1 & E). apply next_Ok in E1 as [Hu1 _].
  apply bind_Ok_inv in E as (l2 & s3 & E1 & E). apply next_Ok in E1 as [Hu2 _].
  apply bind_Ok_inv in E as (l3 & s4 & E1 & E). apply next_Ok in E1 as [Hu3 _].
  apply bind_Ok_inv in E as (l4 & s5 & E1 & E). apply next_Ok in E1 as [Hu4 _].
  apply bind_Ok_inv in E as (l5 & s6 & E1 & E). apply next_Ok in E1 as [Hu5 _].
  cbn [unread] in *.
  apply bind_Ok_inv in E as (nel & sa & E1 & E). apply int_item_Ok in E1 as [_ ->].
  apply bind_Ok_inv in E as (? & sa & E1 & E). apply assign_Ok in E1 as ->.
  apply bind_Ok_inv in E as (nktot0 & sa & E1 & E).
  apply int_item_Ok in E1 as [Hnktot ->].
  apply bind_Ok_inv in E as (? & sa & E1 & E). apply assign_Ok in E1 as ->.
  apply bind_Ok_inv in E as (nband0 & sa & E1 & E).
  apply int_item_Ok in E1 as [Hnband ->].
  apply bind_Ok_inv in E as (? & sa & E1 & E). apply assign_Ok in E1 as ->.
  apply bind_Ok_inv in E as (? & sa & E1 & E). apply zeros2_Ok in E1 as (_ & _ & _ & ->).
  apply bind_Ok_inv in E as (? & sa & E1 & E). apply assign_Ok in E1 as ->.
  apply bind_Ok_inv in E as (? & sa & E1 & E). apply zeros1_Ok in E1 as (_ & _ & ->).
  apply bind_Ok_inv in E as (? & sa & E1 & E). apply assign_Ok in E1 as ->.
  apply bind_Ok_inv in E as (? & sa & E1 & E).
  apply zeros3_Ok in E1 as (_ & _ & _ & _ & ->).
  apply bind_Ok_inv in E as (? & sa & E1 & E). apply assign_Ok in E1 as ->.
  apply bind_Ok_inv in E as (? & sa & E1 & E).
  apply zeros3_Ok in E1 as (_ & _ & _ & _ & ->).
  apply bind_Ok_inv in E as (? & sa & E1 & E). apply assign_Ok in E1 as ->.
  cbn [unread self] in E.
  apply (forM_chunks (2 + Z.to_nat nband0)
           (fun blk => forall ib, (ib < Z.to_nat nband0)%nat ->
              exists line, blk !! (2 + ib)%nat = Some line /\ tokens line = 2 * ispin0 + 1))
    in E as (Hlen & _ & Hall).
  2: { intros ik0 st0 st1 u3 Ex.
       apply Eigenval_read_kpoint_Ok in Ex as (Hk & Hd & Hb). done. }
  rewrite length_range in *.
  exists ispin0, nktot0, nband0. split.
  - unfold preamble_fields. rewrite Hu0, Hu1, Hu2, Hu3, Hu4, Hu5. cbn.
    rewrite Hispin. cbn. rewrite Hnktot. cbn. rewrite Hnband. done.
  - intros ik ib Hik Hib. destruct (Hall ik Hik ib Hib) as (line & Hline & Htok).
    exists line. split; [| done].
    rewrite lookup_take_lt, lookup_drop in Hline by lia.
    unfold band_line. rewrite Hu0, Hu1, Hu2, Hu3, Hu4, Hu5. cbn.
    rewrite <- Hline. f_equal. lia.
Qed.

(** C8: a read of EIGENVAL that returns found on every band line one
    token and two for each spin channel; a band line with another number
    of tokens makes the read raise, and is itself refused with the error
    of an incorrect file when its tokens are numbers; so with two spin
    channels a band line of fewer than five tokens makes the read raise. *)
Theorem C8_band_line_tokens fs dir text ispin0 nktot0 nband0 (s : st (Eigenval.t F)) :
  dir <> "" ->
  fs !! (with_slash dir +:+ "EIGENVAL") = Some text ->
  preamble_fields (PyStr.lines text) = Some (ispin0, nktot0, nband0) ->
  ((from_file fs dir s).1 = Ok tt ->
   forall ik ib, (ik < Z.to_nat nktot0)%nat -> (ib < Z.to_nat nband0)%nat ->
     exists line, band_line nband0 ik ib (PyStr.lines text) = Some line /\
                  tokens line = 2 * ispin0 + 1) /\
  (forall ik ib line,
     (ik < Z.to_nat nktot0)%nat -> (ib < Z.to_nat nband0)%nat ->
     band_line nband0 ik ib (PyStr.lines text) = Some line ->
     tokens line <> 2 * ispin0 + 1 ->
     exists e, (from_file fs dir s).1 = Raise e) /\
  (forall ik ib (st0 : st (Eigenval.t F)) line rest,
     unread st0 = line :: rest ->
     tokens line <> 2 * ispin0 + 1 ->
     (read_band ispin0 ik ib st0).1 =
     match map_conv (float_of_string (F:=F)) (PyStr.split line) with
     | Some _ => Raise (AssertionError incorrect)
     | None => Raise ValueError
     end) /\
  (ispin0 = 2 ->
   forall ik ib line,
     (ik < Z.to_nat nktot0)%nat -> (ib < Z.to_nat nband0)%nat ->
     band_line nband0 ik ib (PyStr.lines text) = Some line ->
     tokens line < 5 ->
     exists e, (from_file fs dir s).1 = Raise e).
Proof.
  intros Hdir Htext Hpre.
  assert (Hok : (from_file fs dir s).1 = Ok tt ->
     forall ik ib, (ik < Z.to_nat nktot0)%nat -> (ib < Z.to_nat nband0)%nat ->
       exists line, band_line nband0 ik ib (PyStr.lines text) = Some line /\
                    tokens line = 2 * ispin0 + 1).
  { intros E. destruct (from_file fs dir s) as [r s'] eqn:Erun. cbn in E. subst r.
    eapply Eigenval_from_file_Ok in Erun
      as (ispin1 & nktot1 & nband1 & Hpre' & Hall); [| done | done].
    rewrite Hpre in Hpre'. injection Hpre' as <- <- <-. done. }
  assert (Hbad : forall ik ib line,
     (ik < Z.to_nat nktot0)%nat -> (ib < Z.to_nat nband0)%nat ->
     band_line nband0 ik ib (PyStr.lines text) = Some line ->
     tokens line <> 2 * ispin0 + 1 ->
     exists e, (from_file fs dir s).1 = Raise e).
  { intros ik ib line Hik Hib Hline Hne.
    apply tame_raises; [apply tame_Eigenval_from_file |].
    intros [] E. destruct (Hok E ik ib Hik Hib) as (line' & Hline' & Htok). congruence. }
  split_and!; [done | done | |].
  - intros ik ib st0 line rest. apply read_band_refused.
  - intros -> ik ib line Hik Hib Hline Hlt. eapply Hbad; [done | done | done | lia].
Qed.
End EigenvalReader.

Module EigenvalRuns.
Import Eigenval EigenvalFile Samples SamplesEigenval.

Lemma C8_band_line_tokens_witness :
  (from_file (F:=Q) (single "d/EIGENVAL" two_spins) "d" (St Eigenval.init [])).1 = Ok tt /\
  (forall ik ib, (ik < 1)%nat -> (ib < 2)%nat ->
     exists line, band_line 2 ik ib (PyStr.lines two_spins) = Some line /\
                  tokens line = 5) /\
  (exists e,
     (from_file (F:=Q) (single "d/EIGENVAL" old_format) "d" (St Eigenval.init [])).1
     = Raise e).
Proof.
  split_and!.
  - vm_compute. reflexivity.
  - apply (proj1 (C8_band_line_tokens (F:=Q) (single "d/EIGENVAL" two_spins) "d" two_spins
                    2 1 2 (St Eigenval.init [])
                    ltac:(discriminate) ltac:(vm_compute; reflexivity)
                    ltac:(vm_compute; reflexivity))).
    vm_compute. reflexivity.
  - eapply (proj2 (proj2 (proj2 (C8_band_line_tokens (F:=Q) (single "d/EIGENVAL" old_format)
                    "d" old_format 2 1 2 (St Eigenval.init [])
                    ltac:(discriminate) ltac:(vm_compute; reflexivity)
                    ltac:(vm_compute; reflexivity)))) eq_refl 0%nat 1%nat).
    + lia.
    + lia.
    + vm_compute. reflexivity.
    + vm_compute. reflexivity.
Defined.
End EigenvalRuns.

(** ** POSCAR *)

Section PoscarReader.
Context {F : Type} `{Float64 F}.
Import Poscar PoscarFile.

Lemma readline_remove_comments_cons (o : Poscar.t F) line rest :
  readline_remove_comments (St o (line :: rest)) = (Ok (clean line), St o rest).
Proof. done. Qed.

(** One lattice vector: its line is consumed and its three numbers
    stored. *)
Lemma lattice_row_run (o : Poscar.t F) line rest ia row a old :
  map_conv float_of_string (fields line) = Some row ->
  a_brav o = Some a ->
  a !! ia = Some old ->
  length row = length old ->
  bind readline_remove_comments
    (fun sline =>
       bind (orelse (map_conv float_of_string (PyStr.split sline)) ValueError)
         (fun row =>
            bind (attr a_brav)
              (fun a => bind (setrow1 a (Z.of_nat ia) row)
                          (fun a' => assign (set_a_brav a')))))
    (St o (line :: rest))
  = (Ok tt, St (set_a_brav (<[ia := row]> a) o) rest).
Proof.
  intros Hrow Ha Hold Hlen. unfold fields in Hrow.
  unfold bind at 1. rewrite readline_remove_comments_cons.
  unfold bind at 1. rewrite Hrow. cbn [orelse ret].
  unfold bind at 1, attr. cbn [self]. rewrite Ha. cbn [orelse ret].
  destruct (setrow1_fits a (Z.of_nat ia) row old (St o rest)) as (row' & Hrow' & Eset).
  { lia. }
  { by rewrite Nat2Z.id. }
  { by left. }
  unfold bind at 1.
  assert (Hsame : row' = row).
  { unfold setrow1, item, bind in Eset.
    destruct (Z.of_nat ia <? 0); [done |]. rewrite Nat2Z.id, Hold in Eset.
    cbn [orelse ret] in Eset. unfold broadcast in Eset.
    rewrite Hlen, Nat.eqb_refl in Eset. cbn [ret] in Eset.
    injection Eset as Eset.
    apply (f_equal (fun l => l !! ia)) in Eset.
    rewrite !list_lookup_insert_eq in Eset by (by eapply lookup_lt_Some).
    congruence. }
  rewrite Eset, Nat2Z.id, Hsame. done.
Qed.

(** The lattice of a file whose five first lines are well formed: the
    three vectors as they are written, times the effective scale. *)
Lemma read_lattice_run (s : st (Poscar.t F)) c lsc l1 l2 l3 rest sc r1 r2 r3 :
  unread s = c :: lsc :: l1 :: l2 :: l3 :: rest ->
  float_of_string (clean lsc) = Some sc ->
  map_conv float_of_string (fields l1) = Some r1 ->
  map_conv float_of_string (fields l2) = Some r2 ->
  map_conv float_of_string (fields l3) = Some r3 ->
  length r1 = 3%nat -> length r2 = 3%nat -> length r3 = 3%nat ->
  read_lattice s =
  (Ok tt, St (set_a_brav (scale [r1; r2; r3] (effective_scale sc [r1; r2; r3])) (self s))
             rest).
Proof.
  destruct s as [o ls]. cbn [unread self]. intros -> Hsc H1 H2 H3 Hl1 Hl2 Hl3.
  unfold read_lattice.
  unfold bind at 1. unfold next at 1. cbn [unread self].
  unfold bind at 1. rewrite readline_remove_comments_cons.
  unfold bind at 1. rewrite Hsc. cbn [orelse ret].
  unfold bind at 1, zeros2, bind at 1, np_zeros_shape. cbn [forallb Z.leb Z.compare andb ret].
  unfold bind at 1, assign at 1. cbn [unread self].
  change (range 3) with [Z.of_nat 0; Z.of_nat 1; Z.of_nat 2]. unfold forM. cbn [foldM].
  change (replicate (Z.to_nat 3) (replicate (Z.to_nat 3) (float_of_Z 0)))
    with [[float_of_Z 0; float_of_Z 0; float_of_Z 0];
          [float_of_Z 0; float_of_Z 0; float_of_Z 0];
          [float_of_Z 0; float_of_Z 0; float_of_Z (F:=F) 0]].
  unfold bind at 1.
  erewrite bind_Ok; [| by eapply (lattice_row_run _ l1 _ 0 r1)].
  erewrite bind_Ok; [| by eapply (lattice_row_run _ l2 _ 1 r2)].
  erewrite bind_Ok; [| by eapply (lattice_row_run _ l3 _ 2 r3)].
  cbn [ret insert list_insert]. unfold bind at 1, attr. cbn [self a_brav set_a_brav orelse ret].
  unfold assign, effective_scale. reflexivity.
Qed.
End PoscarReader.
Section PoscarScale.
Import Poscar PoscarFile Samples SamplesPoscar.

Lemma Rltb_spec (a b : R) : Rltb a b = true <-> (a < b)%R.
Proof. unfold Rltb. apply (proj2_sig Rltb_sealed). Qed.

Lemma Rpow_spec (x y : R) : (0 < x)%R -> Rpow x y = Rpower x y.
Proof. unfold Rpow. apply (proj2_sig Rpow_sealed). Qed.

Lemma cube_root_8 : Rpower 8 (1 / 3) = 2%R.
Proof.
  assert (H8 : 8%R = Rpower 2 (INR 3)).
  { rewrite Rpower_pow by lra. cbn. lra. }
  rewrite H8, Rpower_mult.
  replace (INR 3 * (1 / 3))%R with 1%R by (cbn; field).
  apply Rpower_1. lra.
Qed.

(** C7: for a negative scale the three lattice vectors are read as they
    are written, and every one of their nine numbers is then multiplied
    by one factor; when the determinant of the vectors as written is
    positive the factor is (|scale| / det)^(1/3), and with scale -8 and
    determinant 1 it is 2.  The numbers are real numbers; for a
    determinant that is not positive the power of the code is no real
    number and nothing is said of the factor. *)
Theorem C7_negative_scale (s : st (Poscar.t R)) c lsc l1 l2 l3 rest sc
    x11 x12 x13 x21 x22 x23 x31 x32 x33 :
  unread s = c :: lsc :: l1 :: l2 :: l3 :: rest ->
  float_of_string (clean lsc) = Some sc ->
  map_conv float_of_string (fields l1) = Some [x11; x12; x13] ->
  map_conv float_of_string (fields l2) = Some [x21; x22; x23] ->
  map_conv float_of_string (fields l3) = Some [x31; x32; x33] ->
  (sc < 0)%R ->
  let det := (x11 * (x22 * x33 - x23 * x32)
              - x12 * (x21 * x33 - x23 * x31)
              + x13 * (x21 * x32 - x22 * x31))%R in
  exists factor s',
    read_lattice s = (Ok tt, s') /\
    unread s' = rest /\
    a_brav (self s') =
      Some [[x11 * factor; x12 * factor; x13 * factor];
            [x21 * factor; x22 * factor; x23 * factor];
            [x31 * factor; x32 * factor; x33 * factor]]%R /\
    ((0 < det)%R -> factor = Rpower (Rabs sc / det) (1 / 3)) /\
    (sc = (-8)%R -> det = 1%R -> factor = 2%R).
Proof.
  intros Hu Hsc H1 H2 H3 Hneg det.
  assert (Hfactor : (0 < det)%R ->
            effective_scale sc [[x11; x12; x13]; [x21; x22; x23]; [x31; x32; x33]]
            = Rpower (Rabs sc / det) (1 / 3)).
  { intros Hdet. unfold effective_scale.
    assert (Hlt : fltb sc (float_of_Z 0) = true) by (by apply Rltb_spec).
    rewrite Hlt. cbn [fpow fdiv fopp float_of_Z linalg_det RealArith det3].
    fold det. rewrite (Rabs_left sc) by done.
    apply Rpow_spec. apply Rdiv_lt_0_compat; lra. }
  eexists _, _. split_and!.
  - by apply (read_lattice_run s c lsc l1 l2 l3 rest sc).
  - done.
  - cbn [self a_brav set_a_brav scale fmap list_fmap fmul RealArith]. done.
  - done.
  - intros -> Hd. rewrite Hfactor by lra. rewrite Hd.
    rewrite Rabs_left by lra.
    replace (- -8 / 1)%R with 8%R by field. apply cube_root_8.
Qed.

Lemma C7_negative_scale_witness :
  exists s',
    read_lattice (F:=R) (St Poscar.init (PyStr.lines with_names)) = (Ok tt, s') /\
    a_brav (self s') = Some [[2; 0; 0]; [0; 2; 0]; [0; 0; 2]]%R.
Proof.
  edestruct (C7_negative_scale (St Poscar.init (PyStr.lines with_names)))
    as (factor & s' & Hrun & _ & Hbrav & _ & Hfactor).
  - vm_compute. reflexivity.
  - vm_compute. reflexivity.
  - vm_compute. reflexivity.
  - vm_compute. reflexivity.
  - vm_compute. reflexivity.
  - lra.
  - exists s'. split; [exact Hrun |]. rewrite Hbrav.
    rewrite Hfactor by (cbn; lra).
    repeat f_equal; cbn; lra.
Defined.
End PoscarScale.

Section PoscarSpecies.
Context {F : Type} `{Float64 F}.
Import Poscar PoscarFile.

#[global] Instance same_species_preorder : PreOrder (same_species (F:=F)).
Proof.
  split.
  - by intros o.
  - intros o1 o2 o3 (? & ? & ? & ?) (? & ? & ? & ?). unfold same_species.
    split_and!; congruence.
Qed.

Lemma frame_readline_remove_comments (R : relation (Poscar.t F)) `{!PreOrder R} :
  frame (on_self R) (readline_remove_comments (F:=F)).
Proof. unfold readline_remove_comments. frame. Qed.

(** The positions of the ions leave the species and their numbers
    alone, whatever becomes of them. *)
Lemma frame_read_positions : frame (on_self same_species) (read_positions (F:=F)).
Proof.
  unfold read_positions, forM, read_type, read_ion, first_lower, dot. frame.
  all: try (apply frame_assign; by intros o).
  all: try (apply frame_readline_remove_comments; apply _).
  all: try (apply frame_zeros2; apply _).
  all: try (apply frame_setrow1; apply _).
Qed.

(** The line of the numbers of ions, read as such. *)
Lemma read_species_counts (s : st (Poscar.t F)) l1 rest ns :
  unread s = l1 :: rest ->
  map_conv PyStr.int (fields l1) = Some ns ->
  read_species s =
  (Ok tt,
   St (set_nq (foldr Z.add 0 ns)
         (set_ntypes (Z.of_nat (length ns))
            (set_el_names ((fun i => "El" +:+ pretty i) <$> range (Z.of_nat (length ns)))
               (set_nions ns (self s))))) rest).
Proof.
  destruct s as [o ls]. cbn [unread self]. intros -> Hns. unfold fields in Hns.
  unfold read_species.
  unfold bind at 1. rewrite readline_remove_comments_cons.
  unfold bind at 1, try_except. unfold bind at 1. rewrite Hns. cbn [orelse ret].
  unfold bind at 1, assign at 1. cbn [self unread]. unfold assign at 1. cbn [self unread].
  unfold bind at 1, attr. cbn [self nions set_el_names set_nions orelse ret].
  unfold bind at 1, assign. cbn [self unread]. reflexivity.
Qed.

(** The line of the names of the elements, read as such when it cannot be
    read as numbers, and the numbers of ions on the line after it. *)
Lemma read_species_names (s : st (Poscar.t F)) l1 l2 rest ns :
  unread s = l1 :: l2 :: rest ->
  map_conv PyStr.int (fields l1) = None ->
  map_conv PyStr.int (fields l2) = Some ns ->
  read_species s =
  (Ok tt,
   St (set_nq (foldr Z.add 0 ns)
         (set_ntypes (Z.of_nat (length ns))
            (set_nions ns (set_el_names (fields l1) (self s))))) rest).
Proof.
  destruct s as [o ls]. cbn [unread self]. intros -> Hnone Hns. unfold fields in *.
  unfold read_species.
  unfold bind at 1. rewrite readline_remove_comments_cons.
  unfold bind at 1, try_except. unfold bind at 1. rewrite Hnone.
  cbn [orelse raise is_ValueError].
  unfold bind at 1, assign at 1. cbn [self unread].
  unfold bind at 1. rewrite readline_remove_comments_cons.
  unfold bind at 1. rewrite Hns. cbn [orelse ret]. unfold assign at 1. cbn [self unread].
  unfold bind at 1, attr. cbn [self nions set_el_names set_nions orelse ret].
  unfold bind at 1, assign. cbn [self unread]. reflexivity.
Qed.

(** C6: a line with the tokens Fe and O followed by a line with the
    tokens 2 and 4 gives the species Fe and O, the numbers of ions 2 and
    4 and 6 ions in all; a line with the tokens 2 and 4 alone gives the
    species El0 and El1 with the same numbers; and the positions that are
    read next leave all of this as it is. *)
Theorem C6_species_trial_parse (s : st (Poscar.t F)) l1 l2 rest :
  (unread s = l1 :: l2 :: rest ->
   fields l1 = ["Fe"; "O"] -> fields l2 = ["2"; "4"] ->
   exists s',
     read_species s = (Ok tt, s') /\ unread s' = rest /\
     el_names (self s') = Some ["Fe"; "O"] /\
     nions (self s') = Some [2; 4] /\
     ntypes (self s') = Some 2 /\
     nq (self s') = Some 6) /\
  (unread s = l1 :: rest ->
   fields l1 = ["2"; "4"] ->
   exists s',
     read_species s = (Ok tt, s') /\ unread s' = rest /\
     el_names (self s') = Some ["El0"; "El1"] /\
     nions (self s') = Some [2; 4] /\
     ntypes (self s') = Some 2 /\
     nq (self s') = Some 6) /\
  (forall (s1 s2 : st (Poscar.t F)) r,
     read_positions s1 = (r, s2) ->
     el_names (self s2) = el_names (self s1) /\
     nions (self s2) = nions (self s1) /\
     ntypes (self s2) = ntypes (self s1) /\
     nq (self s2) = nq (self s1)).
Proof.
  split_and!.
  - intros Hu Hf1 Hf2. eexists. split.
    + apply (read_species_names s l1 l2 rest [2; 4]); [done | |].
      * rewrite Hf1. reflexivity.
      * rewrite Hf2. reflexivity.
    + rewrite Hf1. done.
  - intros Hu Hf1. eexists. split.
    + apply (read_species_counts s l1 rest [2; 4]); [done |].
      rewrite Hf1. reflexivity.
    + done.
  - intros s1 s2 r E. by apply frame_read_positions in E.
Qed.
End PoscarSpecies.

Module PoscarRuns.
Import Poscar PoscarFile Samples SamplesPoscar.

Lemma C6_species_trial_parse_witness :
  (exists s',
     read_species (F:=Q) (St Poscar.init (drop 5 (PyStr.lines with_names))) = (Ok tt, s') /\
     unread s' = drop 7 (PyStr.lines with_names) /\
     el_names (self s') = Some ["Fe"; "O"] /\
     nions (self s') = Some [2; 4] /\
     ntypes (self s') = Some 2 /\
     nq (self s') = Some 6) /\
  (exists s',
     read_species (F:=Q) (St Poscar.init (drop 5 (PyStr.lines without_names))) = (Ok tt, s') /\
     unread s' = drop 6 (PyStr.lines without_names) /\
     el_names (self s') = Some ["El0"; "El1"] /\
     nions (self s') = Some [2; 4] /\
     ntypes (self s') = Some 2 /\
     nq (self s') = Some 6).
Proof.
  split.
  - apply (proj1 (C6_species_trial_parse (F:=Q)
                    (St Poscar.init (drop 5 (PyStr.lines with_names)))
                    (" Fe O" +:+ nl) (" 2 4" +:+ nl) (drop 7 (PyStr.lines with_names)))).
    + vm_compute. reflexivity.
    + vm_compute. reflexivity.
    + vm_compute. reflexivity.
  - apply (proj1 (proj2 (C6_species_trial_parse (F:=Q)
                    (St Poscar.init (drop 5 (PyStr.lines without_names)))
                    (" 2 4" +:+ nl) "" (drop 6 (PyStr.lines without_names))))).
    + vm_compute. reflexivity.
    + vm_compute. reflexivity.
Defined.
End PoscarRuns.

(** ** The container *)

Section VaspDataInit.
Context {F : Type} `{Float64 F}.
Import VaspData Locproj.

#[global] Instance same_plocar_preorder : PreOrder (same_plocar (F:=F)).
Proof.
  split.
  - by intros v.
  - intros v1 v2 v3 H12 H23. unfold same_plocar in *. congruence.
Qed.

Lemma frame_call {O A} (R : relation (VaspData.t F)) (get : VaspData.t F -> O) set
    (m : M (st O) A) :
  (forall o v, R v (set o v)) -> frame R (call get set m).
Proof.
  intros Hset v r v' E. unfold call in E.
  destruct (m (St (get v) [])) as [r0 s0]. injection E as _ <-. apply Hset.
Qed.

Lemma frame_update {O} (R : relation (VaspData.t F)) (get : VaspData.t F -> O) set upd :
  (forall o v, R v (set o v)) -> frame R (update get set upd).
Proof. intros Hset v r v' E. injection E as _ <-. apply Hset. Qed.

(** The Fermi level that the LOCPROJ reader holds after a read that
    returns: the fifth token of the first line, when it is a number. *)
Lemma Plocar_from_file_efermi fs dir text (s s' : st (Plocar.t F)) u :
  dir <> "" ->
  fs !! (with_slash dir +:+ "LOCPROJ") = Some text ->
  Plocar.from_file fs dir s = (Ok u, s') ->
  Plocar.efermi (self s') =
  match header_efermi (PyStr.lines text) ≫= float_of_string with
  | Some e => Some e
  | None => Plocar.efermi (self s)
  end.
Proof.
  intros Hdir Htext E. unfold Plocar.from_file in E.
  unfold bind at 1 in E. rewrite add_slash_Ok in E by done.
  apply bind_Ok_inv in E as ([pp plo] & s1 & E1 & E).
  apply locproj_parser_Ok in E1
    as (text' & ncdij0 & nk & nband0 & nproj & Htext' & _ & _ & _ & _ & Hef & _).
  assert (text' = text) as -> by congruence.
  apply bind_Ok_inv in E as (u1 & s2 & E1 & E).
  apply assign_Ok in E1 as ->. apply assign_Ok in E as ->. cbn. done.
Qed.

(** After the LOCPROJ reader the other readers leave it alone. *)
Lemma read_structure_plocar fs dir (v v1 : VaspData.t F) u :
  read_structure fs dir v = (Ok u, v1) ->
  exists s',
    Plocar.from_file fs dir (St (plocar v) []) = (Ok tt, s') /\ plocar v1 = self s'.
Proof.
  unfold read_structure. intros E.
  apply bind_Ok_inv in E as ([] & va & E1 & E).
  unfold call in E1.
  destruct (Plocar.from_file fs dir (St (plocar v) [])) as [r0 s0] eqn:Ep.
  injection E1 as -> <-. exists s0. split; [done |].
  assert (Hfr : frame same_plocar
            (bind (call poscar set_poscar (Poscar.from_file fs dir))
               (fun _ =>
                  bind (call kpoints set_kpoints (Kpoints.from_file fs dir))
                    (fun _ =>
                       try_except
                         (call eigenval set_eigenval (Eigenval.from_file fs dir))
                         is_IOError_or_StopIteration
                         (bind (update eigenval set_eigenval (Eigenval.set_eigs None))
                            (fun _ => update eigenval set_eigenval
                                        (Eigenval.set_ferw None))))))).
  { frame; (apply frame_call || apply frame_update); by intros o v0. }
  apply Hfr in E. unfold same_plocar in E. rewrite E. done.
Qed.

(** C3, as the code has it: when DOSCAR cannot be read and the Fermi
    level is required, the constructor takes the Fermi level of LOCPROJ,
    the fifth token of its first line, as the Fermi level of DOSCAR; when
    that token is missing or is no number the constructor raises, but
    with the AttributeError of the missing attribute and not with the
    exception of the handler, which is written for NameError. *)
Theorem C3_efermi_fallback fs dir text (v1 : VaspData.t F) e0 :
  dir <> "" ->
  fs !! (with_slash dir +:+ "LOCPROJ") = Some text ->
  read_structure fs dir
    (Build dir Plocar.init Poscar.init Kpoints.init Eigenval.init Doscar.init)
  = (Ok tt, v1) ->
  (call doscar set_doscar (Doscar.from_file fs dir) v1).1 = Raise e0 ->
  is_IOError_or_StopIteration e0 = true ->
  match header_efermi (PyStr.lines text) ≫= float_of_string with
  | Some e =>
      exists v2, new fs dir true true = (Ok tt, v2) /\
                 Doscar.efermi (doscar v2) = Some e
  | None =>
      exists v2, new fs dir true true = (Raise AttributeError, v2)
  end.
Proof.
  intros Hdir Htext Estruct Edos He0.
  pose proof Estruct as Hp.
  apply read_structure_plocar in Hp as (s' & Ep & Hplocar). cbn [plocar] in Ep.
  eapply Plocar_from_file_efermi in Ep; [| done | done]. cbn in Ep.
  destruct (call doscar set_doscar (Doscar.from_file fs dir) v1) as [r0 v1'] eqn:Ecall.
  cbn in Edos. subst r0.
  assert (Hsame : plocar v1' = plocar v1).
  { unfold call in Ecall. destruct (Doscar.from_file fs dir _) as [r s0].
    by injection Ecall as _ <-. }
  destruct (header_efermi (PyStr.lines text) ≫= float_of_string) as [e |].
  - unfold new, init_body. unfold bind at 1. rewrite Estruct.
    unfold read_efermi, try_except at 1. rewrite Ecall, He0. unfold try_except.
    unfold bind at 1, field at 1. rewrite Hsame, Hplocar, Ep. cbn [orelse ret].
    unfold bind at 1, field at 1. rewrite Hsame, Hplocar, Ep. cbn [orelse ret].
    unfold update. eexists. split; [reflexivity |]. done.
  - unfold new, init_body. unfold bind at 1. rewrite Estruct.
    unfold read_efermi, try_except at 1. rewrite Ecall, He0. unfold try_except.
    unfold bind at 1, field at 1. rewrite Hsame, Hplocar, Ep.
    cbn [orelse raise is_NameError]. eauto.
Qed.
End VaspDataInit.


Module VaspDataRuns.
Import VaspData Locproj Samples SamplesDir.

Lemma C3_efermi_fallback_witness :
  (exists v2,
     new (F:=Q) (without_doscar locproj_collinear) "d" true true = (Ok tt, v2) /\
     Doscar.efermi (doscar v2) = Some (51234 # 10000)%Q) /\
  (exists v2,
     new (F:=Q) (without_doscar locproj_noncollinear) "d" true true
     = (Raise AttributeError, v2)).
Proof.
  split.
  - assert (Hh : header_efermi (PyStr.lines locproj_collinear) ≫= float_of_string
                 = Some (51234 # 10000)%Q) by (vm_compute; reflexivity).
    pose proof (C3_efermi_fallback (F:=Q) (without_doscar locproj_collinear) "d"
                  locproj_collinear
                  (read_structure (F:=Q) (without_doscar locproj_collinear) "d"
                     (created "d")).2
                  IOError
                  ltac:(discriminate) ltac:(vm_compute; reflexivity)
                  ltac:(vm_compute; reflexivity) ltac:(vm_compute; reflexivity)
                  eq_refl) as Hthm.
    rewrite Hh in Hthm. exact Hthm.
  - assert (Hh : header_efermi (PyStr.lines locproj_noncollinear)
                   ≫= float_of_string (F:=Q) = None) by (vm_compute; reflexivity).
    pose proof (C3_efermi_fallback (F:=Q) (without_doscar locproj_noncollinear) "d"
                  locproj_noncollinear
                  (read_structure (F:=Q) (without_doscar locproj_noncollinear) "d"
                     (created "d")).2
                  IOError
                  ltac:(discriminate) ltac:(vm_compute; reflexivity)
                  ltac:(vm_compute; reflexivity) ltac:(vm_compute; reflexivity)
                  eq_refl) as Hthm.
    rewrite Hh in Hthm. exact Hthm.
Defined.
End VaspDataRuns.

(** * Further properties of the readers *)

(** ** DOSCAR *)

Section DoscarReader.
Context {F : Type} `{Float64 F}.

Lemma open_file_run {O} fs filename text (s : st O) :
  fs !! filename = Some text ->
  open_file fs filename s = (Ok tt, St (self s) (PyStr.lines text)).
Proof. intros Htext. unfold open_file, read_lines. by rewrite Htext. Qed.

Lemma open_file_missing {O} fs filename (s : st O) :
  fs !! filename = None -> open_file fs filename s = (Raise IOError, s).
Proof. intros Htext. unfold open_file, read_lines. by rewrite Htext. Qed.

(** X1: the DOSCAR reader takes the Fermi level from the fourth token of
    the sixth line and looks at nothing else: a file of fewer than six
    lines ends the read with StopIteration, a sixth line of fewer than
    four tokens with IndexError, a fourth token that is no number with
    ValueError, and in these cases no attribute is assigned; the first
    five lines may hold anything. *)
Theorem X1_doscar_sixth_line fs dir text (s : st (Doscar.t F)) :
  dir <> "" ->
  fs !! (with_slash dir +:+ "DOSCAR") = Some text ->
  Doscar.from_file fs dir s =
  match PyStr.lines text !! 5%nat with
  | None => (Raise StopIteration, St (self s) [])
  | Some line =>
      match PyStr.split line !! 3%nat with
      | None => (Raise IndexError, St (self s) (drop 6 (PyStr.lines text)))
      | Some tok =>
          match float_of_string tok with
          | None => (Raise ValueError, St (self s) (drop 6 (PyStr.lines text)))
          | Some e =>
              (Ok tt, St (Doscar.set_efermi (Some e) (self s)) (drop 6 (PyStr.lines text)))
          end
      end
  end.
Proof.
  intros Hdir Htext. unfold Doscar.from_file.
  unfold bind at 1. rewrite add_slash_Ok by done.
  unfold bind at 1. rewrite (open_file_run _ _ text) by done.
  change (range 4) with [0; 1; 2; 3].
  destruct (PyStr.lines text) as [| l0 [| l1 [| l2 [| l3 [| l4 [| l5 rest]]]]]];
    try reflexivity.
  cbn [lookup list_lookup drop]. unfold forM, float_item.
  unfold bind, next. cbn [unread self foldM ret].
  unfold bind, ret. cbn [unread self].
  destruct (PyStr.split l5 !! 3%nat) as [tok |]; [| reflexivity].
  cbn [orelse ret]. destruct (float_of_string tok); reflexivity.
Qed.
End DoscarReader.

(** ** The container: which files are mandatory *)

Section VaspDataFiles.
Context {F : Type} `{Float64 F}.
Import VaspData Locproj.

Lemma add_slash_empty {S} (s : S) : add_slash "" s = (Raise IndexError, s).
Proof. done. Qed.

Lemma Plocar_from_file_missing fs dir (s : st (Plocar.t F)) :
  dir <> "" -> fs !! (with_slash dir +:+ "LOCPROJ") = None ->
  Plocar.from_file fs dir s = (Raise IOError, s).
Proof.
  intros Hdir Hfs. unfold Plocar.from_file, Plocar.locproj_parser, Plocar.read_preamble.
  unfold bind at 1. rewrite add_slash_Ok by done.
  unfold bind at 1. unfold bind at 1. unfold bind at 1.
  by rewrite open_file_missing.
Qed.

Lemma Poscar_from_file_missing fs dir (s : st (Poscar.t F)) :
  dir <> "" -> fs !! (with_slash dir +:+ "POSCAR") = None ->
  Poscar.from_file fs dir s = (Raise IOError, s).
Proof.
  intros Hdir Hfs. unfold Poscar.from_file.
  unfold bind at 1. rewrite add_slash_Ok by done.
  unfold bind at 1. by rewrite open_file_missing.
Qed.

Lemma Kpoints_from_file_missing fs dir (s : st (Kpoints.t F)) :
  dir <> "" -> fs !! (with_slash dir +:+ "IBZKPT") = None ->
  Kpoints.from_file fs dir s = (Raise IOError, s).
Proof.
  intros Hdir Hfs. unfold Kpoints.from_file.
  unfold bind at 1. rewrite add_slash_Ok by done.
  unfold bind at 1. by rewrite open_file_missing.
Qed.

Lemma Eigenval_from_file_missing fs dir (s : st (Eigenval.t F)) :
  dir <> "" -> fs !! (with_slash dir +:+ "EIGENVAL") = None ->
  Eigenval.from_file fs dir s = (Raise IOError, s).
Proof.
  intros Hdir Hfs. unfold Eigenval.from_file.
  unfold bind at 1. rewrite add_slash_Ok by done.
  unfold bind at 1. by rewrite open_file_missing.
Qed.

Lemma Doscar_from_file_missing fs dir (s : st (Doscar.t F)) :
  dir <> "" -> fs !! (with_slash dir +:+ "DOSCAR") = None ->
  Doscar.from_file fs dir s = (Raise IOError, s).
Proof.
  intros Hdir Hfs. unfold Doscar.from_file.
  unfold bind at 1. rewrite add_slash_Ok by done.
  unfold bind at 1. by rewrite open_file_missing.
Qed.

(** X2: LOCPROJ, POSCAR and IBZKPT are mandatory, in this order: with an
    empty directory name the constructor raises IndexError before any
    file is opened, and the first of the three files that is missing
    makes it raise IOError, whatever the flag for the Fermi level. *)
Theorem X2_mandatory_files fs dir (required : bool) :
  let v0 := Build dir Plocar.init Poscar.init Kpoints.init Eigenval.init Doscar.init in
  (dir = "" -> (new (F:=F) fs dir true required).1 = Raise IndexError) /\
  (dir <> "" ->
   fs !! (with_slash dir +:+ "LOCPROJ") = None ->
   (new (F:=F) fs dir true required).1 = Raise IOError) /\
  (forall va,
     dir <> "" ->
     call plocar set_plocar (Plocar.from_file fs dir) v0 = (Ok tt, va) ->
     fs !! (with_slash dir +:+ "POSCAR") = None ->
     (new (F:=F) fs dir true required).1 = Raise IOError) /\
  (forall va vb,
     dir <> "" ->
     call plocar set_plocar (Plocar.from_file fs dir) v0 = (Ok tt, va) ->
     call poscar set_poscar (Poscar.from_file fs dir) va = (Ok tt, vb) ->
     fs !! (with_slash dir +:+ "IBZKPT") = None ->
     (new (F:=F) fs dir true required).1 = Raise IOError).
Proof.
  intros v0. unfold new, init_body, read_structure. fold v0. split_and!.
  - intros ->. reflexivity.
  - intros Hdir Hfs. unfold bind at 1. unfold bind at 1. unfold call at 1.
    cbn [plocar v0]. by rewrite Plocar_from_file_missing.
  - intros va Hdir Ea Hfs. unfold bind at 1. unfold bind at 1. rewrite Ea.
    unfold bind at 1. unfold call at 1. by rewrite Poscar_from_file_missing.
  - intros va vb Hdir Ea Eb Hfs. unfold bind at 1. unfold bind at 1. rewrite Ea.
    unfold bind at 1. rewrite Eb.
    unfold bind at 1. unfold call at 1. by rewrite Kpoints_from_file_missing.
Qed.

(** X3: EIGENVAL is optional only as far as it is missing or too short:
    once the three mandatory files are read, a read of EIGENVAL that
    raises IOError or StopIteration is answered by setting the
    eigenvalues and the occupations to None, keeping what else was read,
    and the constructor goes on; any other exception of that read (the
    assertion on the format, a token that is no number) leaves the
    constructor. *)
Theorem X3_eigenval_optional fs dir (v va vb vc : VaspData.t F) e s' :
  call plocar set_plocar (Plocar.from_file fs dir) v = (Ok tt, va) ->
  call poscar set_poscar (Poscar.from_file fs dir) va = (Ok tt, vb) ->
  call kpoints set_kpoints (Kpoints.from_file fs dir) vb = (Ok tt, vc) ->
  Eigenval.from_file fs dir (St (eigenval vc) []) = (Raise e, s') ->
  read_structure fs dir v =
  if is_IOError_or_StopIteration e
  then (Ok tt, set_eigenval (Eigenval.set_ferw None (Eigenval.set_eigs None (self s'))) vc)
  else (Raise e, set_eigenval (self s') vc).
Proof.
  intros Ea Eb Ec Ee. unfold read_structure.
  unfold bind at 1. rewrite Ea. unfold bind at 1. rewrite Eb.
  unfold bind at 1. rewrite Ec.
  unfold try_except, call at 1. rewrite Ee.
  destruct (is_IOError_or_StopIteration e); reflexivity.
Qed.
End VaspDataFiles.

Section VaspDataFallback.
Context {F : Type} `{Float64 F}.
Import VaspData Locproj.

(** The attributes of the LOCPROJ reader after a read that returns. *)
Lemma Plocar_from_file_Ok fs dir text (s s' : st (Plocar.t F)) u :
  dir <> "" ->
  fs !! (with_slash dir +:+ "LOCPROJ") = Some text ->
  Plocar.from_file fs dir s = (Ok u, s') ->
  exists ncdij0 nk nband0 nproj pp plo,
    header_fields (PyStr.lines text) = Some (ncdij0, nk, nband0, nproj) /\
    Plocar.nspin (self s') = Some (if ncdij0 <? 4 then ncdij0 else 1) /\
    Plocar.nspin_band (self s') = Some (if ncdij0 =? 2 then 2 else 1) /\
    Plocar.nc_flag (self s') = Some (if ncdij0 =? 4 then 1 else 0) /\
    Plocar.proj_params (self s') = Some pp /\
    Plocar.plo (self s') = Some plo /\
    length pp = Z.to_nat nproj /\
    (forall i line, metadata_block (PyStr.lines text) !! i = Some line ->
       exists d, pp !! i = Some d /\ filled ncdij0 i line d).
Proof.
  intros Hdir Htext E. unfold Plocar.from_file in E.
  unfold bind at 1 in E. rewrite add_slash_Ok in E by done.
  apply bind_Ok_inv in E as ([pp plo] & s1 & E1 & E).
  apply locproj_parser_Ok in E1
    as (text' & ncdij0 & nk & nband0 & nproj & Htext' & Hf & Hns & Hnsb & Hnc & _ & _ & _
        & _ & _ & _ & _ & Hlen & Hfilled).
  assert (text' = text) as -> by congruence.
  apply bind_Ok_inv in E as (u1 & s2 & E1 & E).
  apply assign_Ok in E1 as ->. apply assign_Ok in E as ->.
  exists ncdij0, nk, nband0, nproj, pp, plo. cbn. split_and!; done.
Qed.

(** X4: when DOSCAR cannot be read and the Fermi level is not required,
    the constructor returns, and the attribute ncdij of the DOSCAR reader
    is the number of spin channels of the LOCPROJ reader: the ncdij of
    LOCPROJ when that is less than 4, and 1 otherwise. *)
Theorem X4_ncdij_from_locproj fs dir text ncdij0 nk nband0 nproj (v1 : VaspData.t F) e0 :
  dir <> "" ->
  fs !! (with_slash dir +:+ "LOCPROJ") = Some text ->
  header_fields (PyStr.lines text) = Some (ncdij0, nk, nband0, nproj) ->
  read_structure fs dir
    (Build dir Plocar.init Poscar.init Kpoints.init Eigenval.init Doscar.init)
  = (Ok tt, v1) ->
  (call doscar set_doscar (Doscar.from_file fs dir) v1).1 = Raise e0 ->
  is_IOError_or_StopIteration e0 = true ->
  exists v2,
    new fs dir true false = (Ok tt, v2) /\
    Doscar.ncdij (doscar v2) = Some (if ncdij0 <? 4 then ncdij0 else 1).
Proof.
  intros Hdir Htext Hf Estruct Edos He0.
  pose proof Estruct as Hp.
  apply read_structure_plocar in Hp as (s' & Ep & Hplocar). cbn [plocar] in Ep.
  eapply Plocar_from_file_Ok in Ep
    as (ncdij1 & nk1 & nband1 & nproj1 & pp & plo & Hf' & Hns & _); [| done | done].
  assert (ncdij1 = ncdij0) as -> by congruence.
  destruct (call doscar set_doscar (Doscar.from_file fs dir) v1) as [r0 v1'] eqn:Ecall.
  cbn in Edos. subst r0.
  assert (Hsame : plocar v1' = plocar v1).
  { unfold call in Ecall. destruct (Doscar.from_file fs dir _) as [r s0].
    by injection Ecall as _ <-. }
  unfold new, init_body. unfold bind at 1. rewrite Estruct.
  unfold read_efermi, try_except. rewrite Ecall, He0.
  unfold bind, field. rewrite Hsame, Hplocar, Hns. cbn [orelse ret]. unfold update.
  eexists. split; [reflexivity |]. done.
Qed.
End VaspDataFallback.

(** ** Directory names *)

Section Slash.

Lemma with_slash_ends_in_slash dir :
  last_item (list_ascii_of_string (with_slash dir)) = Some "/"%char.
Proof.
  unfold with_slash, last_item.
  destruct (last (list_ascii_of_string dir)) as [c |] eqn:El.
  - destruct (Ascii.eqb c "/") eqn:Ec.
    + apply Ascii.eqb_eq in Ec. subst c. cbn. rewrite El. done.
    + assert (Hdef : (match c with
                      | "/"%char => dir
                      | _ => dir +:+ "/"
                      end) = dir +:+ "/").
      { destruct c as [[] [] [] [] [] [] [] []]; try done. }
      rewrite Hdef.
      assert (Happ : list_ascii_of_string (dir +:+ "/")
                     = list_ascii_of_string dir ++ ["/"%char]).
      { clear. induction dir as [| a r IH]; cbn; [done |]. by rewrite <- IH. }
      rewrite Happ. apply last_snoc.
  - assert (Happ : list_ascii_of_string (dir +:+ "/")
                   = list_ascii_of_string dir ++ ["/"%char]).
    { clear. induction dir as [| a r IH]; cbn; [done |]. by rewrite <- IH. }
    rewrite Happ. apply last_snoc.
Qed.

(** X5: adding the slash is idempotent, so a directory can be named
    with its slash or without it: every reader opens the same file and
    behaves the same on [dir] and on [dir] with a slash added. *)
Theorem X5_trailing_slash {F} `{Float64 F} fs dir :
  dir <> "" ->
  with_slash (with_slash dir) = with_slash dir /\
  (forall s, Plocar.from_file (F:=F) fs (with_slash dir) s = Plocar.from_file fs dir s) /\
  (forall s, Poscar.from_file (F:=F) fs (with_slash dir) s = Poscar.from_file fs dir s) /\
  (forall s, Kpoints.from_file (F:=F) fs (with_slash dir) s = Kpoints.from_file fs dir s) /\
  (forall s, Eigenval.from_file (F:=F) fs (with_slash dir) s = Eigenval.from_file fs dir s) /\
  (forall s, Doscar.from_file (F:=F) fs (with_slash dir) s = Doscar.from_file fs dir s).
Proof.
  intros Hdir.
  assert (Hidem : with_slash (with_slash dir) = with_slash dir).
  { unfold with_slash at 1. by rewrite with_slash_ends_in_slash. }
  assert (Hne : with_slash dir <> "").
  { intros Hempty. pose proof (with_slash_ends_in_slash dir) as Hl.
    rewrite Hempty in Hl. done. }
  assert (Hbind : forall S A d (k : string -> M S A) (s : S),
            d <> "" -> bind (add_slash d) k s = k (with_slash d) s).
  { intros S A d k s Hd. unfold bind. by rewrite add_slash_Ok. }
  split_and!; [done | | | | |]; intros s.
  - unfold Plocar.from_file. by rewrite !Hbind, Hidem.
  - unfold Poscar.from_file. by rewrite !Hbind, Hidem.
  - unfold Kpoints.from_file. by rewrite !Hbind, Hidem.
  - unfold Eigenval.from_file. by rewrite !Hbind, Hidem.
  - unfold Doscar.from_file. by rewrite !Hbind, Hidem.
Qed.
End Slash.

(** ** Orbital indices *)

Section Orbitals.

(** X6: the index of an orbital label splits into l and m without loss:
    for an index lm that is not negative (and below 2^52, where the
    square root of the code is exact), l is the integer square root of
    lm, m lies between 0 and 2l, and lm = l*l + m; the sixteen labels of
    the table have l from 0 to 3. *)
Theorem X6_lm_split (lm : Z) :
  0 <= lm < 2 ^ 52 ->
  let '(l, m) := Plocar.lm_to_l_m lm in
  0 <= l /\ 0 <= m <= 2 * l /\ lm = l * l + m /\
  (lm < 16 -> l <= 3).
Proof.
  intros [Hlm _]. unfold Plocar.lm_to_l_m.
  pose proof (Z.sqrt_spec lm Hlm) as [Hlo Hhi].
  pose proof (Z.sqrt_nonneg lm) as Hnn.
  split_and!; try lia.
Qed.
End Orbitals.

Module ExtraRuns.
Import VaspData Locproj Samples SamplesDir SamplesEigenval.

Lemma X2_mandatory_files_witness :
  (new (F:=Q) (without_doscar locproj_collinear) "" true true).1 = Raise IndexError /\
  (new (F:=Q) ∅ "d" true true).1 = Raise IOError /\
  (new (F:=Q) (single "d/LOCPROJ" locproj_collinear) "d" true true).1 = Raise IOError.
Proof.
  split_and!.
  - pose proof (X2_mandatory_files (F:=Q) (without_doscar locproj_collinear) "" true)
      as Hthm.
    cbv zeta in Hthm. destruct Hthm as (Hempty & _). exact (Hempty eq_refl).
  - pose proof (X2_mandatory_files (F:=Q) ∅ "d" true) as Hthm.
    cbv zeta in Hthm. destruct Hthm as (_ & Hlocproj & _).
    apply Hlocproj; [discriminate | reflexivity].
  - pose proof (X2_mandatory_files (F:=Q) (single "d/LOCPROJ" locproj_collinear) "d" true)
      as Hthm.
    cbv zeta in Hthm. destruct Hthm as (_ & _ & Hposcar & _).
    apply (Hposcar (call plocar set_plocar
                      (Plocar.from_file (single "d/LOCPROJ" locproj_collinear) "d")
                      (created "d")).2).
    + discriminate.
    + vm_compute; reflexivity.
    + vm_compute; reflexivity.
Defined.

Lemma X3_eigenval_optional_witness :
  (exists v1,
     read_structure (F:=Q) (without_doscar locproj_collinear) "d" (created "d") = (Ok tt, v1) /\
     Eigenval.eigs (eigenval v1) = None /\ Eigenval.ferw (eigenval v1) = None) /\
  (exists v1,
     read_structure (F:=Q) (with_eigenval locproj_collinear old_format) "d" (created "d")
     = (Raise (AssertionError Eigenval.incorrect), v1)).
Proof.
  split.
  - pose (fs := without_doscar locproj_collinear).
    assert (Ea : call plocar set_plocar (Plocar.from_file (F:=Q) fs "d") (created "d")
                 = (Ok tt, after_locproj fs)) by (vm_compute; reflexivity).
    assert (Eb : call poscar set_poscar (Poscar.from_file (F:=Q) fs "d") (after_locproj fs)
                 = (Ok tt, after_poscar fs)) by (vm_compute; reflexivity).
    assert (Ec : call kpoints set_kpoints (Kpoints.from_file (F:=Q) fs "d") (after_poscar fs)
                 = (Ok tt, after_ibzkpt fs)) by (vm_compute; reflexivity).
    assert (Ee : Eigenval.from_file (F:=Q) fs "d" (St (eigenval (after_ibzkpt fs)) [])
                 = (Raise IOError, St (eigenval (after_ibzkpt fs)) []))
      by (vm_compute; reflexivity).
    pose proof (X3_eigenval_optional (F:=Q) fs "d" (created "d") _ _ _ _ _ Ea Eb Ec Ee)
      as Hthm.
    cbn [is_IOError_or_StopIteration] in Hthm.
    eexists. split; [exact Hthm |]. split; reflexivity.
  - pose (fs := with_eigenval locproj_collinear old_format).
    assert (Ea : call plocar set_plocar (Plocar.from_file (F:=Q) fs "d") (created "d")
                 = (Ok tt, after_locproj fs)) by (vm_compute; reflexivity).
    assert (Eb : call poscar set_poscar (Poscar.from_file (F:=Q) fs "d") (after_locproj fs)
                 = (Ok tt, after_poscar fs)) by (vm_compute; reflexivity).
    assert (Ec : call kpoints set_kpoints (Kpoints.from_file (F:=Q) fs "d") (after_poscar fs)
                 = (Ok tt, after_ibzkpt fs)) by (vm_compute; reflexivity).
    assert (Ee : Eigenval.from_file (F:=Q) fs "d" (St (eigenval (after_ibzkpt fs)) [])
                 = (Raise (AssertionError Eigenval.incorrect),
                    (Eigenval.from_file (F:=Q) fs "d"
                       (St (eigenval (after_ibzkpt fs)) [])).2))
      by (vm_compute; reflexivity).
    pose proof (X3_eigenval_optional (F:=Q) fs "d" (created "d") _ _ _ _ _ Ea Eb Ec Ee)
      as Hthm.
    cbn [is_IOError_or_StopIteration] in Hthm.
    eexists. exact Hthm.
Defined.

Lemma X4_ncdij_from_locproj_witness :
  exists v2,
    new (F:=Q) (without_doscar locproj_noncollinear) "d" true false = (Ok tt, v2) /\
    Doscar.ncdij (doscar v2) = Some 1.
Proof.
  exact (X4_ncdij_from_locproj (F:=Q) (without_doscar locproj_noncollinear) "d"
           locproj_noncollinear 4 1 1 2
           (read_structure (F:=Q) (without_doscar locproj_noncollinear) "d" (created "d")).2
           IOError
           ltac:(discriminate) ltac:(vm_compute; reflexivity)
           ltac:(vm_compute; reflexivity) ltac:(vm_compute; reflexivity)
           ltac:(vm_compute; reflexivity) eq_refl).
Defined.

Lemma X5_trailing_slash_witness :
  with_slash (with_slash "d") = with_slash "d" /\
  Kpoints.from_file (F:=Q) (single "d/IBZKPT" SamplesIbzkpt.mesh_4x1x1) (with_slash "d")
    (St Kpoints.init [])
  = Kpoints.from_file (single "d/IBZKPT" SamplesIbzkpt.mesh_4x1x1) "d" (St Kpoints.init []).
Proof.
  pose proof (X5_trailing_slash (F:=Q) (single "d/IBZKPT" SamplesIbzkpt.mesh_4x1x1) "d"
                ltac:(discriminate)) as (Hidem & _ & _ & Hk & _).
  split; [exact Hidem | apply Hk].
Defined.

Lemma X6_lm_split_witness :
  let '(l, m) := Plocar.lm_to_l_m 5 in
  0 <= l /\ 0 <= m <= 2 * l /\ 5 = l * l + m /\ (5 < 16 -> l <= 3).
Proof. exact (X6_lm_split 5 ltac:(lia)). Defined.

Lemma X1_doscar_sixth_line_witness :
  (Doscar.from_file (F:=Q) (single "d/DOSCAR" SamplesIbzkpt.mesh_4x1x1) "d"
     (St Doscar.init [])).1 = Ok tt /\
  (Doscar.from_file (F:=Q) (single "d/DOSCAR" SamplesIbzkpt.mesh_short) "d"
     (St Doscar.init [])).1 = Raise StopIteration.
Proof.
  split.
  - rewrite (X1_doscar_sixth_line (F:=Q) (single "d/DOSCAR" SamplesIbzkpt.mesh_4x1x1) "d"
               SamplesIbzkpt.mesh_4x1x1 (St Doscar.init [])
               ltac:(discriminate) ltac:(vm_compute; reflexivity)).
    vm_compute. reflexivity.
  - rewrite (X1_doscar_sixth_line (F:=Q) (single "d/DOSCAR" SamplesIbzkpt.mesh_short) "d"
               SamplesIbzkpt.mesh_short (St Doscar.init [])
               ltac:(discriminate) ltac:(vm_compute; reflexivity)).
    vm_compute. reflexivity.
Defined.
End ExtraRuns.

(** ** LOCPROJ: a file that ends where a record is due *)

Section PlocarTruncated.
Context {F : Type} `{Float64 F}.
Import Plocar Locproj.

(** X7: the loop that looks for the next record does not end at the end
    of the file: when the records of the loop positions [seen] have been
    read and nothing but blank lines is left where the record of the
    next position is due, the parse does not return and does not raise. *)
Theorem X7_locproj_missing_record fs fname (s s1 s2 : st (Plocar.t F))
    nspin0 nk nband0 nproj plo pp seen pos todo plo' :
  read_preamble fs fname s = (Ok (nspin0, nk, nband0, nproj, plo, pp), s1) ->
  loop_positions nspin0 nk nband0 = seen ++ pos :: todo ->
  foldM (read_record nproj) seen plo s1 = (Ok plo', s2) ->
  next_record (unread s2) = None ->
  locproj_parser fs fname s = (Diverge, St (self s2) []).
Proof.
  intros Epre Hpos Eseen Hnone. unfold locproj_parser.
  unfold bind at 1. rewrite Epre.
  apply bind_Diverge. rewrite read_records_flat, Hpos, foldM_app.
  unfold bind at 1. rewrite Eseen. cbn [foldM].
  apply bind_Diverge. destruct pos as [[ispin ik] ib]. unfold read_record.
  apply bind_Diverge.
  pose proof (skip_blank_spec (unread s2) s2) as Hskip. by rewrite Hnone in Hskip.
Qed.
End PlocarTruncated.

(** ** POSCAR: a scale that is not negative, and the line of the
    selective dynamics *)

Section PoscarPlain.
Import Poscar PoscarFile.

(** X8: a scale that is not negative is the factor itself: each of the
    nine numbers of the lattice vectors is multiplied by the scale as it
    is written, and the determinant plays no part. *)
Theorem X8_plain_scale (s : st (Poscar.t R)) c lsc l1 l2 l3 rest sc
    x11 x12 x13 x21 x22 x23 x31 x32 x33 :
  unread s = c :: lsc :: l1 :: l2 :: l3 :: rest ->
  float_of_string (clean lsc) = Some sc ->
  map_conv float_of_string (fields l1) = Some [x11; x12; x13] ->
  map_conv float_of_string (fields l2) = Some [x21; x22; x23] ->
  map_conv float_of_string (fields l3) = Some [x31; x32; x33] ->
  (0 <= sc)%R ->
  exists s',
    read_lattice s = (Ok tt, s') /\
    unread s' = rest /\
    a_brav (self s') =
      Some [[x11 * sc; x12 * sc; x13 * sc];
            [x21 * sc; x22 * sc; x23 * sc];
            [x31 * sc; x32 * sc; x33 * sc]]%R.
Proof.
  intros Hu Hsc H1 H2 H3 Hpos.
  assert (Hfactor : effective_scale sc [[x11; x12; x13]; [x21; x22; x23]; [x31; x32; x33]]
                    = sc).
  { unfold effective_scale.
    destruct (fltb sc (float_of_Z 0)) eqn:Hlt; [| done].
    apply Rltb_spec in Hlt. cbn in Hlt. lra. }
  eexists. split_and!.
  - by apply (read_lattice_run s c lsc l1 l2 l3 rest sc).
  - done.
  - cbn [self a_brav set_a_brav]. rewrite Hfactor. done.
Qed.

(** X9: a line that begins with s or S where the coordinate mode is
    expected is skipped: the positions are read as if the line were not
    there, the mode being taken from the line after it. *)
Theorem X9_selective_dynamics {F} `{Float64 F} (o : Poscar.t F) l0 l1 rest c0 t0 c1 t1 :
  clean l0 = String c0 t0 ->
  PyStr.lower c0 = "s"%char ->
  clean l1 = String c1 t1 ->
  PyStr.lower c1 <> "s"%char ->
  read_positions (St o (l0 :: l1 :: rest)) = read_positions (St o (l1 :: rest)).
Proof.
  intros H0 Hs H1 Hns. unfold read_positions.
  unfold bind at 1. rewrite readline_remove_comments_cons.
  symmetry. unfold bind at 1. rewrite readline_remove_comments_cons. symmetry.
  rewrite H0, H1.
  unfold bind at 1. cbn [first_lower ret]. rewrite Hs. cbn [Ascii.eqb Bool.eqb].
  unfold bind at 1. rewrite readline_remove_comments_cons. rewrite H1.
  symmetry. unfold bind at 1. cbn [first_lower ret].
  assert (Hneq : Ascii.eqb (PyStr.lower c1) "s" = false) by (by apply Ascii.eqb_neq).
  rewrite Hneq. unfold bind at 1. cbn [ret]. done.
Qed.
End PoscarPlain.
Module MoreRuns.
Import Samples SamplesPoscar.

Lemma X7_locproj_missing_record_witness :
  exists s',
    Plocar.locproj_parser (F:=Q) (single "LOCPROJ" locproj_one_of_two) "LOCPROJ"
      (St Plocar.init []) = (Diverge, s').
Proof.
  pose (fs := single "LOCPROJ" locproj_one_of_two).
  pose (pre := Plocar.read_preamble (F:=Q) fs "LOCPROJ" (St Plocar.init [])).
  pose (plo0 := (returned (0, 0, 0, 0, NdArray [] [], []) pre.1).1.2).
  pose (pp0 := (returned (0, 0, 0, 0, NdArray [] [], []) pre.1).2).
  pose (one := foldM (Plocar.read_record (F:=Q) 1) [(0, 0, 0)] plo0 pre.2).
  assert (Epre : Plocar.read_preamble (F:=Q) fs "LOCPROJ" (St Plocar.init [])
                 = (Ok (1, 1, 2, 1, plo0, pp0), pre.2)) by (vm_compute; reflexivity).
  assert (Hpos : Locproj.loop_positions 1 1 2 = [(0, 0, 0)] ++ (0, 0, 1) :: [])
    by (vm_compute; reflexivity).
  assert (Eseen : foldM (Plocar.read_record (F:=Q) 1) [(0, 0, 0)] plo0 pre.2
                  = (Ok (returned (NdArray [] []) one.1), one.2))
    by (vm_compute; reflexivity).
  assert (Hnone : Locproj.next_record (unread one.2) = None) by (vm_compute; reflexivity).
  eexists.
  exact (X7_locproj_missing_record (F:=Q) fs "LOCPROJ" _ _ _ _ _ _ _ _ _ _ _ _ _
           Epre Hpos Eseen Hnone).
Defined.

Lemma X8_plain_scale_witness :
  exists s',
    Poscar.read_lattice (F:=R) (St Poscar.init (PyStr.lines without_names)) = (Ok tt, s') /\
    Poscar.a_brav (self s') = Some [[2; 0; 0]; [0; 2; 0]; [0; 0; 2]]%R.
Proof.
  edestruct (X8_plain_scale (St Poscar.init (PyStr.lines without_names)))
    as (s' & Hrun & _ & Hbrav).
  - vm_compute. reflexivity.
  - vm_compute. reflexivity.
  - vm_compute. reflexivity.
  - vm_compute. reflexivity.
  - vm_compute. reflexivity.
  - cbn. lra.
  - exists s'. split; [exact Hrun |]. rewrite Hbrav.
    repeat f_equal; cbn; lra.
Defined.

Lemma X9_selective_dynamics_witness :
  Poscar.read_positions (F:=Q)
    (St Poscar.init ["Selective dynamics" +:+ nl; "Cartesian" +:+ nl])
  = Poscar.read_positions (St Poscar.init ["Cartesian" +:+ nl]).
Proof.
  eapply (X9_selective_dynamics (F:=Q)).
  - vm_compute. reflexivity.
  - reflexivity.
  - vm_compute. reflexivity.
  - discriminate.
Defined.
End MoreRuns.
